(** * Folder tree of the multi-tenant file system backend

    A shallow embedding of the folder routes ([src/routes/folderRoutes.ts]),
    the tenant-provisioning route ([src/routes/tenants/tenantRouter.ts]),
    the tenant-access middleware ([src/middleware/auth.ts]) and of the part
    of the relational schema they touch ([prisma/migrations/*.sql]).

    The database is an explicit state; every Prisma call is an action of a
    small state-and-exception monad, [$transaction] is the combinator that
    restores the state on an exception, and a route handler is a function
    from the database and a request to a response and a database. *)

From Stdlib Require Import Ascii String ZArith.
From stdpp Require Import base decidable option list strings pretty sorting.

Local Open Scope string_scope.

(** ** Strings as JavaScript uses them *)

Definition char_code (c : ascii) : nat := nat_of_ascii c.

Definition hyphen : ascii := ascii_of_nat 45.
Definition underscore : ascii := ascii_of_nat 95.
Definition dot : ascii := ascii_of_nat 46.
Definition dquote : string := String (ascii_of_nat 34) EmptyString.

(** [s.replace(/-/g, "_")] *)
Fixpoint replace_hyphens (s : string) : string :=
  match s with
  | EmptyString => EmptyString
  | String c s' =>
      String (if decide (c = hyphen) then underscore else c) (replace_hyphens s')
  end.

(** The ASCII part of the white space that [String.prototype.trim] strips:
    TAB, LF, VT, FF, CR and SPACE. *)
Definition is_space (c : ascii) : bool :=
  let n := char_code c in (((9 <=? n) && (n <=? 13)) || (n =? 32))%nat.

Fixpoint trim_start (s : string) : string :=
  match s with
  | EmptyString => EmptyString
  | String c s' => if is_space c then trim_start s' else s
  end.

Fixpoint trim_end (s : string) : string :=
  match s with
  | EmptyString => EmptyString
  | String c s' =>
      match trim_end s' with
      | EmptyString => if is_space c then EmptyString else String c EmptyString
      | r => String c r
      end
  end.

(** [s.trim()], for a string of ASCII characters ([plain_text] below). *)
Definition trim (s : string) : string := trim_end (trim_start s).

(** Strings that [trim] and the program read alike.  A [string] here is a
    sequence of bytes; a string all of whose bytes are between 1 and 127 is
    its own UTF-16 form, [String.prototype.trim] strips from it exactly the
    white space of [is_space] (the other characters it strips, U+00A0,
    U+FEFF, U+2028 and the like, are not ASCII), and PostgreSQL takes it as
    a text parameter (it refuses the byte 0, SQLSTATE 22021). *)
Definition plain_char (c : ascii) : bool :=
  let n := char_code c in ((1 <=? n) && (n <=? 127))%nat.

Fixpoint plain_text (s : string) : bool :=
  match s with
  | EmptyString => true
  | String c s' => plain_char c && plain_text s'
  end.

(** Nothing but TAB, LF, VT, FF, CR and SPACE. *)
Fixpoint ascii_blank (s : string) : bool :=
  match s with
  | EmptyString => true
  | String c s' => is_space c && ascii_blank s'
  end.

(** ** The [ltree] column type

    PostgreSQL's [ltree] extension is not part of the repository; it is
    modelled here as far as the routes use it: the text syntax (labels
    separated by dots, a label being a non-empty word over letters, digits
    and the underscore, which is why the routes replace the hyphens of a
    UUID), [nlevel], the containment operators and the ordering. *)

Module Ltree.

Definition label_char (c : ascii) : bool :=
  let n := char_code c in
  (((48 <=? n) && (n <=? 57)) || ((65 <=? n) && (n <=? 90))
   || ((97 <=? n) && (n <=? 122)) || (n =? 95))%nat.

Fixpoint word (s : string) : bool :=
  match s with
  | EmptyString => true
  | String c s' => label_char c && word s'
  end.

Definition label_ok (l : string) : bool :=
  match l with
  | EmptyString => false
  | _ => word l
  end.

(** A value of the column type: its labels are well formed by typing. *)
Record t := mk { labels : list string; wf : Is_true (forallb label_ok labels) }.

Definition of_labels (ls : list string) : option t :=
  match decide (Is_true (forallb label_ok ls)) with
  | left H => Some (mk ls H)
  | right _ => None
  end.

(** Cutting a text at the dots; the result is never empty. *)
Fixpoint split_dot (s : string) : list string :=
  match s with
  | EmptyString => [EmptyString]
  | String c s' =>
      if decide (c = dot) then EmptyString :: split_dot s'
      else match split_dot s' with
           | l :: ls => String c l :: ls
           | [] => [String c EmptyString]
           end
  end.

Fixpoint join_dot (ls : list string) : string :=
  match ls with
  | [] => EmptyString
  | [l] => l
  | l :: ls' => l ++ String dot (join_dot ls')
  end.

(** [text::ltree]; [None] is the syntax error the server raises. *)
Definition ltree_in (s : string) : option t :=
  match s with
  | EmptyString => of_labels []
  | _ => of_labels (split_dot s)
  end.

(** [path::text] *)
Definition ltree_out (p : t) : string := join_dot (labels p).

Definition nlevel (p : t) : nat := length (labels p).

(** [a @> b]: [a] is an ancestor of [b], or [b] itself. *)
Definition isparent (a b : t) : Prop := labels a `prefix_of` labels b.

(** [a <@ b]: [a] is a descendant of [b], or [b] itself. *)
Definition risparent (a b : t) : Prop := isparent b a.

(** [ltree_compare]: label by label in byte order, then by length. *)
Fixpoint compare_labels (a b : list string) : comparison :=
  match a, b with
  | [], [] => Eq
  | [], _ :: _ => Lt
  | _ :: _, [] => Gt
  | x :: a', y :: b' =>
      match String.compare x y with
      | Eq => compare_labels a' b'
      | r => r
      end
  end.

Definition compare (a b : t) : comparison := compare_labels (labels a) (labels b).

Definition le (a b : t) : Prop := compare a b <> Gt.

End Ltree.

Notation "a '@>' b" := (Ltree.isparent a b) (at level 70, no associativity).
Notation "a '<@' b" := (Ltree.risparent a b) (at level 70, no associativity).

#[global] Instance ltree_eq_dec : EqDecision Ltree.t.
Proof.
  intros [a Ha] [b Hb]. destruct (decide (a = b)) as [->|Hne].
  - left. f_equal. apply proof_irrel.
  - right. intros [=]. contradiction.
Defined.

#[global] Instance isparent_dec a b : Decision (a @> b).
Proof. unfold Ltree.isparent. apply _. Defined.

#[global] Instance risparent_dec a b : Decision (a <@ b).
Proof. unfold Ltree.risparent. apply _. Defined.

#[global] Instance ltree_le_dec a b : Decision (Ltree.le a b).
Proof. unfold Ltree.le. apply _. Defined.

(** ** The tables

    One record per table of the migrations, with the columns the routes
    read or write.  The time stamps [createdAt] and [updatedAt], the JSON
    [permissions] of a membership and the columns of [File] that only the
    file service uses are left out: no folder or tenant route branches on
    them. *)

Inductive UserRole := SUPER_ADMIN | TENANT_ADMIN | USER.

Module Folder.
Record t := mk {
  id : string;
  name : string;
  parentId : option string;
  tenantId : string;
  path : Ltree.t
}.
End Folder.

Module File.
Record t := mk { id : string; name : string; folderId : string; tenantId : string }.
End File.

Module FileVersion.
Record t := mk { id : string; fileId : string }.
End FileVersion.

Module Tenant.
Record t := mk { id : string; name : string; rootFolderId : option string }.
End Tenant.

Module TenantMember.
Record t := mk { userId : string; tenantId : string; role : UserRole }.
End TenantMember.

Record Db := mkDb {
  folders : list Folder.t;
  files : list File.t;
  fileVersions : list FileVersion.t;
  tenants : list Tenant.t;
  tenantMembers : list TenantMember.t
}.

#[global] Instance UserRole_eq_dec : EqDecision UserRole.
Proof. solve_decision. Defined.
#[global] Instance Folder_eq_dec : EqDecision Folder.t.
Proof. solve_decision. Defined.
#[global] Instance File_eq_dec : EqDecision File.t.
Proof. solve_decision. Defined.
#[global] Instance FileVersion_eq_dec : EqDecision FileVersion.t.
Proof. solve_decision. Defined.
#[global] Instance Tenant_eq_dec : EqDecision Tenant.t.
Proof. solve_decision. Defined.
#[global] Instance TenantMember_eq_dec : EqDecision TenantMember.t.
Proof. solve_decision. Defined.

Definition set_folders (fs : list Folder.t) (db : Db) : Db :=
  mkDb fs (files db) (fileVersions db) (tenants db) (tenantMembers db).
Definition set_files (fs : list File.t) (db : Db) : Db :=
  mkDb (folders db) fs (fileVersions db) (tenants db) (tenantMembers db).
Definition set_tenants (ts : list Tenant.t) (db : Db) : Db :=
  mkDb (folders db) (files db) (fileVersions db) ts (tenantMembers db).
Definition set_tenantMembers (ms : list TenantMember.t) (db : Db) : Db :=
  mkDb (folders db) (files db) (fileVersions db) (tenants db) ms.

(** ** Prisma calls: state and exceptions

    A call runs on the database and either returns a value or throws; the
    database it leaves behind is part of the result in both cases, because
    outside [$transaction] the writes of earlier calls stay when a later
    call throws. *)

Inductive PrismaError :=
  | UniqueConstraint (index : string)
  | ForeignKeyConstraint (constraint : string)
  | RecordNotFound
  | NotNullConstraint (column : string)
  | LtreeSyntax.

Definition Prisma (A : Type) : Type := Db -> Db * (PrismaError + A).

#[global] Instance Prisma_ret : MRet Prisma := fun A a db => (db, inr a).

#[global] Instance Prisma_bind : MBind Prisma := fun A B k m db =>
  match m db with
  | (db', inr a) => k a db'
  | (db', inl e) => (db', inl e)
  end.

Definition throw {A} (e : PrismaError) : Prisma A := fun db => (db, inl e).

Definition query {A} (f : Db -> A) : Prisma A := fun db => (db, inr (f db)).

(** [prisma.$transaction(async (tx) => body)]: the writes of [body] are
    kept when it returns and undone when it throws. *)
Definition transaction {A} (body : Prisma A) : Prisma A := fun db =>
  match body db with
  | (db', inr a) => (db', inr a)
  | (_, inl e) => (db, inl e)
  end.

(** A parameter written [${text}::ltree] in a raw statement. *)
Definition cast_ltree (text : string) : Prisma Ltree.t :=
  match Ltree.ltree_in text with
  | Some p => mret p
  | None => throw LtreeSyntax
  end.

Definition any {A} (P : A -> Prop) `{forall x, Decision (P x)} (l : list A) : bool :=
  bool_decide (Exists P l).

Definition findFirst {A} (P : A -> Prop) `{forall x, Decision (P x)} (l : list A) : option A :=
  head (filter P l).

(** *** Statements on the tables, with the constraints of the migrations *)

(** [WHERE path <@ ${path}::ltree AND "tenantId" = ${tenantId}] *)
Definition in_subtree (pivot : Ltree.t) (tenantId : string) (f : Folder.t) : Prop :=
  Folder.path f <@ pivot /\ Folder.tenantId f = tenantId.

#[global] Instance in_subtree_dec pivot tenantId f : Decision (in_subtree pivot tenantId f).
Proof. unfold in_subtree. apply _. Defined.

(** [INSERT INTO "Folder"]: primary key, the unique index
    [Folder_parentId_name_tenantId_key] (rows with a NULL [parentId] never
    collide), and the two foreign keys. *)
Definition same_slot (f g : Folder.t) : Prop :=
  is_Some (Folder.parentId f) /\ Folder.parentId g = Folder.parentId f
  /\ Folder.name g = Folder.name f /\ Folder.tenantId g = Folder.tenantId f.

#[global] Instance same_slot_dec f g : Decision (same_slot f g).
Proof. unfold same_slot. apply _. Defined.

Definition parent_missing (f : Folder.t) (db : Db) : bool :=
  match Folder.parentId f with
  | Some p => negb (any (fun g => Folder.id g = p) (folders db))
  | None => false
  end.

Definition insert_folder (f : Folder.t) : Prisma unit := fun db =>
  if any (fun g => Folder.id g = Folder.id f) (folders db)
  then (db, inl (UniqueConstraint "Folder_pkey"))
  else if any (same_slot f) (folders db)
  then (db, inl (UniqueConstraint "Folder_parentId_name_tenantId_key"))
  else if parent_missing f db
  then (db, inl (ForeignKeyConstraint "Folder_parentId_fkey"))
  else if negb (any (fun t => Tenant.id t = Folder.tenantId f) (tenants db))
  then (db, inl (ForeignKeyConstraint "Folder_tenantId_fkey"))
  else (set_folders (folders db ++ [f]) db, inr tt).

Definition set_name (name : string) (f : Folder.t) : Folder.t :=
  Folder.mk (Folder.id f) name (Folder.parentId f) (Folder.tenantId f) (Folder.path f).

(** [prisma.folder.update({ where: { id }, data: { name } })] *)
Definition folder_update_name (folderId name : string) : Prisma Folder.t := fun db =>
  match findFirst (fun g => Folder.id g = folderId) (folders db) with
  | None => (db, inl RecordNotFound)
  | Some f =>
      if any (fun g => Folder.id g <> folderId /\ same_slot (set_name name f) g) (folders db)
      then (db, inl (UniqueConstraint "Folder_parentId_name_tenantId_key"))
      else (set_folders
              ((fun g => if decide (Folder.id g = folderId) then set_name name g else g)
                 <$> folders db) db,
            inr (set_name name f))
  end.

(** [DELETE FROM "File" WHERE "folderId" IN (SELECT id FROM "Folder" WHERE
    path <@ ${path}::ltree AND "tenantId" = ${tenantId})]; the versions of a
    file hold it in place ([FileVersion_fileId_fkey], ON DELETE RESTRICT). *)
Definition delete_files_under (pivot : Ltree.t) (tenantId : string) : Prisma nat :=
  fun db =>
    let ids := Folder.id <$> filter (in_subtree pivot tenantId) (folders db) in
    let doomed := filter (fun fl => File.folderId fl ∈ ids) (files db) in
    if any (fun v => FileVersion.fileId v ∈ (File.id <$> doomed)) (fileVersions db)
    then (db, inl (ForeignKeyConstraint "FileVersion_fileId_fkey"))
    else (set_files (filter (fun fl => File.folderId fl ∉ ids) (files db)) db,
          inr (length doomed)).

Definition delete_files_of_subtree (path tenantId : string) : Prisma nat :=
  pivot ← cast_ltree path; delete_files_under pivot tenantId.

(** ON DELETE SET NULL of [Folder_parentId_fkey] and [Tenant_rootFolderId_fkey]. *)
Definition null_if_deleted (ids : list string) (ref : option string) : option string :=
  match ref with
  | Some r => if decide (r ∈ ids) then None else Some r
  | None => None
  end.

Definition orphan (ids : list string) (f : Folder.t) : Folder.t :=
  Folder.mk (Folder.id f) (Folder.name f) (null_if_deleted ids (Folder.parentId f))
            (Folder.tenantId f) (Folder.path f).

Definition unroot (ids : list string) (t : Tenant.t) : Tenant.t :=
  Tenant.mk (Tenant.id t) (Tenant.name t) (null_if_deleted ids (Tenant.rootFolderId t)).

(** [WITH deleted AS (DELETE FROM "Folder" WHERE path <@ ${path}::ltree AND
    "tenantId" = ${tenantId} RETURNING id) SELECT COUNT( * ) FROM deleted];
    a file holds its folder in place ([File_folderId_fkey], RESTRICT). *)
Definition delete_folders_under (pivot : Ltree.t) (tenantId : string) : Prisma nat :=
  fun db =>
    let doomed := filter (in_subtree pivot tenantId) (folders db) in
    let ids := Folder.id <$> doomed in
    if any (fun fl => File.folderId fl ∈ ids) (files db)
    then (db, inl (ForeignKeyConstraint "File_folderId_fkey"))
    else (set_tenants (unroot ids <$> tenants db)
            (set_folders
               (orphan ids <$> filter (fun f => ~ in_subtree pivot tenantId f) (folders db))
               db),
          inr (length doomed)).

Definition delete_folders_of_subtree (path tenantId : string) : Prisma nat :=
  pivot ← cast_ltree path; delete_folders_under pivot tenantId.

(** [tx.tenant.create({ data: { name } })]; the identifier is the column
    default, supplied here by the caller. *)
Definition tenant_create (newId name : string) : Prisma Tenant.t := fun db =>
  if any (fun t => Tenant.id t = newId) (tenants db)
  then (db, inl (UniqueConstraint "Tenant_pkey"))
  else if any (fun t => Tenant.name t = name) (tenants db)
  then (db, inl (UniqueConstraint "Tenant_name_key"))
  else let t := Tenant.mk newId name None in
       (set_tenants (tenants db ++ [t]) db, inr t).

(** [tx.tenant.update({ where: { id }, data: { rootFolderId } })] *)
Definition tenant_update_rootFolderId (tenantId rootFolderId : string) : Prisma Tenant.t :=
  fun db =>
  match findFirst (fun t => Tenant.id t = tenantId) (tenants db) with
  | None => (db, inl RecordNotFound)
  | Some t =>
      if any (fun t' => Tenant.id t' <> tenantId /\ Tenant.rootFolderId t' = Some rootFolderId)
             (tenants db)
      then (db, inl (UniqueConstraint "Tenant_rootFolderId_key"))
      else if negb (any (fun g => Folder.id g = rootFolderId) (folders db))
      then (db, inl (ForeignKeyConstraint "Tenant_rootFolderId_fkey"))
      else let t' := Tenant.mk (Tenant.id t) (Tenant.name t) (Some rootFolderId) in
           (set_tenants
              ((fun x => if decide (Tenant.id x = tenantId) then
                           Tenant.mk (Tenant.id x) (Tenant.name x) (Some rootFolderId)
                         else x) <$> tenants db) db,
            inr t')
  end.

(** [tx.tenantMember.create({ data: { userId, tenantId, role } })] *)
Definition tenantMember_create (userId tenantId : string) (role : UserRole) : Prisma unit :=
  fun db =>
  if any (fun m => TenantMember.userId m = userId /\ TenantMember.tenantId m = tenantId)
         (tenantMembers db)
  then (db, inl (UniqueConstraint "TenantMember_userId_tenantId_key"))
  else if negb (any (fun t => Tenant.id t = tenantId) (tenants db))
  then (db, inl (ForeignKeyConstraint "TenantMember_tenantId_fkey"))
  else (set_tenantMembers (tenantMembers db ++ [TenantMember.mk userId tenantId role]) db,
        inr tt).

(** ** Requests and responses *)

Module User.
Record t := mk { id : string; role : option UserRole; tenantId : option string }.
End User.

Module Params.
Record t := mk { tenantId : string; folderId : string }.
End Params.

(** A body field is [None] when it is absent or not a string. *)
Module Body.
Record t := mk { tenantId : option string; name : option string; parentId : option string }.
End Body.

(** [user] is what [authenticate] attached before calling [next()]. *)
Record Request := mkRequest { user : option User.t; params : Params.t; body : Body.t }.

(** The row type of the two raw listing queries. *)
Module FolderWithPath.
Record t := mk { id : string; name : string; path : string; depth : Z }.
End FolderWithPath.

(** [select: { id, name, parentId, tenantId, ... }] *)
Module FolderSelect.
Record t := mk { id : string; name : string; parentId : option string; tenantId : string }.
End FolderSelect.

Definition select_folder (f : Folder.t) : FolderSelect.t :=
  FolderSelect.mk (Folder.id f) (Folder.name f) (Folder.parentId f) (Folder.tenantId f).

Inductive Payload :=
  | NoData
  | Folders (rows : list FolderWithPath.t)
  | FolderRecord (f : option FolderSelect.t)
  | DeletedCount (deletedCount : nat)
  | TenantRecord (t : option (Tenant.t * option (string * string)))
  | ErrorMessage (e : PrismaError).

(** The JSON answer: HTTP status, the [message] (or, for the middleware,
    [error]) text, the middleware's [code], and the data. *)
Record Response := mkResponse {
  status : nat;
  message : option string;
  code : option string;
  data : Payload
}.

Definition Handler : Type := Request -> Db -> Response * Db.

(** [try { ... } catch (error) { return res.status(500).json(...) }] *)
Definition try_catch (body : Prisma Response) (failure : string) : Db -> Response * Db :=
  fun db =>
    match body db with
    | (db', inr r) => (r, db')
    | (db', inl e) => (mkResponse 500 (Some failure) None (ErrorMessage e), db')
    end.

(** ** [AuthMiddleware.requireTenantAccess] *)

Definition roleHierarchy (r : UserRole) : nat :=
  match r with SUPER_ADMIN => 3 | TENANT_ADMIN => 2 | USER => 1 end.

Definition insufficient (requiredRole : option UserRole) (role : UserRole) : bool :=
  match requiredRole with
  | Some r => (roleHierarchy role <? roleHierarchy r)%nat
  | None => false
  end.

Definition requireTenantAccess (requiredRole : option UserRole) (req : Request)
  : Prisma (Response + Request) :=
  match user req with
  | None =>
      mret (inl (mkResponse 401 (Some "Authentication required") (Some "AUTH_REQUIRED") NoData))
  | Some u =>
      let tenantId := Params.tenantId (params req) in
      if decide (tenantId = "")
      then mret (inl (mkResponse 400 (Some "Tenant ID required")
                        (Some "TENANT_ID_REQUIRED") NoData))
      else
        membership ← query (fun db =>
          findFirst (fun m => TenantMember.userId m = User.id u
                              /\ TenantMember.tenantId m = tenantId) (tenantMembers db));
        match membership with
        | None =>
            mret (inl (mkResponse 403 (Some "Access denied to tenant")
                         (Some "TENANT_ACCESS_DENIED") NoData))
        | Some m =>
            if insufficient requiredRole (TenantMember.role m)
            then mret (inl (mkResponse 403 (Some "Insufficient permissions")
                              (Some "INSUFFICIENT_PERMISSIONS") NoData))
            else mret (inr (mkRequest
                              (Some (User.mk (User.id u) (Some (TenantMember.role m))
                                             (Some tenantId)))
                              (params req) (body req)))
        end
  end.

(** [router.METHOD(path, authenticate, requireTenantAccess(role), handler)]:
    the handler runs only when the middleware called [next()]; an exception
    of the middleware goes to [next(error)]. *)
Definition route (requiredRole : option UserRole) (handler : Handler) : Handler :=
  fun req db =>
    match requireTenantAccess requiredRole req db with
    | (db', inr (inr req')) => handler req' db'
    | (db', inr (inl denied)) => (denied, db')
    | (db', inl e) => (mkResponse 500 None None (ErrorMessage e), db')
    end.

(** [!name || typeof name !== "string" || name.trim() === ""] *)
Definition valid_name (name : option string) : option string :=
  match name with
  | Some n => if decide (n = "") then None
              else if decide (trim n = "") then None else Some (trim n)
  | None => None
  end.

(** ** The folder routes ([setupFolderRoutes]) *)

Definition not_found : Response := mkResponse 404 (Some "Folder not found.") None NoData.

Definition name_required : Response :=
  mkResponse 400 (Some "Folder name is required and must be a non-empty string.") None NoData.

Definition duplicate_name (trimmedName : string) : Response :=
  mkResponse 409
    (Some ("A folder named " ++ dquote ++ trimmedName ++ dquote
           ++ " already exists in this location."))
    None NoData.

(** [SELECT ... FROM "Folder" WHERE id = ${folderId} AND "tenantId" = ${tenantId}] *)
Definition folder_of_tenant (folderId tenantId : string) : Prisma (list Folder.t) :=
  query (fun db =>
    filter (fun f => Folder.id f = folderId /\ Folder.tenantId f = tenantId) (folders db)).

Definition by_path (a b : Folder.t) : Prop := Ltree.le (Folder.path a) (Folder.path b).

Definition by_nlevel (a b : Folder.t) : Prop :=
  Ltree.nlevel (Folder.path a) <= Ltree.nlevel (Folder.path b).

#[global] Instance by_path_dec a b : Decision (by_path a b).
Proof. unfold by_path. apply _. Defined.

#[global] Instance by_nlevel_dec a b : Decision (by_nlevel a b).
Proof. unfold by_nlevel. apply _. Defined.

(** [SELECT id, name, path::text, nlevel(path) - nlevel(${path}::ltree) AS depth
    FROM "Folder" WHERE path <@ ${path}::ltree AND id != ${folderId}
    AND "tenantId" = ${tenantId} ORDER BY path ASC] *)
Definition descendant_row (pivot : Ltree.t) (f : Folder.t) : FolderWithPath.t :=
  FolderWithPath.mk (Folder.id f) (Folder.name f) (Ltree.ltree_out (Folder.path f))
    (Z.of_nat (Ltree.nlevel (Folder.path f)) - Z.of_nat (Ltree.nlevel pivot)).

Definition select_descendants (pivot : Ltree.t) (folderId tenantId : string)
  : Prisma (list FolderWithPath.t) :=
  query (fun db =>
    descendant_row pivot <$>
      merge_sort by_path
        (filter (fun f => in_subtree pivot tenantId f /\ Folder.id f <> folderId)
                (folders db))).

(** [SELECT id, name, path::text, nlevel(path) AS depth FROM "Folder"
    WHERE path @> ${path}::ltree AND "tenantId" = ${tenantId}
    ORDER BY nlevel(path) ASC] *)
Definition ancestor_row (f : Folder.t) : FolderWithPath.t :=
  FolderWithPath.mk (Folder.id f) (Folder.name f) (Ltree.ltree_out (Folder.path f))
    (Z.of_nat (Ltree.nlevel (Folder.path f))).

Definition select_ancestors (pivot : Ltree.t) (tenantId : string)
  : Prisma (list FolderWithPath.t) :=
  query (fun db =>
    ancestor_row <$>
      merge_sort by_nlevel
        (filter (fun f => Folder.path f @> pivot /\ Folder.tenantId f = tenantId)
                (folders db))).

(** GET /tenants/:tenantId/folders/:folderId/descendants *)
Definition listDescendants_body (req : Request) : Prisma Response :=
  let folderId := Params.folderId (params req) in
  let tenantId := Params.tenantId (params req) in
  folderPath ← folder_of_tenant folderId tenantId;
  match folderPath with
  | [] => mret not_found
  | f :: _ =>
      let path := Ltree.ltree_out (Folder.path f) in
      pivot ← cast_ltree path;
      descendants ← select_descendants pivot folderId tenantId;
      mret (mkResponse 200 None None (Folders descendants))
  end.

Definition listDescendants : Handler :=
  route None (fun req => try_catch (listDescendants_body req) "Failed to retrieve descendants.").

(** GET /tenants/:tenantId/folders/:folderId/ancestors *)
Definition listAncestors_body (req : Request) : Prisma Response :=
  let folderId := Params.folderId (params req) in
  let tenantId := Params.tenantId (params req) in
  folderPath ← folder_of_tenant folderId tenantId;
  match folderPath with
  | [] => mret not_found
  | f :: _ =>
      let path := Ltree.ltree_out (Folder.path f) in
      pivot ← cast_ltree path;
      ancestors ← select_ancestors pivot tenantId;
      mret (mkResponse 200 None None (Folders ancestors))
  end.

Definition listAncestors : Handler :=
  route None (fun req => try_catch (listAncestors_body req) "Failed to retrieve ancestors.").

(** POST /tenants/:tenantId/folders.  The handler takes [tenantId] from the
    request body ([const { tenantId, name, parentId } = req.body]); a body
    without it compares the column with an absent value and finds no parent.
    The handler is cut at the [await] before the insert:
    [createSubfolder_check] is everything up to the duplicate pre-check and
    [createSubfolder_write] the rest. *)
Record Checked := mkChecked {
  checked_tenantId : option string;
  checked_parentId : string;
  checked_name : string;
  checked_parent : Folder.t
}.

Definition createSubfolder_check (req : Request) : Prisma (Response + Checked) :=
  match valid_name (Body.name (body req)) with
  | None => mret (inl name_required)
  | Some trimmedName =>
      match Body.parentId (body req) with
      | None => mret (inl (mkResponse 400 (Some "Parent folder ID is required.") None NoData))
      | Some parentId =>
          if decide (parentId = "")
          then mret (inl (mkResponse 400 (Some "Parent folder ID is required.") None NoData))
          else
            parentFolder ← query (fun db =>
              filter (fun f => Folder.id f = parentId
                               /\ Some (Folder.tenantId f) = Body.tenantId (body req))
                     (folders db));
            match parentFolder with
            | [] => mret (inl (mkResponse 404 (Some "Parent folder not found in this tenant.")
                                 None NoData))
            | parent :: _ =>
                existingFolder ← query (fun db =>
                  findFirst (fun f => Folder.name f = trimmedName
                                      /\ Folder.parentId f = Some parentId
                                      /\ Some (Folder.tenantId f) = Body.tenantId (body req))
                            (folders db));
                match existingFolder with
                | Some _ => mret (inl (duplicate_name trimmedName))
                | None => mret (inr (mkChecked (Body.tenantId (body req)) parentId
                                       trimmedName parent))
                end
            end
      end
  end.

Definition createSubfolder_write (newFolderId : string) (c : Checked) : Prisma Response :=
  let safeFolderId := replace_hyphens newFolderId in
  let newPath := Ltree.ltree_out (Folder.path (checked_parent c)) ++ "." ++ safeFolderId in
  path ← cast_ltree newPath;
  _ ← match checked_tenantId c with
      | Some tenantId =>
          insert_folder (Folder.mk newFolderId (checked_name c) (Some (checked_parentId c))
                           tenantId path)
      | None => throw (NotNullConstraint "tenantId")
      end;
  createdFolder ← query (fun db =>
    select_folder <$> findFirst (fun f => Folder.id f = newFolderId) (folders db));
  mret (mkResponse 201 (Some "Folder created successfully.") None (FolderRecord createdFolder)).

Definition createSubfolder_body (newFolderId : string) (req : Request) : Prisma Response :=
  checked ← createSubfolder_check req;
  match checked with
  | inl refused => mret refused
  | inr c => createSubfolder_write newFolderId c
  end.

(** [newFolderId] is the value of [crypto.randomUUID()]. *)
Definition createSubfolder (newFolderId : string) : Handler :=
  route None (fun req => try_catch (createSubfolder_body newFolderId req) "Failed to create folder.").

(** DELETE /tenants/:tenantId/folders/:folderId, for a TENANT_ADMIN *)
Definition cannot_delete_root : Response :=
  mkResponse 403 (Some "Cannot delete root folder.") None NoData.

Definition deleteSubtree_body (req : Request) : Prisma Response :=
  let folderId := Params.folderId (params req) in
  let tenantId := Params.tenantId (params req) in
  folderData ← folder_of_tenant folderId tenantId;
  match folderData with
  | [] => mret not_found
  | f :: _ =>
      match Folder.parentId f with
      | None => mret cannot_delete_root
      | Some _ =>
          let path := Ltree.ltree_out (Folder.path f) in
          result ← transaction (
            _ ← delete_files_of_subtree path tenantId;
            deletedFolders ← delete_folders_of_subtree path tenantId;
            mret deletedFolders);
          mret (mkResponse 200
                  (Some ("Successfully deleted " ++ pretty result
                         ++ " folder(s) and their contents."))
                  None (DeletedCount result))
      end
  end.

Definition deleteSubtree : Handler :=
  route (Some TENANT_ADMIN)
        (fun req => try_catch (deleteSubtree_body req) "Failed to delete folder.").

(** ** The delete route among other connections

    [deleteSubtree] runs alone.  The two statements of its transaction are
    two round trips, and [$transaction] is called without an isolation
    level, so PostgreSQL runs it READ COMMITTED: the second statement sees
    what another connection has committed since the first.  [Meanwhile] is
    what happens between the two statements: nothing; the commit of the
    transaction of [FileRepository.create], which inserts a file and its
    first version; or the loss of the second statement (connection lost,
    time-out, deadlock victim), for which the driver throws. *)
Inductive Meanwhile :=
  | Quiet
  | Uploaded (fl : File.t) (v : FileVersion.t)
  | Broken (e : PrismaError).

(** The transaction of [FileRepository.create] commits when its two inserts
    respect [File_pkey], [File_folderId_name_key], [File_folderId_fkey],
    [File_tenantId_fkey] and [FileVersion_pkey] on the committed rows; an
    insert that collides with a row the open transaction has deleted waits
    for that transaction, and so does not happen in between. *)
Definition upload_commits (fl : File.t) (v : FileVersion.t) (db : Db) : bool :=
  bool_decide (FileVersion.fileId v = File.id fl)
  && negb (any (fun x => File.id x = File.id fl) (files db))
  && negb (any (fun x => File.folderId x = File.folderId fl /\ File.name x = File.name fl)
               (files db))
  && any (fun g => Folder.id g = File.folderId fl) (folders db)
  && any (fun t => Tenant.id t = File.tenantId fl) (tenants db)
  && negb (any (fun x => FileVersion.id x = FileVersion.id v) (fileVersions db)).

Definition upload (fl : File.t) (v : FileVersion.t) (db : Db) : Db :=
  mkDb (folders db) (files db ++ [fl]) (fileVersions db ++ [v]) (tenants db)
       (tenantMembers db).

(** The rows another connection adds in between, given the committed rows
    the transaction started from. *)
Definition others (m : Meanwhile) (committed : Db) : Db -> Db :=
  match m with
  | Uploaded fl v => if upload_commits fl v committed then upload fl v else id
  | _ => id
  end.

(** [prisma.$transaction(async (tx) => { first; second })] with [m] between
    the two statements: when [second] throws, the writes of [first] are
    undone, and what the other connection committed stays. *)
Definition transaction_amid {A B} (m : Meanwhile) (first : Prisma A) (second : A -> Prisma B)
  : Prisma B := fun db =>
  match first db with
  | (_, inl e) => (db, inl e)
  | (db1, inr a) =>
      match m with
      | Broken e => (db, inl e)
      | _ =>
          match second a (others m db db1) with
          | (db2, inr b) => (db2, inr b)
          | (_, inl e) => (others m db db, inl e)
          end
      end
  end.

Definition deleteSubtree_body_amid (m : Meanwhile) (req : Request) : Prisma Response :=
  let folderId := Params.folderId (params req) in
  let tenantId := Params.tenantId (params req) in
  folderData ← folder_of_tenant folderId tenantId;
  match folderData with
  | [] => mret not_found
  | f :: _ =>
      match Folder.parentId f with
      | None => mret cannot_delete_root
      | Some _ =>
          let path := Ltree.ltree_out (Folder.path f) in
          result ← transaction_amid m
            (delete_files_of_subtree path tenantId)
            (fun _ => deletedFolders ← delete_folders_of_subtree path tenantId;
                      mret deletedFolders);
          mret (mkResponse 200
                  (Some ("Successfully deleted " ++ pretty result
                         ++ " folder(s) and their contents."))
                  None (DeletedCount result))
      end
  end.

Definition deleteSubtree_amid (m : Meanwhile) : Handler :=
  route (Some TENANT_ADMIN)
        (fun req => try_catch (deleteSubtree_body_amid m req) "Failed to delete folder.").

(** PATCH /tenants/:tenantId/folders/:folderId *)
Definition truthy (s : option string) : option string :=
  match s with
  | Some x => if decide (x = "") then None else Some x
  | None => None
  end.

Definition renameFolder_body (req : Request) : Prisma Response :=
  let folderId := Params.folderId (params req) in
  let tenantId := Params.tenantId (params req) in
  match valid_name (Body.name (body req)) with
  | None => mret name_required
  | Some trimmedName =>
      folder ← query (fun db =>
        findFirst (fun f => Folder.id f = folderId /\ Folder.tenantId f = tenantId)
                  (folders db));
      match folder with
      | None => mret not_found
      | Some folder =>
          duplicate ← match truthy (Folder.parentId folder) with
                      | Some parentId =>
                          query (fun db =>
                            findFirst (fun f => Folder.name f = trimmedName
                                                /\ Folder.parentId f = Some parentId
                                                /\ Folder.tenantId f = tenantId
                                                /\ Folder.id f <> folderId) (folders db))
                      | None => mret None
                      end;
          match duplicate with
          | Some _ => mret (duplicate_name trimmedName)
          | None =>
              updatedFolder ← folder_update_name folderId trimmedName;
              mret (mkResponse 200 (Some "Folder renamed successfully.") None
                      (FolderRecord (Some (select_folder updatedFolder))))
          end
      end
  end.

Definition renameFolder : Handler :=
  route None (fun req => try_catch (renameFolder_body req) "Failed to rename folder.").

(** ** The tenant route: POST /tenants ([setupTenantRoutes])

    [newTenantId] is the default of [Tenant.id] and [newRootId] the value of
    [gen_random_uuid()] in the insert of the root folder. *)
Definition provision (newTenantId newRootId trimmedName userId : string)
  : Prisma (option (Tenant.t * option (string * string))) :=
  tenant ← tenant_create newTenantId trimmedName;
  let safePath := replace_hyphens (Tenant.id tenant) in
  path ← cast_ltree safePath;
  _ ← insert_folder (Folder.mk newRootId "root" None (Tenant.id tenant) path);
  let rootFolderId := newRootId in
  _ ← tenant_update_rootFolderId (Tenant.id tenant) rootFolderId;
  _ ← tenantMember_create userId (Tenant.id tenant) TENANT_ADMIN;
  query (fun db =>
    (fun t => (t, match Tenant.rootFolderId t with
                  | Some r => (fun f => (Folder.id f, Folder.name f))
                                <$> findFirst (fun f => Folder.id f = r) (folders db)
                  | None => None
                  end))
    <$> findFirst (fun t => Tenant.id t = Tenant.id tenant) (tenants db)).

Definition createTenant_body (newTenantId newRootId : string) (req : Request)
  : Prisma Response :=
  match user req with
  | None => mret (mkResponse 401 (Some "Authentication required.") None NoData)
  | Some u =>
      match valid_name (Body.name (body req)) with
      | None =>
          mret (mkResponse 400
                  (Some "Tenant name is required and must be a non-empty string.") None NoData)
      | Some trimmedName =>
          existingTenant ← query (fun db =>
            findFirst (fun t => Tenant.name t = trimmedName) (tenants db));
          match existingTenant with
          | Some _ =>
              mret (mkResponse 409
                      (Some ("Tenant with name " ++ dquote ++ trimmedName ++ dquote
                             ++ " already exists."))
                      None NoData)
          | None =>
              result ← transaction (provision newTenantId newRootId trimmedName (User.id u));
              mret (mkResponse 201
                      (Some "Tenant created successfully. You are now the admin.")
                      None (TenantRecord result))
          end
      end
  end.

Definition createTenant (newTenantId newRootId : string) : Handler :=
  fun req => try_catch (createTenant_body newTenantId newRootId req) "Failed to create tenant.".

(** ** Vocabulary of the statements *)

Fixpoint dotless (s : string) : bool :=
  match s with
  | EmptyString => true
  | String c s' => (if decide (c = dot) then false else true) && dotless s'
  end.

(** The middleware let the request through to the handler. *)
Definition passes (requiredRole : option UserRole) (req : Request) (db : Db) : Prop :=
  exists req', requireTenantAccess requiredRole req db = (db, inr (inr req')).

(** ** A database to run the routes on

    Two tenants.  Acme has the tree root / Reports / Q3 and root / Archive;
    Q3 holds a file without versions, Archive a file with one version.
    Alice is a plain member of Acme, Carol its administrator, Bob the
    administrator of Beta. *)

Definition ltree_of (text : string) : Ltree.t :=
  default (Ltree.mk [] I) (Ltree.ltree_in text).

Module Scenario.

Definition acme : string := "0a6f3c52-8e1d-4b7a-9c2f-5d1e7a9b3c10".
Definition beta : string := "5b8e7f60-2c4d-4e9a-8b1f-6a3c9d2e4f71".
Definition acme_root : string := "a0000000-0000-4000-8000-000000000001".
Definition beta_root : string := "b0000000-0000-4000-8000-000000000001".
Definition reports : string := "a0000000-0000-4000-8000-000000000002".
Definition q3 : string := "a0000000-0000-4000-8000-000000000003".
Definition archive : string := "a0000000-0000-4000-8000-000000000004".

Definition under (parent : Ltree.t) (folderId : string) : Ltree.t :=
  ltree_of (Ltree.ltree_out parent ++ "." ++ replace_hyphens folderId).

Definition acme_root_path : Ltree.t := ltree_of (replace_hyphens acme).
Definition beta_root_path : Ltree.t := ltree_of (replace_hyphens beta).
Definition reports_path : Ltree.t := under acme_root_path reports.
Definition q3_path : Ltree.t := under reports_path q3.
Definition archive_path : Ltree.t := under acme_root_path archive.

Definition store : Db :=
  mkDb
    [ Folder.mk acme_root "root" None acme acme_root_path;
      Folder.mk beta_root "root" None beta beta_root_path;
      Folder.mk reports "Reports" (Some acme_root) acme reports_path;
      Folder.mk q3 "Q3" (Some reports) acme q3_path;
      Folder.mk archive "Archive" (Some acme_root) acme archive_path ]
    [ File.mk "file-1" "summary.pdf" q3 acme;
      File.mk "file-2" "old.pdf" archive acme ]
    [ FileVersion.mk "version-1" "file-2" ]
    [ Tenant.mk acme "Acme" (Some acme_root);
      Tenant.mk beta "Beta" (Some beta_root) ]
    [ TenantMember.mk "alice" acme USER;
      TenantMember.mk "carol" acme TENANT_ADMIN;
      TenantMember.mk "bob" beta TENANT_ADMIN ].

Definition no_body : Body.t := Body.mk None None None.

Definition request (userId tenantId folderId : string) (b : Body.t) : Request :=
  mkRequest (Some (User.mk userId None None)) (Params.mk tenantId folderId) b.

Definition fresh : string := "f0000000-0000-4000-8000-00000000000f".
Definition gamma : string := "9c2d4e6f-1a3b-4c5d-8e7f-0123456789ab".
Definition gamma_root : string := "c0000000-0000-4000-8000-000000000001".

End Scenario.

(** Two invariants of the stored data.  The first is the primary key of
    [Folder].  The second holds because every path starts with the label of
    its tenant's root and a child is stored under its parent's tenant:
    containment of paths does not cross tenants. *)
Definition folder_ids_unique (db : Db) : Prop := NoDup (Folder.id <$> folders db).

Definition paths_within_tenant (db : Db) : Prop :=
  Forall (fun g =>
    Forall (fun h => Folder.path g <@ Folder.path h -> Folder.tenantId g = Folder.tenantId h)
           (folders db))
    (folders db).

(** ** Two create requests in flight

    The create handler has no lock and no transaction: between the [await]
    of the duplicate pre-check and the [await] of the insert another request
    can run.  [createSubfolder_begin] is the route up to the pre-check and
    [createSubfolder_end] the rest; [createSubfolder_race] is the schedule in
    which both requests finish their pre-check before either inserts. *)
Definition createSubfolder_begin (req : Request) : Db -> (Response + Checked) * Db :=
  fun db =>
    match requireTenantAccess None req db with
    | (db', inr (inr req')) =>
        match createSubfolder_check req' db' with
        | (db'', inr x) => (x, db'')
        | (db'', inl e) =>
            (inl (mkResponse 500 (Some "Failed to create folder.") None (ErrorMessage e)), db'')
        end
    | (db', inr (inl denied)) => (inl denied, db')
    | (db', inl e) => (inl (mkResponse 500 None None (ErrorMessage e)), db')
    end.

Definition createSubfolder_end (newFolderId : string) (x : Response + Checked)
  : Db -> Response * Db :=
  match x with
  | inl refused => fun db => (refused, db)
  | inr c => try_catch (createSubfolder_write newFolderId c) "Failed to create folder."
  end.

Definition createSubfolder_race (idA : string) (reqA : Request) (idB : string) (reqB : Request)
  : Db -> (Response * Response) * Db :=
  fun db =>
    let '(xA, db1) := createSubfolder_begin reqA db in
    let '(xB, db2) := createSubfolder_begin reqB db1 in
    let '(rA, db3) := createSubfolder_end idA xA db2 in
    let '(rB, db4) := createSubfolder_end idB xB db3 in
    ((rA, rB), db4).

Module Race.

Definition budget : Request :=
  Scenario.request "alice" Scenario.acme ""
    (Body.mk (Some Scenario.acme) (Some "Budget") (Some Scenario.reports)).

Definition first_id : string := "f0000000-0000-4000-8000-0000000000a1".
Definition second_id : string := "f0000000-0000-4000-8000-0000000000b2".

Definition checked : Checked :=
  mkChecked (Some Scenario.acme) Scenario.reports "Budget"
    (Folder.mk Scenario.reports "Reports" (Some Scenario.acme_root) Scenario.acme
       Scenario.reports_path).

End Race.

Module Foreign.

(** Alice, a member of Acme only, posts to Acme's URL with Beta in the body. *)
Definition planted : Request :=
  Scenario.request "alice" Scenario.acme ""
    (Body.mk (Some Scenario.beta) (Some "Planted") (Some Scenario.beta_root)).

End Foreign.

(** Reading a listing answer. *)
Definition rows (resp : Response) : list FolderWithPath.t :=
  match data resp with
  | Folders l => l
  | _ => []
  end.

Definition listed (folderId : string) (resp : Response) : Prop :=
  folderId ∈ FolderWithPath.id <$> rows resp.

Definition depth_of (folderId : string) (resp : Response) : option Z :=
  FolderWithPath.depth <$> findFirst (fun r => FolderWithPath.id r = folderId) (rows resp).

#[global] Instance listed_dec folderId resp : Decision (listed folderId resp).
Proof. unfold listed. apply _. Defined.

(** [Folder_tenantId_fkey]: every folder belongs to a stored tenant. *)
Definition folders_reference_tenants (db : Db) : Prop :=
  Forall (fun g => Exists (fun t => Tenant.id t = Folder.tenantId g) (tenants db))
         (folders db).

(** What [crypto.randomUUID()] returns: 36 characters, lower-case
    hexadecimal digits in the groups 8-4-4-4-12 separated by hyphens. *)
Definition hex_digit (c : ascii) : bool :=
  let n := char_code c in
  (((48 <=? n) && (n <=? 57)) || ((97 <=? n) && (n <=? 102)))%nat.

Definition hyphen_position (i : nat) : bool :=
  ((i =? 8) || (i =? 13) || (i =? 18) || (i =? 23))%nat.

Fixpoint uuid_from (i : nat) (s : string) : bool :=
  match s with
  | EmptyString => (i =? 36)%nat
  | String c s' =>
      (if hyphen_position i then bool_decide (c = hyphen) else hex_digit c)
      && uuid_from (S i) s'
  end.

Definition is_uuid (s : string) : bool := uuid_from 0 s.

(** Two names that differ at most in the case of ASCII letters. *)
Definition lower (c : ascii) : ascii :=
  let n := char_code c in
  if ((65 <=? n) && (n <=? 90))%nat then ascii_of_nat (n + 32) else c.

Fixpoint to_lower (s : string) : string :=
  match s with
  | EmptyString => EmptyString
  | String c s' => String (lower c) (to_lower s')
  end.

Definition same_ignoring_case (a b : string) : Prop := to_lower a = to_lower b.

Module Case.

Definition parent : Folder.t :=
  Folder.mk Scenario.acme_root "root" None Scenario.acme Scenario.acme_root_path.
Definition sibling : Folder.t :=
  Folder.mk Scenario.reports "Reports" (Some Scenario.acme_root) Scenario.acme
    Scenario.reports_path.
Definition other : Folder.t :=
  Folder.mk Scenario.archive "Archive" (Some Scenario.acme_root) Scenario.acme
    Scenario.archive_path.

Definition create : Request :=
  Scenario.request "alice" Scenario.acme ""
    (Body.mk (Some Scenario.acme) (Some " reports") (Some Scenario.acme_root)).
Definition rename : Request :=
  Scenario.request "alice" Scenario.acme Scenario.archive
    (Body.mk None (Some "reports") None).

End Case.

(** ** The invariants the routes keep

    The primary key of [Folder], its foreign key to [Tenant], and two facts
    about identifiers and paths: a tenant's identifier is a UUID, and the
    path of every folder starts with the label made from its tenant's
    identifier. *)
Record consistent (db : Db) : Prop := mkConsistent {
  consistent_ids : folder_ids_unique db;
  consistent_tenants : folders_reference_tenants db;
  consistent_uuids : Forall (fun t => is_uuid (Tenant.id t) = true) (tenants db);
  consistent_roots :
    Forall (fun g => head (Ltree.labels (Folder.path g))
                     = Some (replace_hyphens (Folder.tenantId g))) (folders db)
}.

From stdpp Require Import gmap.

Local Open Scope string_scope.

(** ** More of the schema and of the routes *)

(** [TenantMember_userId_tenantId_key]: one membership per user and tenant. *)
Definition memberships_unique (db : Db) : Prop :=
  NoDup ((fun m => (TenantMember.userId m, TenantMember.tenantId m)) <$> tenantMembers db).

Definition access_denied : Response :=
  mkResponse 403 (Some "Access denied to tenant") (Some "TENANT_ACCESS_DENIED") NoData.

Definition insufficient_permissions : Response :=
  mkResponse 403 (Some "Insufficient permissions") (Some "INSUFFICIENT_PERMISSIONS") NoData.

(** [Folder_parentId_name_tenantId_key]: two rows with the same non-NULL
    parent, the same name and the same tenant are one row. *)
Definition sibling_names_unique (db : Db) : Prop :=
  forall g h, g ∈ folders db -> h ∈ folders db -> same_slot g h -> Folder.id g = Folder.id h.

(** No stored folder name is empty or has white space at either end. *)
Definition names_trimmed (db : Db) : Prop :=
  Forall (fun g => Folder.name g <> "" /\ trim (Folder.name g) = Folder.name g) (folders db).

(** ** Routes whose answers carry rows that [Payload] has no case for *)

(** [select: { id, name, createdAt, updatedAt }] *)
Module Subfolder.
Record t := mk { id : string; name : string }.
End Subfolder.

#[global] Instance Subfolder_eq_dec : EqDecision Subfolder.t.
Proof. solve_decision. Defined.

Inductive ReplyData :=
  | NoRows
  | Subfolders (rows : list Subfolder.t)
  | MembershipWithTenant (m : TenantMember.t) (t : option Tenant.t)
  | ExistingMembership (role : UserRole)
  | MembershipRow (m : TenantMember.t)
  | TenantWithRoot (t : Tenant.t) (rootFolder : option (string * string))
  | Thrown (e : PrismaError).

Record Reply := mkReply {
  reply_status : nat;
  reply_message : option string;
  reply_code : option string;
  reply_data : ReplyData
}.

Definition ReplyHandler : Type := Request -> Db -> Reply * Db.

Definition reply_try_catch (body : Prisma Reply) (failure : string)
  : Db -> Reply * Db :=
  fun db =>
    match body db with
    | (db', inr r) => (r, db')
    | (db', inl e) => (mkReply 500 (Some failure) None (Thrown e), db')
    end.

(** An answer of the middleware, which has no data. *)
Definition refused (r : Response) : Reply :=
  mkReply (status r) (message r) (code r) NoRows.

Definition reply_route (requiredRole : option UserRole) (handler : ReplyHandler)
  : ReplyHandler :=
  fun req db =>
    match requireTenantAccess requiredRole req db with
    | (db', inr (inr req')) => handler req' db'
    | (db', inr (inl denied)) => (refused denied, db')
    | (db', inl e) => (mkReply 500 None None (Thrown e), db')
    end.

Definition plain (status : nat) (message : string) : Reply :=
  mkReply status (Some message) None NoRows.

(** GET /tenants/:tenantId/folders/:folderId/children.  [ORDER BY name] is
    decided by the collation of the database, which is a parameter here. *)
Section Children.

Variable collate : string -> string -> Prop.
Context `{!RelDecision collate}.

Definition by_name (a b : Folder.t) : Prop := collate (Folder.name a) (Folder.name b).

#[global] Instance by_name_dec : RelDecision by_name.
Proof. intros a b. unfold by_name. apply _. Defined.

Definition listChildren_body (req : Request) : Prisma Reply :=
  let folderId := Params.folderId (params req) in
  let tenantId := Params.tenantId (params req) in
  folder ← query (fun db =>
    findFirst (fun f => Folder.id f = folderId /\ Folder.tenantId f = tenantId) (folders db));
  match folder with
  | None => mret (plain 404 "Folder not found.")
  | Some _ =>
      children ← query (fun db =>
        (fun f => Subfolder.mk (Folder.id f) (Folder.name f))
          <$> merge_sort by_name
                (filter (fun f => Folder.parentId f = Some folderId
                                  /\ Folder.tenantId f = tenantId) (folders db)));
      mret (mkReply 200 None None (Subfolders children))
  end.

Definition listChildren : ReplyHandler :=
  reply_route None
    (fun req => reply_try_catch (listChildren_body req) "Failed to retrieve subfolders.").

End Children.

(** ** The membership routes ([setupTenantRoutes]) *)

(** [prisma.tenant.findUnique({ where: { id } })] *)
Definition tenant_findUnique (tenantId : string) : Prisma (option Tenant.t) :=
  query (fun db => findFirst (fun t => Tenant.id t = tenantId) (tenants db)).

(** [prisma.tenantMember.findUnique({ where: { userId_tenantId } })] *)
Definition is_membership (userId tenantId : string) (m : TenantMember.t) : Prop :=
  TenantMember.userId m = userId /\ TenantMember.tenantId m = tenantId.

Definition tenantMember_findUnique (userId tenantId : string)
  : Prisma (option TenantMember.t) :=
  query (fun db => findFirst (is_membership userId tenantId) (tenantMembers db)).

(** [prisma.tenantMember.count({ where: { tenantId, role: TENANT_ADMIN } })] *)
Definition is_admin_of (tenantId : string) (m : TenantMember.t) : Prop :=
  TenantMember.tenantId m = tenantId /\ TenantMember.role m = TENANT_ADMIN.

Definition admins (tenantId : string) (db : Db) : nat :=
  length (filter (is_admin_of tenantId) (tenantMembers db)).

Definition tenantMember_count_admins (tenantId : string) : Prisma nat :=
  query (admins tenantId).

(** [prisma.tenantMember.delete({ where: { userId_tenantId } })]; no table
    refers to a membership. *)
Definition tenantMember_delete (userId tenantId : string) : Prisma unit := fun db =>
  if any (is_membership userId tenantId) (tenantMembers db)
  then (set_tenantMembers
          (filter (fun m => ~ is_membership userId tenantId m) (tenantMembers db)) db,
        inr tt)
  else (db, inl RecordNotFound).

Definition set_role (role : option UserRole) (m : TenantMember.t) : TenantMember.t :=
  match role with
  | Some r => TenantMember.mk (TenantMember.userId m) (TenantMember.tenantId m) r
  | None => m
  end.

(** [prisma.tenantMember.update({ where: { userId_tenantId },
    data: { ...(role && { role }) } })] *)
Definition tenantMember_update (userId tenantId : string) (role : option UserRole)
  : Prisma TenantMember.t := fun db =>
  match findFirst (is_membership userId tenantId) (tenantMembers db) with
  | None => (db, inl RecordNotFound)
  | Some m =>
      (set_tenantMembers
         ((fun x => if decide (is_membership userId tenantId x) then set_role role x else x)
            <$> tenantMembers db) db,
       inr (set_role role m))
  end.

(** POST /tenants/:tenantId/join, behind [authenticate] only *)
Definition joinTenant_body (req : Request) : Prisma Reply :=
  match user req with
  | None => mret (plain 401 "Authentication required.")
  | Some u =>
      let tenantId := Params.tenantId (params req) in
      tenant ← tenant_findUnique tenantId;
      match tenant with
      | None => mret (plain 404 "Tenant not found.")
      | Some tenant =>
          existingMembership ← tenantMember_findUnique (User.id u) tenantId;
          match existingMembership with
          | Some m =>
              mret (mkReply 409 (Some "You are already a member of this tenant.")
                      None (ExistingMembership (TenantMember.role m)))
          | None =>
              _ ← tenantMember_create (User.id u) tenantId USER;
              included ← tenant_findUnique tenantId;
              mret (mkReply 201
                      (Some ("Successfully joined tenant " ++ dquote ++ Tenant.name tenant
                             ++ dquote ++ "."))
                      None
                      (MembershipWithTenant (TenantMember.mk (User.id u) tenantId USER)
                         included))
          end
      end
  end.

Definition joinTenant : ReplyHandler :=
  fun req => reply_try_catch (joinTenant_body req) "Failed to join tenant.".

(** [if (membership.role === UserRole.TENANT_ADMIN) { const adminCount = ...;
    if (adminCount === 1) return 400 }] *)
Definition last_admin (tenantId : string) (m : TenantMember.t) : Prisma bool :=
  if decide (TenantMember.role m = TENANT_ADMIN)
  then adminCount ← tenantMember_count_admins tenantId;
       mret (bool_decide (adminCount = 1))
  else mret false.

(** DELETE /tenants/:tenantId/leave *)
Definition leaveTenant_body (req : Request) : Prisma Reply :=
  match user req with
  | None => mret (plain 401 "Authentication required.")
  | Some u =>
      let tenantId := Params.tenantId (params req) in
      membership ← tenantMember_findUnique (User.id u) tenantId;
      match membership with
      | None => mret (plain 404 "You are not a member of this tenant.")
      | Some m =>
          stop ← last_admin tenantId m;
          if (stop : bool)
          then mret (plain 400 ("You cannot leave as you are the last admin. "
                                ++ "Transfer admin rights or delete the tenant."))
          else
            _ ← tenantMember_delete (User.id u) tenantId;
            mret (plain 200 "Successfully left the tenant.")
      end
  end.

Definition leaveTenant : ReplyHandler :=
  reply_route None (fun req => reply_try_catch (leaveTenant_body req) "Failed to leave tenant.").

(** DELETE /tenants/:tenantId/members/:userId, for a TENANT_ADMIN;
    [userId] is [req.params.userId]. *)
Definition removeMember_body (userId : string) (req : Request) : Prisma Reply :=
  let tenantId := Params.tenantId (params req) in
  membership ← tenantMember_findUnique userId tenantId;
  match membership with
  | None => mret (plain 404 "Member not found in this tenant.")
  | Some m =>
      stop ← last_admin tenantId m;
      if (stop : bool)
      then mret (plain 400 "Cannot remove the last admin. Delete the tenant instead.")
      else
        _ ← tenantMember_delete userId tenantId;
        mret (plain 200 "Member removed successfully.")
  end.

Definition removeMember (userId : string) : ReplyHandler :=
  reply_route (Some TENANT_ADMIN)
    (fun req => reply_try_catch (removeMember_body userId req) "Failed to remove member.").

(** [Object.values(UserRole).includes(role)] *)
Definition parse_role (s : string) : option UserRole :=
  if decide (s = "SUPER_ADMIN") then Some SUPER_ADMIN
  else if decide (s = "TENANT_ADMIN") then Some TENANT_ADMIN
  else if decide (s = "USER") then Some USER
  else None.

(** [membership.role === UserRole.TENANT_ADMIN && role &&
    role !== UserRole.TENANT_ADMIN] *)
Definition demotes (m : TenantMember.t) (role : option UserRole) : bool :=
  match role with
  | Some r => bool_decide (TenantMember.role m = TENANT_ADMIN /\ r <> TENANT_ADMIN)
  | None => false
  end.

Definition updateMember_checked (userId tenantId : string) (role : option UserRole)
  : Prisma Reply :=
  membership ← tenantMember_findUnique userId tenantId;
  match membership with
  | None => mret (plain 404 "Member not found in this tenant.")
  | Some m =>
      stop ← (if demotes m role
              then adminCount ← tenantMember_count_admins tenantId;
                   mret (bool_decide (adminCount = 1))
              else mret false);
      if (stop : bool)
      then mret (plain 400 "Cannot demote the last admin. Promote another member first.")
      else
        updatedMembership ← tenantMember_update userId tenantId role;
        mret (mkReply 200 (Some "Member updated successfully.") None
                (MembershipRow updatedMembership))
  end.

(** PATCH /tenants/:tenantId/members/:userId, for a TENANT_ADMIN; [userId]
    is [req.params.userId] and [role] is [req.body.role] when it is a
    string.  A truthy value that is not one of the three role names is
    refused, whatever its type. *)
Definition updateMember_body (userId : string) (role : option string) (req : Request)
  : Prisma Reply :=
  let tenantId := Params.tenantId (params req) in
  match truthy role with
  | Some r =>
      match parse_role r with
      | None => mret (plain 400 "Invalid role provided.")
      | Some newRole => updateMember_checked userId tenantId (Some newRole)
      end
  | None => updateMember_checked userId tenantId None
  end.

Definition updateMember (userId : string) (role : option string) : ReplyHandler :=
  reply_route (Some TENANT_ADMIN)
    (fun req => reply_try_catch (updateMember_body userId role req) "Failed to update member.").

(** [prisma.tenant.update({ where: { id }, data: { name } })] *)
Definition tenant_update_name (tenantId name : string) : Prisma Tenant.t := fun db =>
  match findFirst (fun t => Tenant.id t = tenantId) (tenants db) with
  | None => (db, inl RecordNotFound)
  | Some t =>
      if any (fun t' => Tenant.id t' <> tenantId /\ Tenant.name t' = name) (tenants db)
      then (db, inl (UniqueConstraint "Tenant_name_key"))
      else (set_tenants
              ((fun x => if decide (Tenant.id x = tenantId)
                         then Tenant.mk (Tenant.id x) name (Tenant.rootFolderId x)
                         else x) <$> tenants db) db,
            inr (Tenant.mk (Tenant.id t) name (Tenant.rootFolderId t)))
  end.

(** [include: { rootFolder: { select: { id, name } } }] *)
Definition rootFolder_of (t : Tenant.t) : Prisma (option (string * string)) :=
  query (fun db =>
    match Tenant.rootFolderId t with
    | Some r => (fun f => (Folder.id f, Folder.name f))
                  <$> findFirst (fun f => Folder.id f = r) (folders db)
    | None => None
    end).

(** [existingTenant && existingTenant.id !== tenantId] *)
Definition other_tenant (tenantId : string) (existingTenant : option Tenant.t) : bool :=
  match existingTenant with
  | Some e => bool_decide (Tenant.id e <> tenantId)
  | None => false
  end.

(** PATCH /tenants/:tenantId, for a TENANT_ADMIN *)
Definition updateTenant_body (req : Request) : Prisma Reply :=
  let tenantId := Params.tenantId (params req) in
  match valid_name (Body.name (body req)) with
  | None => mret (plain 400 "Tenant name is required and must be a non-empty string.")
  | Some trimmedName =>
      existingTenant ← query (fun db =>
        findFirst (fun t => Tenant.name t = trimmedName) (tenants db));
      if other_tenant tenantId existingTenant
      then mret (plain 409 ("Tenant with name " ++ dquote ++ trimmedName ++ dquote
                            ++ " already exists."))
      else
        updatedTenant ← tenant_update_name tenantId trimmedName;
        rootFolder ← rootFolder_of updatedTenant;
        mret (mkReply 200 (Some "Tenant updated successfully.") None
                (TenantWithRoot updatedTenant rootFolder))
  end.

Definition updateTenant : ReplyHandler :=
  reply_route (Some TENANT_ADMIN)
    (fun req => reply_try_catch (updateTenant_body req) "Failed to update tenant.").

(** [tx.file.deleteMany({ where: { tenantId } })]; a version holds its file
    in place ([FileVersion_fileId_fkey], RESTRICT). *)
Definition file_deleteMany (tenantId : string) : Prisma nat := fun db =>
  let doomed := filter (fun fl => File.tenantId fl = tenantId) (files db) in
  if any (fun v => FileVersion.fileId v ∈ (File.id <$> doomed)) (fileVersions db)
  then (db, inl (ForeignKeyConstraint "FileVersion_fileId_fkey"))
  else (set_files (filter (fun fl => File.tenantId fl <> tenantId) (files db)) db,
        inr (length doomed)).

(** [tx.folder.deleteMany({ where: { tenantId } })] *)
Definition folder_deleteMany (tenantId : string) : Prisma nat := fun db =>
  let doomed := filter (fun f => Folder.tenantId f = tenantId) (folders db) in
  let ids := Folder.id <$> doomed in
  if any (fun fl => File.folderId fl ∈ ids) (files db)
  then (db, inl (ForeignKeyConstraint "File_folderId_fkey"))
  else (set_tenants (unroot ids <$> tenants db)
          (set_folders
             (orphan ids <$> filter (fun f => Folder.tenantId f <> tenantId) (folders db))
             db),
        inr (length doomed)).

(** [tx.tenantMember.deleteMany({ where: { tenantId } })] *)
Definition tenantMember_deleteMany (tenantId : string) : Prisma nat := fun db =>
  (set_tenantMembers
     (filter (fun m => TenantMember.tenantId m <> tenantId) (tenantMembers db)) db,
   inr (length (filter (fun m => TenantMember.tenantId m = tenantId) (tenantMembers db)))).

(** [tx.tenant.delete({ where: { id } })]: folders and files hold their
    tenant in place (RESTRICT), memberships go with it (CASCADE). *)
Definition tenant_delete (tenantId : string) : Prisma unit := fun db =>
  if negb (any (fun t => Tenant.id t = tenantId) (tenants db))
  then (db, inl RecordNotFound)
  else if any (fun f => Folder.tenantId f = tenantId) (folders db)
  then (db, inl (ForeignKeyConstraint "Folder_tenantId_fkey"))
  else if any (fun fl => File.tenantId fl = tenantId) (files db)
  then (db, inl (ForeignKeyConstraint "File_tenantId_fkey"))
  else (set_tenantMembers
          (filter (fun m => TenantMember.tenantId m <> tenantId) (tenantMembers db))
          (set_tenants (filter (fun t => Tenant.id t <> tenantId) (tenants db)) db),
        inr tt).

Definition purge (tenantId : string) : Prisma unit :=
  _ ← file_deleteMany tenantId;
  _ ← folder_deleteMany tenantId;
  _ ← tenantMember_deleteMany tenantId;
  tenant_delete tenantId.

(** DELETE /tenants/:tenantId, for a TENANT_ADMIN *)
Definition deleteTenant_body (req : Request) : Prisma Reply :=
  let tenantId := Params.tenantId (params req) in
  tenant ← tenant_findUnique tenantId;
  match tenant with
  | None => mret (plain 404 "Tenant not found.")
  | Some _ =>
      _ ← transaction (purge tenantId);
      mret (plain 200 "Tenant and all associated data deleted successfully.")
  end.

Definition deleteTenant : ReplyHandler :=
  reply_route (Some TENANT_ADMIN)
    (fun req => reply_try_catch (deleteTenant_body req) "Failed to delete tenant.").

(** [Tenant_pkey] and [Tenant_name_key] *)
Definition tenant_ids_unique (db : Db) : Prop := NoDup (Tenant.id <$> tenants db).
Definition tenant_names_unique (db : Db) : Prop := NoDup (Tenant.name <$> tenants db).

(** ** The two representations of the tree

    A folder row holds its place twice: as [parentId] and as [path].  In a
    tree-shaped database they agree: the parent of a folder is a stored
    folder of the same tenant, and the folder's path is the parent's path
    followed by the folder's own sanitised identifier. *)
Definition hangs_under (g h : Folder.t) : Prop :=
  Folder.parentId g = Some (Folder.id h)
  /\ Folder.tenantId h = Folder.tenantId g
  /\ Ltree.labels (Folder.path g)
     = (Ltree.labels (Folder.path h) ++ [replace_hyphens (Folder.id g)])%list.

Definition tree_shaped (db : Db) : Prop :=
  Forall (fun g => is_Some (Folder.parentId g) -> Exists (hangs_under g) (folders db))
         (folders db).

Definition subfolders (r : Reply) : list Subfolder.t :=
  match reply_data r with
  | Subfolders rows => rows
  | _ => []
  end.

(** ** [AuthMiddleware.requireRole] and [AuthMiddleware.rateLimit] *)

Definition role_required : Response :=
  mkResponse 403 (Some "Role information not available") (Some "ROLE_REQUIRED") NoData.

(** [req.user.role] is what [requireTenantAccess] attached. *)
Definition requireRole (role : UserRole) (req : Request) : Response + Request :=
  match user req with
  | Some u =>
      match User.role u with
      | Some r =>
          if (roleHierarchy r <? roleHierarchy role)%nat
          then inl insufficient_permissions
          else inr req
      | None => inl role_required
      end
  | None => inl role_required
  end.

(** [router.METHOD(path, first, second, handler)]: the second middleware
    runs on the request the first one passed on. *)
Definition chain (first : Request -> Prisma (Response + Request))
  (second : Request -> Response + Request) (req : Request) : Prisma (Response + Request) :=
  answer ← first req;
  match answer with
  | inl denied => mret (inl denied)
  | inr req' => mret (second req')
  end.

(** What the limiter reads from a request. *)
Module Client.
Record t := mk {
  userId : option string;
  ip : option string;
  forwardedFor : option string;
  remoteAddress : option string
}.
End Client.

(** [req.user?.id || req.ip || req.headers["x-forwarded-for"]?.toString() ||
    req.socket.remoteAddress || "anonymous"] *)
Definition identifier (c : Client.t) : string :=
  match truthy (Client.userId c) with
  | Some s => s
  | None =>
      match truthy (Client.ip c) with
      | Some s => s
      | None =>
          match truthy (Client.forwardedFor c) with
          | Some s => s
          | None => default "anonymous" (truthy (Client.remoteAddress c))
          end
      end
  end.

(** An entry of the [requests] map; times are in milliseconds. *)
Module Window.
Record t := mk { count : Z; resetTime : Z }.
End Window.

Abbreviation Requests := (gmap string Window.t).

Inductive Limited :=
  | Next
  | TooManyRequests (retryAfter : Z).

(** [Number.MAX_SAFE_INTEGER], 2^53 - 1: up to it every integer is a double,
    and so are the sums and differences of integers that stay below it.
    The largest time a [Date] holds, 8 640 000 000 000 000 ms, is below it. *)
Definition max_safe_integer : Z := 9007199254740991%Z.

(** [Math.ceil(x / 1000)] for an integer [x].  The program divides doubles;
    for [0 <= x <= max_safe_integer] the result is this one: with
    [x = 1000 * k + r] and [0 < r < 1000], the quotient is at least 0.001
    above [k], more than half the distance between the doubles next to
    [k < 2^44], which is at most 2^-10, so the rounded quotient is above [k]
    and at most [k + 1]. *)
Definition ceil_seconds (x : Z) : Z := (- ((- x) / 1000))%Z.

(** One call of the middleware that [rateLimit(maxRequests, windowMs)]
    returns; [now] is [Date.now()] and the map is the closure's. *)
Definition rateLimit (maxRequests windowMs : Z) (c : Client.t) (now : Z)
  (requests : Requests) : Limited * Requests :=
  let identifier := identifier c in
  match requests !! identifier with
  | Some userRequests =>
      if decide (now > Window.resetTime userRequests)%Z
      then (Next, <[identifier := Window.mk 1 (now + windowMs)]> requests)
      else if decide (Window.count userRequests >= maxRequests)%Z
      then (TooManyRequests (ceil_seconds (Window.resetTime userRequests - now)), requests)
      else (Next,
            <[identifier := Window.mk (Window.count userRequests + 1)
                              (Window.resetTime userRequests)]> requests)
  | None => (Next, <[identifier := Window.mk 1 (now + windowMs)]> requests)
  end.

(** The limiter on a sequence of calls, each with its client and its time;
    the result lists which calls went through. *)
Fixpoint serve (maxRequests windowMs : Z) (calls : list (Client.t * Z))
  (requests : Requests) : list Limited * Requests :=
  match calls with
  | [] => ([], requests)
  | (c, now) :: rest =>
      let '(x, requests') := rateLimit maxRequests windowMs c now requests in
      let '(xs, requests'') := serve maxRequests windowMs rest requests' in
      (x :: xs, requests'')
  end.

Definition passed (x : Limited) : bool :=
  match x with
  | Next => true
  | TooManyRequests _ => false
  end.

(** The answers given to the calls of one identifier, in order. *)
Definition answers_to (i : string) (calls : list (Client.t * Z)) (xs : list Limited)
  : list Limited :=
  snd <$> filter (fun cx => identifier (fst (fst cx)) = i) (zip calls xs).

(** ** [AuthMiddleware.authenticate] and [AuthMiddleware.optionalAuth]

    The two tables they read, with the columns they use; times are in
    milliseconds, as [Date] compares them. *)
Module Account.
Record t := mk { id : string; email : string; isActive : bool; isSuspended : bool }.
End Account.

Module Session.
Record t := mk { id : string; userId : string; expiresAt : Z; lastActivityAt : Z }.
End Session.

Record AuthDb := mkAuthDb { sessions : list Session.t; accounts : list Account.t }.

Module JwtPayload.
Record t := mk { userId : string; email : string; sessionId : string }.
End JwtPayload.

(** [new AuthError(message, statusCode, code)] *)
Record AuthError := mkAuthError { auth_message : string; statusCode : nat; auth_code : string }.

(** [req.user = { id, email }; req.sessionId = session.id] *)
Record Principal := mkPrincipal { p_id : string; p_email : string; p_sessionId : string }.

Inductive Authenticated :=
  | Rejected (status : nat) (error code : string)
  | Attached (p : Principal).

(** [authHeader && authHeader.startsWith("Bearer ")], then
    [authHeader.substring(7)] *)
Definition bearer (authorization : option string) : option string :=
  match authorization with
  | Some authHeader =>
      if String.prefix "Bearer " authHeader
      then Some (String.substring 7 (String.length authHeader - 7) authHeader)
      else None
  | None => None
  end.

(** [prisma.session.findUnique({ where: { id }, include: { user: true } })] *)
Definition session_with_user (sessionId : string) (db : AuthDb)
  : option (Session.t * option Account.t) :=
  (fun s => (s, findFirst (fun a => Account.id a = Session.userId s) (accounts db)))
    <$> findFirst (fun s => Session.id s = sessionId) (sessions db).

(** [prisma.session.update({ where: { id }, data: { lastActivityAt } })] *)
Definition touch (sessionId : string) (at_ : Z) (db : AuthDb) : AuthDb :=
  mkAuthDb
    ((fun s => if decide (Session.id s = sessionId)
               then Session.mk (Session.id s) (Session.userId s) (Session.expiresAt s) at_
               else s) <$> sessions db)
    (accounts db).

Section Authenticate.

(** [jwt.verify(token, this.jwtSecret)] of the jsonwebtoken library, [None]
    when it throws. *)
Variable jwt_verify : string -> option JwtPayload.t.

(** [AuthService.verifyAccessToken] *)
Definition verifyAccessToken (token : string) : AuthError + JwtPayload.t :=
  match jwt_verify token with
  | Some payload => inr payload
  | None => inl (mkAuthError "Invalid or expired token" 401 "INVALID_TOKEN")
  end.

(** [now] is the [new Date()] of the expiry check and [activity] the later
    one written to [lastActivityAt].  A session without a user cannot be
    stored ([Session_userId_fkey]); reading its [isSuspended] would throw a
    TypeError, which the [catch] turns into AUTH_FAILED. *)
Definition authenticate (authorization : option string) (now activity : Z) (db : AuthDb)
  : AuthDb * Authenticated :=
  match bearer authorization with
  | None => (db, Rejected 401 "No token provided" "NO_TOKEN")
  | Some token =>
      match verifyAccessToken token with
      | inl e => (db, Rejected (statusCode e) (auth_message e) (auth_code e))
      | inr payload =>
          match session_with_user (JwtPayload.sessionId payload) db with
          | None => (db, Rejected 401 "Session not found" "INVALID_SESSION")
          | Some (session, user) =>
              if decide (Session.expiresAt session < now)%Z
              then (db, Rejected 401 "Session expired" "SESSION_EXPIRED")
              else
                match user with
                | None => (db, Rejected 401 "Authentication failed" "AUTH_FAILED")
                | Some user =>
                    if Account.isSuspended user
                    then (db, Rejected 403 "Account suspended" "ACCOUNT_SUSPENDED")
                    else if negb (Account.isActive user)
                    then (db, Rejected 403 "Account not active" "ACCOUNT_INACTIVE")
                    else (touch (Session.id session) activity db,
                          Attached (mkPrincipal (Account.id user) (Account.email user)
                                      (Session.id session)))
                end
          end
      end
  end.

(** The request always goes on; the result is the user attached, if any. *)
Definition optionalAuth (authorization : option string) (now : Z) (db : AuthDb)
  : option Principal :=
  match bearer authorization with
  | None => None
  | Some token =>
      match verifyAccessToken token with
      | inl _ => None
      | inr payload =>
          match session_with_user (JwtPayload.sessionId payload) db with
          | Some (session, user) =>
              if decide (Session.expiresAt session > now)%Z
              then match user with
                   | Some user =>
                       if Account.isActive user
                       then Some (mkPrincipal (Account.id user) (Account.email user)
                                    (Session.id session))
                       else None
                   | None => None
                   end
              else None
          | None => None
          end
      end
  end.

End Authenticate.

(** ** Auxiliary definitions of the proofs and examples *)

(** The key of [TenantMember_userId_tenantId_key]. *)
Definition member_key (m : TenantMember.t) : string * string :=
  (TenantMember.userId m, TenantMember.tenantId m).

(** A collation to run the children route with: byte order. *)
Definition byte_order (a b : string) : Prop := String.leb a b = true.

#[global] Instance byte_order_dec : RelDecision byte_order.
Proof. intros a b. unfold byte_order. apply _. Defined.

(** A token verifier and two session stores for the examples: one session
    that expires at 5000, of an active account that is, in the second
    store, suspended. *)
Definition toy_verify (token : string) : option JwtPayload.t :=
  if decide (token = "t1") then Some (JwtPayload.mk "u1" "" "s1") else None.

Definition toy_sessions : AuthDb :=
  mkAuthDb [Session.mk "s1" "u1" 5000 0] [Account.mk "u1" "ann@example.org" true false].

Definition toy_suspended : AuthDb :=
  mkAuthDb [Session.mk "s1" "u1" 5000 0] [Account.mk "u1" "ann@example.org" true true].


(** * Properties *)

(** ** The text form of [ltree] *)

Lemma ltree_ext (a b : Ltree.t) : Ltree.labels a = Ltree.labels b -> a = b.
Proof.
  destruct a as [la Ha], b as [lb Hb]; simpl. intros ->.
  f_equal. apply proof_irrel.
Qed.

Lemma of_labels_Some ls p : Ltree.of_labels ls = Some p -> Ltree.labels p = ls.
Proof.
  unfold Ltree.of_labels. destruct (decide _); intros [=]. subst p. reflexivity.
Qed.

Lemma of_labels_labels p : Ltree.of_labels (Ltree.labels p) = Some p.
Proof.
  unfold Ltree.of_labels. destruct (decide _) as [H|H].
  - f_equal. apply ltree_ext. reflexivity.
  - destruct H. apply (Ltree.wf p).
Qed.

Lemma split_dot_nonempty s : Ltree.split_dot s <> [].
Proof.
  destruct s as [|c s]; simpl; [discriminate|].
  destruct (decide (c = dot)); [discriminate|].
  destruct (Ltree.split_dot s); discriminate.
Qed.

Lemma join_dot_cons l ls :
  ls <> [] -> Ltree.join_dot (l :: ls) = l ++ String dot (Ltree.join_dot ls).
Proof. destruct ls; [congruence|reflexivity]. Qed.

Lemma join_split s : Ltree.join_dot (Ltree.split_dot s) = s.
Proof.
  induction s as [|c s IH]; [reflexivity|].
  cbn [Ltree.split_dot]. destruct (decide (c = dot)) as [->|Hc].
  - rewrite join_dot_cons by apply split_dot_nonempty. simpl. by rewrite IH.
  - pose proof (split_dot_nonempty s) as Hne.
    destruct (Ltree.split_dot s) as [|l ls]; [congruence|].
    destruct ls as [|l' ls].
    + simpl in *. by rewrite IH.
    + rewrite join_dot_cons by discriminate.
      rewrite join_dot_cons in IH by discriminate.
      rewrite <- IH. reflexivity.
Qed.

Lemma label_char_not_dot c : Ltree.label_char c = true -> c <> dot.
Proof. intros H ->. vm_compute in H. discriminate. Qed.

Lemma word_dotless s : Ltree.word s = true -> dotless s = true.
Proof.
  induction s as [|c s IH]; [reflexivity|]. simpl.
  intros [Hc Hs]%andb_prop. rewrite IH by assumption.
  destruct (decide (c = dot)); [|reflexivity].
  by apply label_char_not_dot in Hc.
Qed.

Lemma label_ok_dotless l : Ltree.label_ok l = true -> dotless l = true.
Proof. destruct l; [discriminate|]. apply word_dotless. Qed.

Lemma split_dotless l : dotless l = true -> Ltree.split_dot l = [l].
Proof.
  induction l as [|c l IH]; [reflexivity|]. simpl.
  destruct (decide (c = dot)); [discriminate|]. simpl.
  intros H. by rewrite IH.
Qed.

Lemma split_app_dot l s :
  dotless l = true ->
  Ltree.split_dot (l ++ String dot s) = l :: Ltree.split_dot s.
Proof.
  induction l as [|c l IH]; simpl.
  - intros _. destruct (decide (dot = dot)); congruence.
  - destruct (decide (c = dot)); [discriminate|]. simpl.
    intros H. by rewrite IH.
Qed.

Lemma split_join ls :
  ls <> [] -> Forall (fun l => dotless l = true) ls ->
  Ltree.split_dot (Ltree.join_dot ls) = ls.
Proof.
  induction ls as [|l ls IH]; [congruence|].
  intros _ Hall. apply Forall_cons in Hall as [Hl Hls].
  destruct ls as [|l' ls].
  - simpl. by apply split_dotless.
  - rewrite join_dot_cons by discriminate.
    rewrite split_app_dot by assumption.
    by rewrite IH.
Qed.

Lemma labels_ok p : Forall (fun l => Ltree.label_ok l = true) (Ltree.labels p).
Proof.
  pose proof (Ltree.wf p) as H. apply Is_true_true in H.
  rewrite forallb_forall in H. apply Forall_forall.
  intros l Hl. apply H. by apply list_elem_of_In.
Qed.

Lemma labels_dotless p : Forall (fun l => dotless l = true) (Ltree.labels p).
Proof. eapply Forall_impl; [apply labels_ok|]. intros l. apply label_ok_dotless. Qed.

Lemma join_dot_empty ls :
  Forall (fun l => Ltree.label_ok l = true) ls -> Ltree.join_dot ls = "" -> ls = [].
Proof.
  destruct ls as [|l ls]; [reflexivity|].
  intros [Hl _]%Forall_cons. destruct l as [|c l]; [discriminate|].
  destruct ls; discriminate.
Qed.

(** [path::text] read back as [::ltree] is the stored path. *)
Lemma ltree_in_out p : Ltree.ltree_in (Ltree.ltree_out p) = Some p.
Proof.
  unfold Ltree.ltree_in, Ltree.ltree_out.
  destruct (Ltree.join_dot (Ltree.labels p)) as [|c s] eqn:E.
  - apply join_dot_empty in E; [|apply labels_ok].
    rewrite <- E. apply of_labels_labels.
  - rewrite <- E. rewrite split_join.
    + apply of_labels_labels.
    + intros Hnil. rewrite Hnil in E. discriminate.
    + apply labels_dotless.
Qed.

(** A text accepted by [::ltree] is the text form of the value it yields. *)
Lemma ltree_out_in s p : Ltree.ltree_in s = Some p -> Ltree.ltree_out p = s.
Proof.
  unfold Ltree.ltree_in, Ltree.ltree_out. destruct s as [|c s].
  - intros ->%of_labels_Some. reflexivity.
  - intros ->%of_labels_Some. apply join_split.
Qed.

Lemma cast_ltree_out p db : cast_ltree (Ltree.ltree_out p) db = (db, inr p).
Proof. unfold cast_ltree. by rewrite ltree_in_out. Qed.

(** ** Running Prisma calls *)

Lemma bind_inr {A B} (m : Prisma A) (k : A -> Prisma B) db db' b :
  (m ≫= k) db = (db', inr b) ->
  exists a db1, m db = (db1, inr a) /\ k a db1 = (db', inr b).
Proof.
  unfold mbind, Prisma_bind. destruct (m db) as [db1 [e|a]]; [discriminate|].
  intros H. by exists a, db1.
Qed.

Lemma bind_inl {A B} (m : Prisma A) (k : A -> Prisma B) db db' e :
  (m ≫= k) db = (db', inl e) ->
  m db = (db', inl e) \/ exists a db1, m db = (db1, inr a) /\ k a db1 = (db', inl e).
Proof.
  unfold mbind, Prisma_bind. destruct (m db) as [db1 [e1|a]].
  - intros [= -> ->]. by left.
  - intros H. right. by exists a, db1.
Qed.

Lemma bind_run {A B} (m : Prisma A) (k : A -> Prisma B) db db1 a :
  m db = (db1, inr a) -> (m ≫= k) db = k a db1.
Proof. unfold mbind, Prisma_bind. by intros ->. Qed.

Lemma transaction_inr {A} (body : Prisma A) db db' a :
  transaction body db = (db', inr a) -> body db = (db', inr a).
Proof.
  unfold transaction. destruct (body db) as [db1 [e|x]]; [discriminate|].
  by intros [= -> ->].
Qed.

(** A transaction that throws leaves the database as it found it. *)
Lemma transaction_inl {A} (body : Prisma A) db db' e :
  transaction body db = (db', inl e) -> db' = db.
Proof.
  unfold transaction. destruct (body db) as [db1 [e1|x]]; [|discriminate].
  by intros [= <- _].
Qed.

Lemma try_catch_inv body failure db resp db' :
  try_catch body failure db = (resp, db') ->
  body db = (db', inr resp)
  \/ exists e, body db = (db', inl e)
               /\ resp = mkResponse 500 (Some failure) None (ErrorMessage e).
Proof.
  unfold try_catch. destruct (body db) as [db1 [e|r]]; intros [= <- <-].
  - right. by exists e.
  - by left.
Qed.

Lemma cast_ltree_inr text db db' p :
  cast_ltree text db = (db', inr p) -> db' = db /\ Ltree.ltree_in text = Some p.
Proof.
  unfold cast_ltree. destruct (Ltree.ltree_in text); [|discriminate].
  by intros [= -> ->].
Qed.

Lemma cast_ltree_inl text db db' e : cast_ltree text db = (db', inl e) -> db' = db.
Proof.
  unfold cast_ltree. destruct (Ltree.ltree_in text); [discriminate|].
  by intros [= ->].
Qed.

Lemma any_false {A} (P : A -> Prop) `{forall x, Decision (P x)} l :
  any P l = false <-> forall x, x ∈ l -> ~ P x.
Proof.
  unfold any. rewrite bool_decide_eq_false, Exists_exists. split.
  - intros Hn x Hx HP. apply Hn. eauto.
  - intros Hall (x & Hx & HP). by apply (Hall x).
Qed.

Lemma any_true {A} (P : A -> Prop) `{forall x, Decision (P x)} l :
  any P l = true <-> exists x, x ∈ l /\ P x.
Proof. unfold any. by rewrite bool_decide_eq_true, Exists_exists. Qed.

Lemma findFirst_None {A} (P : A -> Prop) `{forall x, Decision (P x)} l :
  findFirst P l = None <-> forall x, x ∈ l -> ~ P x.
Proof.
  unfold findFirst. rewrite head_None. split.
  - intros Hnil x Hx HP.
    assert (x ∈ filter P l) as Hin by (by apply list_elem_of_filter).
    rewrite Hnil in Hin. by apply not_elem_of_nil in Hin.
  - intros Hall. destruct (filter P l) as [|x r] eqn:E; [done|].
    assert (x ∈ filter P l) as [HP Hx]%list_elem_of_filter by (rewrite E; left).
    by destruct (Hall x).
Qed.

Lemma findFirst_Some {A} (P : A -> Prop) `{forall x, Decision (P x)} l x :
  findFirst P l = Some x -> x ∈ l /\ P x.
Proof.
  unfold findFirst. intros Hh. apply head_Some_elem_of in Hh.
  apply list_elem_of_filter in Hh. tauto.
Qed.

(** *** The statements, when they succeed and when they throw *)

Lemma insert_folder_inr f db db' u :
  insert_folder f db = (db', inr u) ->
  db' = set_folders (folders db ++ [f]) db
  /\ (forall g, g ∈ folders db -> Folder.id g <> Folder.id f)
  /\ (forall g, g ∈ folders db -> ~ same_slot f g)
  /\ (exists t, t ∈ tenants db /\ Tenant.id t = Folder.tenantId f).
Proof.
  unfold insert_folder.
  destruct (any _ (folders db)) eqn:E1; [discriminate|].
  destruct (any (same_slot f) _) eqn:E2; [discriminate|].
  destruct (parent_missing f db); [discriminate|].
  destruct (any _ (tenants db)) eqn:E4; [|discriminate]. simpl.
  intros [= <-]. rewrite any_false in E1, E2. apply any_true in E4.
  repeat split; auto.
Qed.

Lemma insert_folder_inl f db db' e : insert_folder f db = (db', inl e) -> db' = db.
Proof.
  unfold insert_folder. repeat case_match; by intros [= <-].
Qed.

Lemma tenant_create_inr newId name db db' t :
  tenant_create newId name db = (db', inr t) ->
  t = Tenant.mk newId name None
  /\ db' = set_tenants (tenants db ++ [t]) db
  /\ (forall x, x ∈ tenants db -> Tenant.id x <> newId).
Proof.
  unfold tenant_create.
  destruct (any _ (tenants db)) eqn:E1; [discriminate|].
  destruct (any (fun t => Tenant.name t = name) _); [discriminate|].
  intros [= <- <-]. rewrite any_false in E1. auto.
Qed.

Lemma tenant_update_rootFolderId_inr tenantId rootFolderId db db' t :
  tenant_update_rootFolderId tenantId rootFolderId db = (db', inr t) ->
  db' = set_tenants
          ((fun x => if decide (Tenant.id x = tenantId)
                     then Tenant.mk (Tenant.id x) (Tenant.name x) (Some rootFolderId)
                     else x) <$> tenants db) db.
Proof.
  unfold tenant_update_rootFolderId. repeat case_match; try discriminate.
  by intros [= <- _].
Qed.

Lemma tenantMember_create_inr userId tenantId role db db' u :
  tenantMember_create userId tenantId role db = (db', inr u) ->
  db' = set_tenantMembers
          (tenantMembers db ++ [TenantMember.mk userId tenantId role]) db.
Proof.
  unfold tenantMember_create. repeat case_match; try discriminate.
  by intros [= <-].
Qed.

Lemma provision_inr tid rid n uid db db' result :
  provision tid rid n uid db = (db', inr result) ->
  exists path,
    Ltree.ltree_in (replace_hyphens tid) = Some path
    /\ (forall x, x ∈ tenants db -> Tenant.id x <> tid)
    /\ (forall g, g ∈ folders db -> Folder.id g <> rid)
    /\ db' = mkDb (folders db ++ [Folder.mk rid "root" None tid path])
               (files db) (fileVersions db)
               ((fun x => if decide (Tenant.id x = tid)
                          then Tenant.mk (Tenant.id x) (Tenant.name x) (Some rid)
                          else x) <$> (tenants db ++ [Tenant.mk tid n None])%list)
               (tenantMembers db ++ [TenantMember.mk uid tid TENANT_ADMIN]).
Proof.
  unfold provision. intros H.
  apply bind_inr in H as (t & db1 & Ht & H).
  apply tenant_create_inr in Ht as (-> & -> & Hfresh). simpl in H.
  apply bind_inr in H as (path & db2 & Hp & H).
  apply cast_ltree_inr in Hp as [-> Hp].
  apply bind_inr in H as (u & db3 & Hi & H).
  apply insert_folder_inr in Hi as (-> & Hid & _ & _).
  apply bind_inr in H as (t' & db4 & Hu & H).
  apply tenant_update_rootFolderId_inr in Hu as ->.
  apply bind_inr in H as (u' & db5 & Hm & H).
  apply tenantMember_create_inr in Hm as ->.
  unfold query in H. injection H as <- _.
  exists path. repeat split; auto.
Qed.

Lemma createTenant_body_run newTenantId newRootId req db :
  createTenant_body newTenantId newRootId req db =
  match user req with
  | None => (db, inr (mkResponse 401 (Some "Authentication required.") None NoData))
  | Some u =>
      match valid_name (Body.name (body req)) with
      | None =>
          (db, inr (mkResponse 400
                      (Some "Tenant name is required and must be a non-empty string.")
                      None NoData))
      | Some trimmedName =>
          match findFirst (fun t => Tenant.name t = trimmedName) (tenants db) with
          | Some _ =>
              (db, inr (mkResponse 409
                          (Some ("Tenant with name " ++ dquote ++ trimmedName ++ dquote
                                 ++ " already exists."))
                          None NoData))
          | None =>
              match provision newTenantId newRootId trimmedName (User.id u) db with
              | (db', inr result) =>
                  (db', inr (mkResponse 201
                               (Some "Tenant created successfully. You are now the admin.")
                               None (TenantRecord result)))
              | (_, inl e) => (db, inl e)
              end
          end
      end
  end.
Proof.
  unfold createTenant_body.
  destruct (user req) as [u|]; [|reflexivity].
  destruct (valid_name _) as [trimmedName|]; [|reflexivity].
  unfold mbind, Prisma_bind, query, transaction.
  destruct (findFirst _ _); [reflexivity|].
  destruct (provision _ _ _ _ db) as [db1 [e|r]]; reflexivity.
Qed.

(** Every answer of the tenant route other than 201 leaves the database
    untouched, and a 201 comes with the writes of [provision]. *)
Lemma createTenant_inv newTenantId newRootId req db resp db' :
  createTenant newTenantId newRootId req db = (resp, db') ->
  (status resp <> 201 /\ db' = db)
  \/ (status resp = 201
      /\ exists u trimmedName result,
           user req = Some u
           /\ valid_name (Body.name (body req)) = Some trimmedName
           /\ provision newTenantId newRootId trimmedName (User.id u) db = (db', inr result)).
Proof.
  unfold createTenant, try_catch. rewrite createTenant_body_run.
  destruct (user req) as [u|]; [|intros [= <- <-]; left; split; [discriminate|done]].
  destruct (valid_name _) as [n|]; [|intros [= <- <-]; left; split; [discriminate|done]].
  destruct (findFirst _ _); [intros [= <- <-]; left; split; [discriminate|done]|].
  destruct (provision _ _ _ _ db) as [db1 [e|r]] eqn:E; intros [= <- <-].
  - left. split; [discriminate|done].
  - right. split; [done|]. by exists u, n, r.
Qed.

(** ** The middleware *)

Lemma requireTenantAccess_inv requiredRole req db db' r :
  requireTenantAccess requiredRole req db = (db', r) ->
  db' = db
  /\ ((exists denied, r = inr (inl denied)
                      /\ (status denied = 400 \/ status denied = 401 \/ status denied = 403))
      \/ (exists req' u m,
            r = inr (inr req')
            /\ params req' = params req /\ body req' = body req
            /\ user req = Some u
            /\ m ∈ tenantMembers db
            /\ TenantMember.userId m = User.id u
            /\ TenantMember.tenantId m = Params.tenantId (params req)
            /\ insufficient requiredRole (TenantMember.role m) = false)).
Proof.
  unfold requireTenantAccess.
  destruct (user req) as [u|] eqn:Hu.
  2:{ intros [= <- <-]. split; [done|]. left. eexists. split; [done|]. simpl. tauto. }
  destruct (decide _) as [He|Hne].
  { intros [= <- <-]. split; [done|]. left. eexists. split; [done|]. simpl. tauto. }
  unfold mbind, Prisma_bind, query.
  destruct (findFirst _ _) as [m|] eqn:Hm.
  2:{ intros [= <- <-]. split; [done|]. left. eexists. split; [done|]. simpl. tauto. }
  apply findFirst_Some in Hm as (Hin & Hmu & Hmt).
  destruct (insufficient _ _) eqn:Hi.
  { intros [= <- <-]. split; [done|]. left. eexists. split; [done|]. simpl. tauto. }
  intros [= <- <-]. split; [done|]. right.
  eexists _, u, m. repeat split; eauto.
Qed.

Lemma passes_next requiredRole req db :
  passes requiredRole req db ->
  exists req',
    requireTenantAccess requiredRole req db = (db, inr (inr req'))
    /\ params req' = params req /\ body req' = body req.
Proof.
  intros [req' H]. exists req'. split; [done|].
  apply requireTenantAccess_inv in H as (_ & [(d & [=] & _)|(r & u & m & [= <-] & ? & ? & _)]).
  done.
Qed.

Lemma classic_passes requiredRole req db :
  passes requiredRole req db \/ ~ passes requiredRole req db.
Proof.
  destruct (requireTenantAccess requiredRole req db) as [db1 r] eqn:E.
  apply requireTenantAccess_inv in E as H.
  destruct H as (-> & [(d & -> & Hd)|(req' & u & m & -> & _)]).
  - right. intros [req' H]. congruence.
  - left. by exists req'.
Qed.

(** A request the middleware stops never reaches the database. *)
Lemma route_denied requiredRole handler req db :
  ~ passes requiredRole req db ->
  (route requiredRole handler req db).2 = db
  /\ (let s := status (route requiredRole handler req db).1 in
      s = 400 \/ s = 401 \/ s = 403).
Proof.
  intros Hno. unfold route.
  destruct (requireTenantAccess requiredRole req db) as [db1 r] eqn:E.
  apply requireTenantAccess_inv in E as H.
  destruct H as (-> & [(d & -> & Hd)|(req' & u & m & -> & _)]).
  - done.
  - destruct Hno. by exists req'.
Qed.

(** ** Creating a sub-folder *)

Lemma valid_name_Some name n : valid_name name = Some n -> n <> "".
Proof.
  unfold valid_name. destruct name as [x|]; [|discriminate].
  repeat case_match; try discriminate. by intros [= <-].
Qed.

Lemma createSubfolder_check_inv req db db' r :
  createSubfolder_check req db = (db', r) ->
  db' = db
  /\ ((exists refused, r = inr (inl refused)
         /\ (status refused = 400 \/ status refused = 404
             \/ (refused = duplicate_name (trim (default "" (Body.name (body req))))
                 /\ exists trimmedName parentId g,
                      valid_name (Body.name (body req)) = Some trimmedName
                      /\ Body.parentId (body req) = Some parentId
                      /\ g ∈ folders db
                      /\ Folder.name g = trimmedName
                      /\ Folder.parentId g = Some parentId
                      /\ Some (Folder.tenantId g) = Body.tenantId (body req))))
      \/ (exists c tenantId rest,
            r = inr (inr c)
            /\ Body.tenantId (body req) = Some tenantId
            /\ checked_tenantId c = Some tenantId
            /\ Body.parentId (body req) = Some (checked_parentId c)
            /\ valid_name (Body.name (body req)) = Some (checked_name c)
            /\ filter (fun f => Folder.id f = checked_parentId c
                                /\ Some (Folder.tenantId f) = Body.tenantId (body req))
                      (folders db) = checked_parent c :: rest
            /\ (forall g, g ∈ folders db ->
                  ~ (Folder.name g = checked_name c
                     /\ Folder.parentId g = Some (checked_parentId c)
                     /\ Folder.tenantId g = tenantId)))).
Proof.
  unfold createSubfolder_check.
  destruct (valid_name _) as [trimmedName|] eqn:Hn.
  2:{ intros [= <- <-]. split; [done|]. left. eexists. split; [done|]. simpl. tauto. }
  destruct (Body.parentId _) as [parentId|] eqn:Hp.
  2:{ intros [= <- <-]. split; [done|]. left. eexists. split; [done|]. simpl. tauto. }
  destruct (decide _).
  { intros [= <- <-]. split; [done|]. left. eexists. split; [done|]. simpl. tauto. }
  unfold mbind, Prisma_bind, query.
  destruct (filter _ _) as [|parent rest] eqn:Hf.
  { intros [= <- <-]. split; [done|]. left. eexists. split; [done|]. simpl. tauto. }
  destruct (findFirst _ _) as [g|] eqn:Hd.
  - intros [= <- <-]. split; [done|]. left. eexists. split; [done|].
    right. right. split.
    + unfold valid_name in Hn. destruct (Body.name _) as [x|]; [|done].
      repeat case_match; try done. by injection Hn as <-.
    + apply findFirst_Some in Hd as (Hin & Hg1 & Hg2 & Hg3).
      by exists trimmedName, parentId, g.
  - intros [= <- <-]. split; [done|]. right.
    assert (parent ∈ filter (fun f => Folder.id f = parentId
              /\ Some (Folder.tenantId f) = Body.tenantId (body req)) (folders db))
      as [[_ Ht] _]%list_elem_of_filter by (rewrite Hf; left).
    eexists _, (Folder.tenantId parent), rest. simpl.
    repeat split; eauto.
    rewrite findFirst_None in Hd. intros g Hg (H1 & H2 & H3).
    apply (Hd g Hg). repeat split; auto. by rewrite H3.
Qed.

Lemma createSubfolder_write_inr newFolderId c db db' resp :
  createSubfolder_write newFolderId c db = (db', inr resp) ->
  exists tenantId path,
    checked_tenantId c = Some tenantId
    /\ Ltree.ltree_in (Ltree.ltree_out (Folder.path (checked_parent c)) ++ "."
                       ++ replace_hyphens newFolderId) = Some path
    /\ insert_folder (Folder.mk newFolderId (checked_name c) (Some (checked_parentId c))
                        tenantId path) db = (db', inr tt)
    /\ status resp = 201.
Proof.
  unfold createSubfolder_write. intros H.
  apply bind_inr in H as (path & db1 & Hp & H).
  apply cast_ltree_inr in Hp as [-> Hp].
  apply bind_inr in H as (u & db2 & Hi & H).
  destruct (checked_tenantId c) as [tenantId|]; [|discriminate].
  apply bind_inr in H as (created & db3 & Hq & H).
  unfold query in Hq. injection Hq as <- _. injection H as <- <-.
  destruct u. by exists tenantId, path.
Qed.

Lemma createSubfolder_write_inl newFolderId c db db' e :
  createSubfolder_write newFolderId c db = (db', inl e) -> db' = db.
Proof.
  unfold createSubfolder_write. intros H.
  apply bind_inl in H as [H|(path & db1 & Hp & H)]; [by apply cast_ltree_inl in H|].
  apply cast_ltree_inr in Hp as [-> _].
  apply bind_inl in H as [H|(u & db2 & Hi & H)].
  - destruct (checked_tenantId c); [by apply insert_folder_inl in H|].
    by injection H as <-.
  - apply bind_inl in H as [H|(x & db3 & Hq & H)]; discriminate.
Qed.

(** Every answer of the create route other than 201 leaves the database
    untouched; a 201 comes with exactly one inserted row. *)
Lemma createSubfolder_inv newFolderId req db resp db' :
  createSubfolder newFolderId req db = (resp, db') ->
  (status resp <> 201 /\ db' = db)
  \/ (status resp = 201
      /\ passes None req db
      /\ exists tenantId parentId trimmedName parent rest path,
           Body.tenantId (body req) = Some tenantId
           /\ Body.parentId (body req) = Some parentId
           /\ valid_name (Body.name (body req)) = Some trimmedName
           /\ filter (fun f => Folder.id f = parentId
                               /\ Some (Folder.tenantId f) = Body.tenantId (body req))
                     (folders db) = parent :: rest
           /\ Ltree.ltree_in (Ltree.ltree_out (Folder.path parent) ++ "."
                              ++ replace_hyphens newFolderId) = Some path
           /\ insert_folder (Folder.mk newFolderId trimmedName (Some parentId) tenantId path)
                db = (db', inr tt)).
Proof.
  unfold createSubfolder, route.
  destruct (requireTenantAccess None req db) as [db1 r] eqn:E.
  apply requireTenantAccess_inv in E as H.
  destruct H as (-> & [(d & -> & Hd)|(req' & u & m & -> & Hp & Hb & _)]).
  { intros [= <- <-]. left. split; [|done]. intros Hs. rewrite Hs in Hd.
    destruct Hd as [|[|]]; discriminate. }
  intros H. apply try_catch_inv in H as [H|(e & H & ->)].
  2:{ left. split; [discriminate|].
      unfold createSubfolder_body in H.
      apply bind_inl in H as [H|(x & db1 & Hc & H)].
      - apply createSubfolder_check_inv in H as (_ & [(? & [=] & _)|(? & ? & ? & [=] & _)]).
      - apply createSubfolder_check_inv in Hc as (-> & _).
        destruct x as [refused|c]; [discriminate|].
        by apply createSubfolder_write_inl in H. }
  unfold createSubfolder_body in H.
  apply bind_inr in H as (x & db1 & Hc & H).
  apply createSubfolder_check_inv in Hc
    as (-> & [(refused & [= ->] & Hr)|(c & t & rest & [= ->] & Ht & Hct & Hpid & Hn & Hf & Hd)]).
  - injection H as <- <-. left. split; [|done].
    destruct Hr as [Hr|[Hr|[-> _]]]; [rewrite Hr..|]; discriminate.
  - apply createSubfolder_write_inr in H as (t' & path & Ht' & Hpath & Hins & Hst).
    right. split; [done|]. split; [by exists req'|].
    rewrite Hb in *. assert (t' = t) as -> by congruence.
    exists t, (checked_parentId c), (checked_name c), (checked_parent c), rest, path.
    done.
Qed.

Lemma dotless_replace_hyphens s : dotless (replace_hyphens s) = dotless s.
Proof.
  induction s as [|c s IH]; [reflexivity|]. simpl. rewrite IH.
  destruct (decide (c = hyphen)) as [->|]; reflexivity.
Qed.

Lemma replace_hyphens_empty s : replace_hyphens s = "" -> s = "".
Proof. by destruct s. Qed.

(** C1. The path stored for a folder made by the create route is the text
    of the parent's path, a dot, and the new folder's identifier with every
    hyphen turned into an underscore; the path stored for the root folder
    made at tenant provisioning is the tenant's identifier with the hyphens
    turned into underscores and nothing before it: one label, as long as
    the identifier is not empty and has no dot. *)
Theorem stored_path_is_composed
  (newFolderId : string) (req : Request) (db : Db)
  (newTenantId newRootId : string) (req0 : Request) (db0 : Db) :
  (status (createSubfolder newFolderId req db).1 = 201 ->
   exists parent f,
     parent ∈ folders db
     /\ Body.parentId (body req) = Some (Folder.id parent)
     /\ folders (createSubfolder newFolderId req db).2 = (folders db ++ [f])%list
     /\ Folder.id f = newFolderId
     /\ Folder.parentId f = Some (Folder.id parent)
     /\ Ltree.ltree_out (Folder.path f)
        = Ltree.ltree_out (Folder.path parent) ++ "." ++ replace_hyphens (Folder.id f))
  /\ (status (createTenant newTenantId newRootId req0 db0).1 = 201 ->
      exists f,
        folders (createTenant newTenantId newRootId req0 db0).2 = (folders db0 ++ [f])%list
        /\ Folder.id f = newRootId
        /\ Folder.parentId f = None
        /\ Folder.tenantId f = newTenantId
        /\ Ltree.ltree_out (Folder.path f) = replace_hyphens newTenantId
        /\ (newTenantId <> "" -> dotless newTenantId = true ->
            Ltree.labels (Folder.path f) = [replace_hyphens newTenantId])).
Proof.
  split.
  - destruct (createSubfolder newFolderId req db) as [resp db'] eqn:E. simpl.
    intros Hst. apply createSubfolder_inv in E as [[Hne _]|(_ & _ & H)]; [done|].
    destruct H as (t & pid & n & parent & rest & path & Ht & Hpid & Hn & Hf & Hpath & Hins).
    apply insert_folder_inr in Hins as (-> & _).
    assert (parent ∈ filter (fun f => Folder.id f = pid
              /\ Some (Folder.tenantId f) = Body.tenantId (body req)) (folders db))
      as [[Hid _] Hin]%list_elem_of_filter by (rewrite Hf; left).
    exists parent, (Folder.mk newFolderId n (Some pid) t path). simpl.
    repeat split; auto; try congruence.
    by apply ltree_out_in.
  - destruct (createTenant newTenantId newRootId req0 db0) as [resp db'] eqn:E. simpl.
    intros Hst. apply createTenant_inv in E as [[Hne _]|(_ & u & n & result & _ & _ & H)];
      [done|].
    apply provision_inr in H as (path & Hpath & _ & _ & ->).
    exists (Folder.mk newRootId "root" None newTenantId path). simpl.
    repeat split; auto.
    + by apply ltree_out_in.
    + intros Hne Hdot. unfold Ltree.ltree_in in Hpath.
      destruct (replace_hyphens newTenantId) as [|c s] eqn:Hs.
      { by apply replace_hyphens_empty in Hs. }
      apply of_labels_Some in Hpath. rewrite Hpath, <- Hs.
      apply split_dotless. by rewrite dotless_replace_hyphens.
Qed.

Lemma stored_path_is_composed_witness :
  (exists parent f,
     parent ∈ folders Scenario.store
     /\ Some Scenario.reports = Some (Folder.id parent)
     /\ folders (createSubfolder Scenario.fresh
                   (Scenario.request "alice" Scenario.acme ""
                      (Body.mk (Some Scenario.acme) (Some " 2024 ") (Some Scenario.reports)))
                   Scenario.store).2 = (folders Scenario.store ++ [f])%list
     /\ Folder.id f = Scenario.fresh
     /\ Folder.parentId f = Some (Folder.id parent)
     /\ Ltree.ltree_out (Folder.path f)
        = Ltree.ltree_out (Folder.path parent) ++ "." ++ replace_hyphens (Folder.id f))
  /\ (exists f,
        folders (createTenant Scenario.gamma Scenario.gamma_root
                   (Scenario.request "alice" "" "" (Body.mk None (Some "Gamma") None))
                   Scenario.store).2 = (folders Scenario.store ++ [f])%list
        /\ Folder.id f = Scenario.gamma_root
        /\ Folder.parentId f = None
        /\ Folder.tenantId f = Scenario.gamma
        /\ Ltree.ltree_out (Folder.path f) = replace_hyphens Scenario.gamma
        /\ (Scenario.gamma <> "" -> dotless Scenario.gamma = true ->
            Ltree.labels (Folder.path f) = [replace_hyphens Scenario.gamma])).
Proof.
  split.
  - apply (proj1 (stored_path_is_composed Scenario.fresh
                    (Scenario.request "alice" Scenario.acme ""
                       (Body.mk (Some Scenario.acme) (Some " 2024 ") (Some Scenario.reports)))
                    Scenario.store Scenario.gamma Scenario.gamma_root
                    (Scenario.request "alice" "" "" (Body.mk None (Some "Gamma") None))
                    Scenario.store)).
    vm_compute. reflexivity.
  - apply (proj2 (stored_path_is_composed Scenario.fresh
                    (Scenario.request "alice" Scenario.acme ""
                       (Body.mk (Some Scenario.acme) (Some " 2024 ") (Some Scenario.reports)))
                    Scenario.store Scenario.gamma Scenario.gamma_root
                    (Scenario.request "alice" "" "" (Body.mk None (Some "Gamma") None))
                    Scenario.store)).
    vm_compute. reflexivity.
Defined.

(** ** Deleting a subtree *)

Lemma NoDup_fmap_elem {A B} (f : A -> B) (l : list A) x y :
  NoDup (f <$> l) -> x ∈ l -> y ∈ l -> f x = f y -> x = y.
Proof.
  induction l as [|a l IH]; [by intros _ ?%not_elem_of_nil|].
  rewrite fmap_cons, NoDup_cons. intros [Ha Hl] Hx Hy Hxy.
  apply elem_of_cons in Hx as [->|Hx]; apply elem_of_cons in Hy as [->|Hy]; auto.
  - destruct Ha. rewrite Hxy. by apply list_elem_of_fmap_2.
  - destruct Ha. rewrite <- Hxy. by apply list_elem_of_fmap_2.
Qed.

Lemma filter_ext_elem {A} (P Q : A -> Prop)
  `{forall x, Decision (P x)} `{forall x, Decision (Q x)} (l : list A) :
  (forall x, x ∈ l -> (P x <-> Q x)) -> filter P l = filter Q l.
Proof.
  induction l as [|a l IH]; [done|]. intros Hext.
  rewrite !filter_cons.
  assert (filter P l = filter Q l) as -> by (apply IH; intros x Hx; apply Hext; by right).
  pose proof (Hext a ltac:(left)) as Ha.
  destruct (decide (P a)), (decide (Q a)); tauto.
Qed.

Lemma filter_complement_length {A} (P : A -> Prop) `{forall x, Decision (P x)} (l : list A) :
  length l = length (filter (fun x => ~ P x) l) + length (filter P l).
Proof.
  rewrite <- (Permutation_length (filter_app_complement P l)) at 1.
  rewrite length_app. lia.
Qed.

(** The row a route reads by identifier and tenant is the folder itself. *)
Lemma folder_of_tenant_unique db f folderId tenantId :
  folder_ids_unique db -> f ∈ folders db ->
  Folder.id f = folderId -> Folder.tenantId f = tenantId ->
  forall g rest,
    filter (fun x => Folder.id x = folderId /\ Folder.tenantId x = tenantId) (folders db)
    = g :: rest -> g = f.
Proof.
  intros Hu Hf Hid Ht g rest Hfil.
  assert (g ∈ filter (fun x => Folder.id x = folderId /\ Folder.tenantId x = tenantId)
                     (folders db))
    as [[Hg _] Hin]%list_elem_of_filter by (rewrite Hfil; left).
  apply (NoDup_fmap_elem Folder.id (folders db)); auto. congruence.
Qed.

Lemma folder_of_tenant_found db f folderId tenantId :
  f ∈ folders db -> Folder.id f = folderId -> Folder.tenantId f = tenantId ->
  filter (fun x => Folder.id x = folderId /\ Folder.tenantId x = tenantId) (folders db) <> [].
Proof.
  intros Hf Hid Ht Hnil.
  assert (f ∈ filter (fun x => Folder.id x = folderId /\ Folder.tenantId x = tenantId)
                     (folders db)) as Hin by (by apply list_elem_of_filter).
  rewrite Hnil in Hin. by apply not_elem_of_nil in Hin.
Qed.

Lemma delete_files_under_inr pivot tenantId db db' n :
  delete_files_under pivot tenantId db = (db', inr n) ->
  db' = set_files
          (filter (fun fl => File.folderId fl ∉
                     Folder.id <$> filter (in_subtree pivot tenantId) (folders db))
                  (files db)) db.
Proof.
  unfold delete_files_under. destruct (any _ _); [discriminate|]. by intros [= <- _].
Qed.

Lemma delete_folders_under_inr pivot tenantId db db' n :
  delete_folders_under pivot tenantId db = (db', inr n) ->
  n = length (filter (in_subtree pivot tenantId) (folders db))
  /\ folders db' =
       orphan (Folder.id <$> filter (in_subtree pivot tenantId) (folders db))
         <$> filter (fun f => ~ in_subtree pivot tenantId f) (folders db)
  /\ files db' = files db
  /\ tenants db' =
       unroot (Folder.id <$> filter (in_subtree pivot tenantId) (folders db))
         <$> tenants db.
Proof.
  unfold delete_folders_under. destruct (any _ _); [discriminate|].
  by intros [= <- <-].
Qed.

(** The transaction of the delete route, run on the stored path: when it
    commits, both statements ran; when it throws, nothing is written. *)
Lemma deleteSubtree_transaction p tenantId db db' (r : PrismaError + nat) :
  transaction (_ ← delete_files_of_subtree (Ltree.ltree_out p) tenantId;
               deletedFolders ← delete_folders_of_subtree (Ltree.ltree_out p) tenantId;
               mret deletedFolders) db = (db', r) ->
  match r with
  | inl _ => db' = db
  | inr n =>
      exists k db1,
        delete_files_under p tenantId db = (db1, inr k)
        /\ delete_folders_under p tenantId db1 = (db', inr n)
  end.
Proof.
  intros H. destruct r as [e|n]; [by apply transaction_inl in H|].
  apply transaction_inr in H.
  apply bind_inr in H as (k & db1 & Hfiles & H).
  apply bind_inr in H as (m & db2 & Hfolders & H).
  injection H as <- <-.
  unfold delete_files_of_subtree in Hfiles. unfold delete_folders_of_subtree in Hfolders.
  rewrite (bind_run _ _ _ _ _ (cast_ltree_out p db)) in Hfiles.
  rewrite (bind_run _ _ _ _ _ (cast_ltree_out p db1)) in Hfolders.
  by exists k, db1.
Qed.

Lemma deleteSubtree_body_run req db :
  deleteSubtree_body req db =
  match filter (fun f => Folder.id f = Params.folderId (params req)
                         /\ Folder.tenantId f = Params.tenantId (params req)) (folders db) with
  | [] => (db, inr not_found)
  | f :: _ =>
      match Folder.parentId f with
      | None => (db, inr cannot_delete_root)
      | Some _ =>
          match transaction
                  (_ ← delete_files_of_subtree (Ltree.ltree_out (Folder.path f))
                         (Params.tenantId (params req));
                   deletedFolders ← delete_folders_of_subtree
                                      (Ltree.ltree_out (Folder.path f))
                                      (Params.tenantId (params req));
                   mret deletedFolders) db with
          | (db', inr result) =>
              (db', inr (mkResponse 200
                           (Some ("Successfully deleted " ++ pretty result
                                  ++ " folder(s) and their contents."))
                           None (DeletedCount result)))
          | (db', inl e) => (db', inl e)
          end
      end
  end.
Proof.
  unfold deleteSubtree_body, folder_of_tenant, query. unfold mbind at 1, Prisma_bind at 1.
  destruct (filter _ _) as [|f rest]; [reflexivity|].
  destruct (Folder.parentId f); [|reflexivity].
  unfold mbind at 1, Prisma_bind at 1. reflexivity.
Qed.

Lemma deleteSubtree_inv req db resp db' :
  deleteSubtree req db = (resp, db') ->
  (status resp <> 200 /\ db' = db)
  \/ (status resp = 200
      /\ passes (Some TENANT_ADMIN) req db
      /\ exists f rest parentId k db1 n,
           filter (fun x => Folder.id x = Params.folderId (params req)
                            /\ Folder.tenantId x = Params.tenantId (params req))
                  (folders db) = f :: rest
           /\ Folder.parentId f = Some parentId
           /\ delete_files_under (Folder.path f) (Params.tenantId (params req)) db
              = (db1, inr k)
           /\ delete_folders_under (Folder.path f) (Params.tenantId (params req)) db1
              = (db', inr n)
           /\ data resp = DeletedCount n).
Proof.
  unfold deleteSubtree, route.
  destruct (requireTenantAccess _ req db) as [db1 r] eqn:E.
  apply requireTenantAccess_inv in E as H.
  destruct H as (-> & [(d & -> & Hd)|(req' & u & m & -> & Hp & Hb & _)]).
  { intros [= <- <-]. left. split; [|done]. intros Hs. rewrite Hs in Hd.
    destruct Hd as [|[|]]; discriminate. }
  unfold try_catch. rewrite deleteSubtree_body_run, Hp.
  destruct (filter _ _) as [|f rest] eqn:Hf.
  { intros [= <- <-]. left. split; [discriminate|done]. }
  destruct (Folder.parentId f) as [parentId|] eqn:Hpar.
  2:{ intros [= <- <-]. left. split; [discriminate|done]. }
  destruct (transaction _ db) as [db2 [e|n]] eqn:Htx;
    apply deleteSubtree_transaction in Htx; intros [= <- <-].
  - left. split; [discriminate|done].
  - destruct Htx as (k & db1 & Hfiles & Hfolders).
    right. split; [done|]. split; [by exists req'|].
    by exists f, rest, parentId, k, db1, n.
Qed.

Lemma orphan_id ids f : Folder.id (orphan ids f) = Folder.id f.
Proof. reflexivity. Qed.

(** *** The delete route among other connections *)

Lemma others_cases m committed :
  others m committed = id
  \/ exists fl v, m = Uploaded fl v /\ upload_commits fl v committed = true
                  /\ others m committed = upload fl v.
Proof.
  destruct m as [|fl v|e]; simpl; try by left.
  destruct (upload_commits fl v committed) eqn:E; [right; by exists fl, v|by left].
Qed.

Lemma others_folders m committed db : folders (others m committed db) = folders db.
Proof. by destruct (others_cases m committed) as [->|(fl & v & _ & _ & ->)]. Qed.

Lemma transaction_amid_quiet {A B} (first : Prisma A) (second : A -> Prisma B) db :
  transaction_amid Quiet first second db = transaction (first ≫= second) db.
Proof.
  unfold transaction_amid, transaction, mbind, Prisma_bind. simpl.
  destruct (first db) as [db1 [e|a]]; [done|]. by destruct (second a db1) as [db2 [e|b]].
Qed.

(** With nothing in between, the route is [deleteSubtree]. *)
Lemma deleteSubtree_amid_quiet req db : deleteSubtree_amid Quiet req db = deleteSubtree req db.
Proof.
  assert (forall r x, deleteSubtree_body_amid Quiet r x = deleteSubtree_body r x) as Hbody.
  { intros r x. rewrite deleteSubtree_body_run.
    unfold deleteSubtree_body_amid, folder_of_tenant, query.
    unfold mbind at 1, Prisma_bind at 1.
    destruct (filter _ _) as [|f rest]; [reflexivity|].
    destruct (Folder.parentId f); [|reflexivity].
    unfold mbind at 1, Prisma_bind at 1. by rewrite transaction_amid_quiet. }
  unfold deleteSubtree_amid, deleteSubtree, route.
  destruct (requireTenantAccess _ req db) as [db1 [e|[denied|req']]]; try done.
  unfold try_catch. by rewrite Hbody.
Qed.

Lemma delete_folders_under_free pivot tenantId db db' n :
  delete_folders_under pivot tenantId db = (db', inr n) ->
  forall fl, fl ∈ files db ->
    File.folderId fl ∉ Folder.id <$> filter (in_subtree pivot tenantId) (folders db).
Proof.
  unfold delete_folders_under. destruct (any _ _) eqn:E; [discriminate|]. intros _.
  rewrite any_false in E. exact E.
Qed.

(** The transaction of the delete route, run on the stored path, with [m]
    between its statements: when it commits, both statements ran, the
    second on what the first left and the other connection added; when it
    throws, only what the other connection committed is written. *)
Lemma deleteSubtree_transaction_amid m p tenantId db db' (r : PrismaError + nat) :
  transaction_amid m
    (delete_files_of_subtree (Ltree.ltree_out p) tenantId)
    (fun _ => deletedFolders ← delete_folders_of_subtree (Ltree.ltree_out p) tenantId;
              mret deletedFolders) db = (db', r) ->
  match r with
  | inl _ => db' = db \/ db' = others m db db
  | inr n =>
      exists k db1,
        delete_files_under p tenantId db = (db1, inr k)
        /\ delete_folders_under p tenantId (others m db db1) = (db', inr n)
  end.
Proof.
  unfold transaction_amid, delete_files_of_subtree.
  rewrite (bind_run _ _ _ _ _ (cast_ltree_out p db)).
  destruct (delete_files_under p tenantId db) as [db1 [e|k]] eqn:Hfiles.
  { intros [= <- <-]. by left. }
  assert (forall x,
            (deletedFolders ← delete_folders_of_subtree (Ltree.ltree_out p) tenantId;
             mret deletedFolders) x
            = delete_folders_under p tenantId x) as Hsecond.
  { intros x. unfold delete_folders_of_subtree. unfold mbind at 1, Prisma_bind at 1.
    rewrite (bind_run _ _ _ _ _ (cast_ltree_out p x)).
    by destruct (delete_folders_under p tenantId x) as [x' [e|n]]. }
  destruct m as [|fl v|e]; [| |intros [= <- <-]; by left];
    rewrite Hsecond;
    destruct (delete_folders_under p tenantId _) as [db2 [e|n]] eqn:Hfolders;
    intros [= <- <-]; try (by right); by exists k, db1.
Qed.

Lemma deleteSubtree_amid_inv m req db resp db' :
  deleteSubtree_amid m req db = (resp, db') ->
  (status resp <> 200 /\ (db' = db \/ db' = others m db db))
  \/ (status resp = 200
      /\ passes (Some TENANT_ADMIN) req db
      /\ exists f rest parentId k db1 n,
           filter (fun x => Folder.id x = Params.folderId (params req)
                            /\ Folder.tenantId x = Params.tenantId (params req))
                  (folders db) = f :: rest
           /\ Folder.parentId f = Some parentId
           /\ delete_files_under (Folder.path f) (Params.tenantId (params req)) db
              = (db1, inr k)
           /\ delete_folders_under (Folder.path f) (Params.tenantId (params req))
                (others m db db1)
              = (db', inr n)
           /\ data resp = DeletedCount n).
Proof.
  unfold deleteSubtree_amid, route.
  destruct (requireTenantAccess _ req db) as [db1 r] eqn:E.
  apply requireTenantAccess_inv in E as H.
  destruct H as (-> & [(d & -> & Hd)|(req' & u & x & -> & Hp & Hb & _)]).
  { intros [= <- <-]. left. split; [|by left]. intros Hs. rewrite Hs in Hd.
    destruct Hd as [|[|]]; discriminate. }
  unfold try_catch, deleteSubtree_body_amid, folder_of_tenant, query.
  unfold mbind at 1, Prisma_bind at 1. rewrite Hp.
  destruct (filter _ _) as [|f rest] eqn:Hf.
  { intros [= <- <-]. left. split; [discriminate|by left]. }
  destruct (Folder.parentId f) as [parentId|] eqn:Hpar.
  2:{ intros [= <- <-]. left. split; [discriminate|by left]. }
  unfold mbind at 1, Prisma_bind at 1.
  destruct (transaction_amid _ _ _ db) as [db2 [e|n]] eqn:Htx;
    apply deleteSubtree_transaction_amid in Htx; intros [= <- <-].
  - left. split; [discriminate|done].
  - destruct Htx as (k & db1 & Hfiles & Hfolders).
    right. split; [done|]. split; [by exists req'|].
    by exists f, rest, parentId, k, db1, n.
Qed.

(** C2. Deleting the subtree of a folder F that is not a root, in a database
    that respects the primary key of [Folder] and keeps containment of
    paths inside a tenant, whatever happens between the two statements of
    the transaction: nothing, the upload of a file by another connection,
    or the loss of the second statement.  When the route answers 200, F and
    every folder whose path is contained in F's path are gone, no remaining
    file refers to one of them, and the count in the answer is the number
    of folders removed, F included.  With any other answer nothing of the
    deletion is left, also when the first statement had already deleted
    files: the database is what it was before the call, or that with the
    file and the version the other connection committed. *)
Theorem deleteSubtree_all_or_nothing (m : Meanwhile) (req : Request) (db : Db) (f : Folder.t) :
  folder_ids_unique db ->
  paths_within_tenant db ->
  f ∈ folders db ->
  Folder.id f = Params.folderId (params req) ->
  Folder.tenantId f = Params.tenantId (params req) ->
  Folder.parentId f <> None ->
  let resp := (deleteSubtree_amid m req db).1 in
  let db' := (deleteSubtree_amid m req db).2 in
  let removed := filter (fun g => Folder.path g <@ Folder.path f) (folders db) in
  (status resp = 200 ->
     f ∈ removed
     /\ (forall g, g ∈ removed -> Folder.id g ∉ Folder.id <$> folders db')
     /\ (forall g fl, g ∈ removed -> fl ∈ files db' -> File.folderId fl <> Folder.id g)
     /\ data resp = DeletedCount (length removed)
     /\ length (folders db) = length (folders db') + length removed)
  /\ (status resp <> 200 ->
        db' = db
        \/ exists fl v, m = Uploaded fl v /\ upload_commits fl v db = true
                        /\ db' = upload fl v db).
Proof.
  intros Hu Hscope Hf Hid Ht Hpar.
  destruct (deleteSubtree_amid m req db) as [resp db'] eqn:E. simpl.
  apply deleteSubtree_amid_inv in E as [[Hne Hback]|(Hst & _ & H)].
  { split; [done|]. intros _. destruct Hback as [->| ->]; [by left|].
    destruct (others_cases m db) as [->|(fl & v & -> & Hok & ->)]; [by left|].
    right. by exists fl, v. }
  split; [intros _|done].
  destruct H as (f0 & rest & parentId & k & db1 & n & Hfil & _ & Hfiles & Hfolders & Hdata).
  assert (f0 = f) as -> by (eapply folder_of_tenant_unique; eauto).
  apply delete_files_under_inr in Hfiles as ->.
  pose proof (delete_folders_under_free _ _ _ _ _ Hfolders) as Hfree.
  apply delete_folders_under_inr in Hfolders as (-> & Hfolders' & Hfiles' & _).
  rewrite others_folders in Hfolders', Hfree, Hdata. simpl in Hfolders', Hfree, Hdata.
  set (t := Params.tenantId (params req)) in *.
  assert (filter (in_subtree (Folder.path f) t) (folders db)
          = filter (fun g => Folder.path g <@ Folder.path f) (folders db)) as Hsame.
  { apply filter_ext_elem. intros g Hg. unfold in_subtree. split; [tauto|].
    intros Hsub. split; [done|]. rewrite <- Ht.
    unfold paths_within_tenant in Hscope. rewrite Forall_forall in Hscope.
    specialize (Hscope g Hg). rewrite Forall_forall in Hscope. by apply Hscope. }
  rewrite Hsame in *.
  split; [|split; [|split; [|split]]].
  - apply list_elem_of_filter. split; [|done]. unfold Ltree.risparent, Ltree.isparent. done.
  - intros g Hg Hin. rewrite Hfolders' in Hin.
    apply list_elem_of_fmap in Hin as (h' & Hidh & Hh').
    apply list_elem_of_fmap in Hh' as (h & -> & Hh).
    apply list_elem_of_filter in Hh as [Hnot Hh].
    apply list_elem_of_filter in Hg as [Hsub Hg].
    rewrite orphan_id in Hidh.
    assert (g = h) as -> by (by apply (NoDup_fmap_elem Folder.id (folders db))).
    apply Hnot. split; [done|]. rewrite <- Ht.
    unfold paths_within_tenant in Hscope. rewrite Forall_forall in Hscope.
    specialize (Hscope h Hh). rewrite Forall_forall in Hscope. by apply Hscope.
  - intros g fl Hg Hfl Heq. rewrite Hfiles' in Hfl.
    apply (Hfree fl Hfl). rewrite Heq. by apply list_elem_of_fmap_2.
  - done.
  - rewrite Hfolders', length_fmap, <- Hsame.
    apply filter_complement_length.
Qed.

Lemma deleteSubtree_all_or_nothing_witness :
  let req := Scenario.request "carol" Scenario.acme Scenario.reports Scenario.no_body in
  let f := Folder.mk Scenario.reports "Reports" (Some Scenario.acme_root) Scenario.acme
             Scenario.reports_path in
  let removed := filter (fun g => Folder.path g <@ Folder.path f) (folders Scenario.store) in
  let fl := File.mk "file-3" "minutes.pdf" Scenario.reports Scenario.acme in
  let v := FileVersion.mk "version-3" "file-3" in
  (let resp := (deleteSubtree_amid Quiet req Scenario.store).1 in
   let db' := (deleteSubtree_amid Quiet req Scenario.store).2 in
   status resp = 200
   /\ Folder.id <$> removed = [Scenario.reports; Scenario.q3]
   /\ f ∈ removed
   /\ (forall g, g ∈ removed -> Folder.id g ∉ Folder.id <$> folders db')
   /\ (forall g fl, g ∈ removed -> fl ∈ files db' -> File.folderId fl <> Folder.id g)
   /\ data resp = DeletedCount (length removed)
   /\ length (folders Scenario.store) = length (folders db') + length removed)
  /\ (let resp := (deleteSubtree_amid (Uploaded fl v) req Scenario.store).1 in
      let db' := (deleteSubtree_amid (Uploaded fl v) req Scenario.store).2 in
      resp = mkResponse 500 (Some "Failed to delete folder.") None
               (ErrorMessage (ForeignKeyConstraint "File_folderId_fkey"))
      /\ File.id <$> files db' = ["file-1"; "file-2"; "file-3"]
      /\ (db' = Scenario.store
          \/ exists fl0 v0, Uploaded fl v = Uploaded fl0 v0
                            /\ upload_commits fl0 v0 Scenario.store = true
                            /\ db' = upload fl0 v0 Scenario.store)).
Proof.
  intros req f removed fl v. split.
  - split; [vm_compute; reflexivity|].
    split; [vm_compute; reflexivity|].
    refine (proj1 (deleteSubtree_all_or_nothing Quiet req Scenario.store f _ _ _ _ _ _) _).
    + apply (bool_decide_unpack _). vm_compute. exact I.
    + apply (bool_decide_unpack _). vm_compute. exact I.
    + apply (bool_decide_unpack _). vm_compute. exact I.
    + reflexivity.
    + reflexivity.
    + discriminate.
    + vm_compute. reflexivity.
  - split; [vm_compute; reflexivity|].
    split; [vm_compute; reflexivity|].
    refine (proj2 (deleteSubtree_all_or_nothing (Uploaded fl v) req Scenario.store f
                     _ _ _ _ _ _) _).
    + apply (bool_decide_unpack _). vm_compute. exact I.
    + apply (bool_decide_unpack _). vm_compute. exact I.
    + apply (bool_decide_unpack _). vm_compute. exact I.
    + reflexivity.
    + reflexivity.
    + discriminate.
    + vm_compute. discriminate.
Defined.

(** The rollback at work.  Reports holds, in Q3, a file without versions, so
    the first statement deletes it; before the second statement another
    connection uploads a file into Reports; the second statement then
    violates [File_folderId_fkey], and the file the first statement had
    deleted is back: the database is the one before the call with the
    upload added. *)
Example deleteSubtree_rolls_back :
  let fl := File.mk "file-3" "minutes.pdf" Scenario.reports Scenario.acme in
  let v := FileVersion.mk "version-3" "file-3" in
  let req := Scenario.request "carol" Scenario.acme Scenario.reports Scenario.no_body in
  File.id <$> files (delete_files_under Scenario.reports_path Scenario.acme Scenario.store).1
  = ["file-2"]
  /\ deleteSubtree_amid (Uploaded fl v) req Scenario.store
     = (mkResponse 500 (Some "Failed to delete folder.") None
          (ErrorMessage (ForeignKeyConstraint "File_folderId_fkey")),
        upload fl v Scenario.store)
  /\ deleteSubtree_amid (Broken RecordNotFound) req Scenario.store
     = (mkResponse 500 (Some "Failed to delete folder.") None (ErrorMessage RecordNotFound),
        Scenario.store).
Proof. vm_compute. repeat split; reflexivity. Qed.

(** A file that still has a version keeps the whole subtree in place: the
    first statement of the transaction throws before it has written. *)
Example deleteSubtree_versioned_file_refused :
  deleteSubtree (Scenario.request "carol" Scenario.acme Scenario.archive Scenario.no_body)
    Scenario.store
  = (mkResponse 500 (Some "Failed to delete folder.") None
       (ErrorMessage (ForeignKeyConstraint "FileVersion_fileId_fkey")),
     Scenario.store).
Proof. vm_compute. reflexivity. Qed.

(** C3. Deleting a folder whose [parentId] is NULL never succeeds and writes
    nothing; for a caller the middleware lets through the answer is the
    refusal 403 "Cannot delete root folder.". *)
Theorem deleteSubtree_root_refused (req : Request) (db : Db) (f : Folder.t) :
  folder_ids_unique db ->
  f ∈ folders db ->
  Folder.id f = Params.folderId (params req) ->
  Folder.tenantId f = Params.tenantId (params req) ->
  Folder.parentId f = None ->
  (deleteSubtree req db).2 = db
  /\ status (deleteSubtree req db).1 <> 200
  /\ (passes (Some TENANT_ADMIN) req db -> (deleteSubtree req db).1 = cannot_delete_root).
Proof.
  intros Hu Hf Hid Ht Hroot.
  assert (passes (Some TENANT_ADMIN) req db ->
          deleteSubtree req db = (cannot_delete_root, db)) as Hpass.
  { intros Hp. apply passes_next in Hp as (req' & Hmw & Hp & _).
    unfold deleteSubtree, route. rewrite Hmw.
    unfold try_catch. rewrite deleteSubtree_body_run, Hp.
    destruct (filter _ _) as [|g rest] eqn:Hfil.
    { by destruct (folder_of_tenant_found db f _ _ Hf Hid Ht). }
    assert (g = f) as -> by (eapply folder_of_tenant_unique; eauto).
    by rewrite Hroot. }
  destruct (classic_passes (Some TENANT_ADMIN) req db) as [Hp|Hp].
  - rewrite (Hpass Hp). repeat split. discriminate.
  - destruct (route_denied (Some TENANT_ADMIN)
                (fun req => try_catch (deleteSubtree_body req) "Failed to delete folder.")
                req db Hp) as [Hdb Hs].
    fold (deleteSubtree req db) in Hdb, Hs. repeat split; [done| |done].
    simpl in Hs. intros H200. rewrite H200 in Hs. destruct Hs as [|[|]]; discriminate.
Qed.

Lemma deleteSubtree_root_refused_witness :
  let req := Scenario.request "carol" Scenario.acme Scenario.acme_root Scenario.no_body in
  passes (Some TENANT_ADMIN) req Scenario.store
  /\ (deleteSubtree req Scenario.store).2 = Scenario.store
  /\ status (deleteSubtree req Scenario.store).1 <> 200
  /\ (deleteSubtree req Scenario.store).1 = cannot_delete_root.
Proof.
  intros req.
  assert (passes (Some TENANT_ADMIN) req Scenario.store) as Hp
    by (eexists; vm_compute; reflexivity).
  destruct (deleteSubtree_root_refused req Scenario.store
              (Folder.mk Scenario.acme_root "root" None Scenario.acme Scenario.acme_root_path))
    as (Hdb & Hst & Hresp).
  - apply (bool_decide_unpack _). vm_compute. exact I.
  - apply (bool_decide_unpack _). vm_compute. exact I.
  - reflexivity.
  - reflexivity.
  - reflexivity.
  - auto.
Defined.

(** ** Two create requests in flight *)

(** The cut of the handler is the handler. *)
Lemma createSubfolder_sequential newFolderId req db :
  createSubfolder newFolderId req db =
  (let '(x, db1) := createSubfolder_begin req db in createSubfolder_end newFolderId x db1).
Proof.
  unfold createSubfolder, route, createSubfolder_begin.
  destruct (requireTenantAccess None req db) as [db1 [e|[denied|req']]]; try reflexivity.
  unfold try_catch, createSubfolder_body, createSubfolder_end.
  unfold mbind at 1, Prisma_bind at 1.
  destruct (createSubfolder_check req' db1) as [db2 [e|[refused|c]]]; reflexivity.
Qed.

Lemma createSubfolder_begin_inv req db x db' :
  createSubfolder_begin req db = (x, db') ->
  db' = db
  /\ forall c, x = inr c ->
       exists tenantId rest,
         checked_tenantId c = Some tenantId
         /\ Body.tenantId (body req) = Some tenantId
         /\ filter (fun f => Folder.id f = checked_parentId c
                             /\ Some (Folder.tenantId f) = Body.tenantId (body req))
                   (folders db) = checked_parent c :: rest
         /\ (forall g, g ∈ folders db ->
               ~ (Folder.name g = checked_name c
                  /\ Folder.parentId g = Some (checked_parentId c)
                  /\ Folder.tenantId g = tenantId)).
Proof.
  unfold createSubfolder_begin.
  destruct (requireTenantAccess None req db) as [db1 r] eqn:E.
  apply requireTenantAccess_inv in E as H.
  destruct H as (-> & [(d & -> & Hd)|(req' & u & m & -> & Hp & Hb & _)]).
  { intros [= <- <-]. split; [done|]. discriminate. }
  destruct (createSubfolder_check req' db) as [db2 y] eqn:Hc.
  apply createSubfolder_check_inv in Hc
    as (-> & [(refused & -> & Hr)|(c & t & rest & -> & Ht & Hct & Hpid & Hn & Hf & Hd)]).
  - intros [= <- <-]. split; [done|]. discriminate.
  - intros [= <- <-]. split; [done|]. intros c' [= <-].
    rewrite Hb in *. by exists t, rest.
Qed.

(** With a row already in the slot, the write phase throws. *)
Lemma createSubfolder_write_taken newFolderId c db g :
  g ∈ folders db ->
  Folder.parentId g = Some (checked_parentId c) ->
  Folder.name g = checked_name c ->
  Some (Folder.tenantId g) = checked_tenantId c ->
  exists e, createSubfolder_write newFolderId c db = (db, inl e).
Proof.
  intros Hg Hpar Hname Hten. unfold createSubfolder_write.
  unfold mbind at 1, Prisma_bind at 1, cast_ltree.
  destruct (Ltree.ltree_in _) as [path|]; [|by eexists].
  unfold mret at 1, Prisma_ret at 1.
  unfold mbind at 1, Prisma_bind at 1.
  destruct (checked_tenantId c) as [t|]; [|by eexists].
  injection Hten as Hten.
  unfold insert_folder.
  destruct (any _ (folders db)); [by eexists|].
  assert (any (same_slot (Folder.mk newFolderId (checked_name c)
                            (Some (checked_parentId c)) t path)) (folders db) = true) as ->.
  { apply any_true. exists g. split; [done|]. unfold same_slot. simpl. by repeat split. }
  by eexists.
Qed.

(** C4, as the code has it. When two create requests for the same tenant,
    parent and name have both passed the duplicate pre-check and the first
    insert succeeds, the second insert is stopped by the unique index and
    its caller gets the generic 500 "Failed to create folder.", which is not
    the 409 of the pre-check; the slot holds the one row of the first
    request. *)
Theorem createSubfolder_race_loser
  (idA : string) (reqA : Request) (idB : string) (reqB : Request) (db : Db)
  (cA cB : Checked) :
  (createSubfolder_begin reqA db).1 = inr cA ->
  (createSubfolder_begin reqB db).1 = inr cB ->
  checked_tenantId cA = checked_tenantId cB ->
  checked_parentId cA = checked_parentId cB ->
  checked_name cA = checked_name cB ->
  let rA := (createSubfolder_race idA reqA idB reqB db).1.1 in
  let rB := (createSubfolder_race idA reqA idB reqB db).1.2 in
  let db' := (createSubfolder_race idA reqA idB reqB db).2 in
  status rA = 201 ->
  status rB = 500
  /\ message rB = Some "Failed to create folder."
  /\ rB <> duplicate_name (checked_name cB)
  /\ exists row,
       Folder.id row = idA
       /\ folders db' = (folders db ++ [row])%list
       /\ filter (fun g => Folder.parentId g = Some (checked_parentId cB)
                           /\ Folder.name g = checked_name cB
                           /\ Some (Folder.tenantId g) = checked_tenantId cB)
                 (folders db') = [row].
Proof.
  intros HA HB Hten Hpar Hname. unfold createSubfolder_race.
  destruct (createSubfolder_begin reqA db) as [xA db1] eqn:EA.
  apply createSubfolder_begin_inv in EA as [-> HcA]. simpl in HA. subst xA.
  destruct (createSubfolder_begin reqB db) as [xB db2] eqn:EB.
  apply createSubfolder_begin_inv in EB as [-> HcB]. simpl in HB. subst xB.
  destruct (HcA cA eq_refl) as (t & rest & HtA & _ & _ & Hfree).
  cbn [createSubfolder_end].
  destruct (try_catch (createSubfolder_write idA cA) _ db) as [rA db3] eqn:EwA.
  destruct (try_catch (createSubfolder_write idB cB) _ db3) as [rB db4] eqn:EwB.
  cbn. intros Hst.
  apply try_catch_inv in EwA as [EwA|(e & _ & ->)]; [|discriminate].
  apply createSubfolder_write_inr in EwA as (t' & path & Ht' & _ & Hins & _).
  assert (t' = t) as -> by congruence.
  apply insert_folder_inr in Hins as (-> & _).
  set (row := Folder.mk idA (checked_name cA) (Some (checked_parentId cA)) t path) in *.
  destruct (createSubfolder_write_taken idB cB
              (set_folders (folders db ++ [row]) db) row) as [e He].
  { simpl. apply elem_of_app. right. left. }
  { simpl. by rewrite Hpar. }
  { simpl. done. }
  { simpl. by rewrite <- Hten. }
  unfold try_catch in EwB. rewrite He in EwB. injection EwB as <- <-.
  repeat split; try done.
  exists row. repeat split; try done. simpl.
  rewrite filter_app.
  assert (filter (fun g => Folder.parentId g = Some (checked_parentId cB)
                           /\ Folder.name g = checked_name cB
                           /\ Some (Folder.tenantId g) = checked_tenantId cB)
                 (folders db) = []) as ->.
  { destruct (filter _ (folders db)) as [|g l] eqn:Hfil; [done|].
    assert (g ∈ filter (fun g => Folder.parentId g = Some (checked_parentId cB)
                           /\ Folder.name g = checked_name cB
                           /\ Some (Folder.tenantId g) = checked_tenantId cB)
                 (folders db))
      as [(H1 & H2 & H3) Hg]%list_elem_of_filter by (rewrite Hfil; left).
    destruct (Hfree g Hg). rewrite Hname, Hpar. repeat split; try done.
    rewrite <- Hten, HtA in H3. by injection H3. }
  rewrite filter_cons, filter_nil.
  destruct (decide _) as [|Hno]; [done|].
  destruct Hno. simpl. rewrite Hpar, Hname, <- Hten, HtA. done.
Qed.

Lemma createSubfolder_race_loser_witness :
  let rA := (createSubfolder_race Race.first_id Race.budget Race.second_id Race.budget
               Scenario.store).1.1 in
  let rB := (createSubfolder_race Race.first_id Race.budget Race.second_id Race.budget
               Scenario.store).1.2 in
  let db' := (createSubfolder_race Race.first_id Race.budget Race.second_id Race.budget
                Scenario.store).2 in
  status rA = 201
  /\ status rB = 500
  /\ message rB = Some "Failed to create folder."
  /\ rB <> duplicate_name "Budget"
  /\ exists row,
       Folder.id row = Race.first_id
       /\ folders db' = (folders Scenario.store ++ [row])%list
       /\ filter (fun g => Folder.parentId g = Some Scenario.reports
                           /\ Folder.name g = "Budget"
                           /\ Some (Folder.tenantId g) = Some Scenario.acme)
                 (folders db') = [row].
Proof.
  intros rA rB db'.
  assert (status rA = 201) as Hst by (vm_compute; reflexivity).
  split; [exact Hst|].
  refine (createSubfolder_race_loser Race.first_id Race.budget Race.second_id Race.budget
            Scenario.store Race.checked Race.checked _ _ _ _ _ Hst).
  - vm_compute. reflexivity.
  - vm_compute. reflexivity.
  - reflexivity.
  - reflexivity.
  - reflexivity.
Defined.

(** C4 as the specification has it fails: the request that loses the race
    is answered 500, while the pre-check, run once more on the database the
    race leaves behind, answers the 409 for a duplicate name. *)
Lemma createSubfolder_race_counterexample :
  let result := createSubfolder_race Race.first_id Race.budget Race.second_id Race.budget
                  Scenario.store in
  status result.1.1 = 201
  /\ (createSubfolder Race.second_id Race.budget result.2).1 = duplicate_name "Budget"
  /\ result.1.2 = mkResponse 500 (Some "Failed to create folder.") None
                    (ErrorMessage (UniqueConstraint "Folder_parentId_name_tenantId_key"))
  /\ result.1.2 <> duplicate_name "Budget".
Proof.
  vm_compute. repeat split. discriminate.
Qed.

(** ** The tenant of a create request *)

(** C5 does not hold for the create route. The middleware checks the
    membership for the tenant of the URL, the handler reads and inserts
    with the [tenantId] of the body: Alice, who is no member of Beta,
    posts to Acme's URL and gets a folder stored under Beta's root. *)
Theorem createSubfolder_writes_foreign_tenant :
  let resp := (createSubfolder Scenario.fresh Foreign.planted Scenario.store).1 in
  let db' := (createSubfolder Scenario.fresh Foreign.planted Scenario.store).2 in
  (forall m, m ∈ tenantMembers Scenario.store ->
             TenantMember.userId m = "alice" -> TenantMember.tenantId m = Scenario.acme)
  /\ Params.tenantId (params Foreign.planted) = Scenario.acme
  /\ status resp = 201
  /\ folders db' =
     (folders Scenario.store
      ++ [Folder.mk Scenario.fresh "Planted" (Some Scenario.beta_root) Scenario.beta
            (Scenario.under Scenario.beta_root_path Scenario.fresh)])%list.
Proof.
  split; [|vm_compute; repeat split].
  intros m Hm. simpl in Hm.
  repeat (apply elem_of_cons in Hm as [->|Hm]); try (by apply not_elem_of_nil in Hm);
    simpl; intros; congruence.
Qed.

(** The other folder routes take the tenant from the URL: the same caller
    cannot rename Beta's root through Acme's URL. *)
Example renameFolder_stays_in_tenant :
  renameFolder (Scenario.request "alice" Scenario.acme Scenario.beta_root
                  (Body.mk (Some Scenario.beta) (Some "Taken") None)) Scenario.store
  = (not_found, Scenario.store).
Proof. vm_compute. reflexivity. Qed.

(** ** Renaming *)

Lemma folder_update_name_effect folderId name db db' r :
  folder_update_name folderId name db = (db', r) ->
  db' = db
  \/ db' = set_folders
             ((fun g => if decide (Folder.id g = folderId) then set_name name g else g)
                <$> folders db) db.
Proof.
  unfold folder_update_name. destruct (findFirst _ _); [|intros [= <- _]; by left].
  destruct (any _ _); intros [= <- _]; [by left|by right].
Qed.

Lemma renameFolder_body_effect req db db' r :
  renameFolder_body req db = (db', r) ->
  db' = db
  \/ exists name,
       db' = set_folders
               ((fun g => if decide (Folder.id g = Params.folderId (params req))
                          then set_name name g else g) <$> folders db) db.
Proof.
  unfold renameFolder_body.
  destruct (valid_name _) as [trimmedName|]; [|intros [= <- _]; by left].
  unfold mbind at 1, Prisma_bind at 1, query at 1.
  destruct (findFirst _ _) as [folder|]; [|intros [= <- _]; by left].
  unfold mbind at 1, Prisma_bind at 1.
  assert (exists duplicate,
            match truthy (Folder.parentId folder) with
            | Some parentId =>
                query (fun db0 =>
                  findFirst (fun f => Folder.name f = trimmedName
                                      /\ Folder.parentId f = Some parentId
                                      /\ Folder.tenantId f = Params.tenantId (params req)
                                      /\ Folder.id f <> Params.folderId (params req))
                            (folders db0))
            | None => mret None
            end db = (db, inr duplicate)) as [duplicate ->].
  { destruct (truthy _); by eexists. }
  destruct duplicate; [intros [= <- _]; by left|].
  unfold mbind, Prisma_bind.
  destruct (folder_update_name _ _ db) as [db1 [e|g]] eqn:E;
    apply folder_update_name_effect in E; intros [= <- _]; destruct E; eauto.
Qed.

Lemma renameFolder_effect req db :
  (renameFolder req db).2 = db
  \/ exists name,
       (renameFolder req db).2
       = set_folders
           ((fun g => if decide (Folder.id g = Params.folderId (params req))
                      then set_name name g else g) <$> folders db) db.
Proof.
  unfold renameFolder, route.
  destruct (requireTenantAccess None req db) as [db1 r] eqn:E.
  apply requireTenantAccess_inv in E as H.
  destruct H as (-> & [(d & -> & Hd)|(req' & u & m & -> & Hp & Hb & _)]); [by left|].
  unfold try_catch.
  destruct (renameFolder_body req' db) as [db1 [e|resp]] eqn:Hr;
    apply renameFolder_body_effect in Hr; rewrite Hp in Hr; simpl; done.
Qed.

(** C6. Whatever the rename route answers, every folder row keeps its
    identifier, parent, tenant and path, every row other than the one named
    in the URL is left exactly as it was, and no other table changes. *)
Theorem renameFolder_keeps_paths (req : Request) (db : Db) :
  let db' := (renameFolder req db).2 in
  Forall2 (fun g g' =>
             Folder.id g' = Folder.id g
             /\ Folder.path g' = Folder.path g
             /\ Folder.parentId g' = Folder.parentId g
             /\ Folder.tenantId g' = Folder.tenantId g
             /\ (Folder.id g <> Params.folderId (params req) -> g' = g))
          (folders db) (folders db')
  /\ files db' = files db
  /\ fileVersions db' = fileVersions db
  /\ tenants db' = tenants db
  /\ tenantMembers db' = tenantMembers db.
Proof.
  simpl. destruct (renameFolder_effect req db) as [->|[name ->]].
  - repeat split. apply Forall2_same_length_lookup_2; [done|].
    intros i g g' Hg Hg'. assert (g' = g) as -> by congruence. done.
  - repeat split. simpl. apply Forall2_fmap_r, Forall_Forall2_diag, Forall_forall.
    intros g _. unfold compose. case_decide; simpl; repeat split; auto; done.
Qed.

(** A rename that goes through changes the name and nothing else. *)
Example renameFolder_changes_the_name :
  let req := Scenario.request "alice" Scenario.acme Scenario.reports
               (Body.mk None (Some "  Plans ") None) in
  status (renameFolder req Scenario.store).1 = 200
  /\ Folder.name <$> folders (renameFolder req Scenario.store).2
     = ["root"; "root"; "Plans"; "Q3"; "Archive"]
  /\ Folder.path <$> folders (renameFolder req Scenario.store).2
     = Folder.path <$> folders Scenario.store.
Proof. vm_compute. repeat split. Qed.

(** ** Listing descendants and ancestors *)

Lemma compare_labels_antisym a b :
  Ltree.compare_labels a b = CompOpp (Ltree.compare_labels b a).
Proof.
  revert b. induction a as [|x a IH]; intros [|y b]; simpl; try reflexivity.
  rewrite (String.compare_antisym y x).
  destruct (String.compare x y); simpl; auto.
Qed.

#[local] Instance by_path_total : Total by_path.
Proof.
  intros x y. unfold by_path, Ltree.le, Ltree.compare.
  rewrite (compare_labels_antisym (Ltree.labels (Folder.path y))).
  destruct (Ltree.compare_labels _ _); simpl; auto.
Qed.

#[local] Instance by_nlevel_total : Total by_nlevel.
Proof. intros x y. unfold by_nlevel. lia. Qed.

Lemma listDescendants_run req db f :
  folder_ids_unique db -> passes None req db ->
  f ∈ folders db ->
  Folder.id f = Params.folderId (params req) ->
  Folder.tenantId f = Params.tenantId (params req) ->
  listDescendants req db
  = (mkResponse 200 None None
       (Folders (descendant_row (Folder.path f) <$>
                   merge_sort by_path
                     (filter (fun g => in_subtree (Folder.path f) (Folder.tenantId f) g
                                       /\ Folder.id g <> Folder.id f) (folders db)))),
     db).
Proof.
  intros Hu Hp Hf Hid Ht. apply passes_next in Hp as (req' & Hmw & Hp & _).
  unfold listDescendants, route. rewrite Hmw.
  unfold try_catch, listDescendants_body, folder_of_tenant.
  unfold mbind at 1, Prisma_bind at 1, query at 1. rewrite Hp.
  destruct (filter _ _) as [|g rest] eqn:Hfil.
  { by destruct (folder_of_tenant_found db f _ _ Hf Hid Ht). }
  assert (g = f) as -> by (eapply folder_of_tenant_unique; eauto).
  rewrite (bind_run _ _ _ _ _ (cast_ltree_out (Folder.path f) db)).
  unfold mbind, Prisma_bind, select_descendants, query, mret, Prisma_ret.
  by rewrite Hid, Ht.
Qed.

Lemma listAncestors_run req db f :
  folder_ids_unique db -> passes None req db ->
  f ∈ folders db ->
  Folder.id f = Params.folderId (params req) ->
  Folder.tenantId f = Params.tenantId (params req) ->
  listAncestors req db
  = (mkResponse 200 None None
       (Folders (ancestor_row <$>
                   merge_sort by_nlevel
                     (filter (fun g => Folder.path g @> Folder.path f
                                       /\ Folder.tenantId g = Folder.tenantId f)
                             (folders db)))),
     db).
Proof.
  intros Hu Hp Hf Hid Ht. apply passes_next in Hp as (req' & Hmw & Hp & _).
  unfold listAncestors, route. rewrite Hmw.
  unfold try_catch, listAncestors_body, folder_of_tenant.
  unfold mbind at 1, Prisma_bind at 1, query at 1. rewrite Hp.
  destruct (filter _ _) as [|g rest] eqn:Hfil.
  { by destruct (folder_of_tenant_found db f _ _ Hf Hid Ht). }
  assert (g = f) as -> by (eapply folder_of_tenant_unique; eauto).
  rewrite (bind_run _ _ _ _ _ (cast_ltree_out (Folder.path f) db)).
  unfold mbind, Prisma_bind, select_ancestors, query, mret, Prisma_ret.
  by rewrite Ht.
Qed.

(** C8. For a folder that exists in the tenant of the URL, the descendants
    route answers 200 with one row per folder of that tenant whose path is
    the pivot's path or has it as a prefix of labels, the pivot itself left
    out; the depth of a row is its number of labels minus the pivot's; the
    rows come in ascending order of path. *)
Theorem listDescendants_exact (req : Request) (db : Db) (f : Folder.t) :
  folder_ids_unique db ->
  passes None req db ->
  f ∈ folders db ->
  Folder.id f = Params.folderId (params req) ->
  Folder.tenantId f = Params.tenantId (params req) ->
  exists l,
    listDescendants req db
    = (mkResponse 200 None None
         (Folders ((fun g => FolderWithPath.mk (Folder.id g) (Folder.name g)
                               (Ltree.ltree_out (Folder.path g))
                               (Z.of_nat (Ltree.nlevel (Folder.path g))
                                - Z.of_nat (Ltree.nlevel (Folder.path f)))) <$> l)),
       db)
    /\ l ≡ₚ filter (fun g => (Ltree.labels (Folder.path f) `prefix_of` Ltree.labels (Folder.path g)
                              /\ Folder.tenantId g = Folder.tenantId f)
                             /\ Folder.id g <> Folder.id f) (folders db)
    /\ Sorted (fun a b => Ltree.compare (Folder.path a) (Folder.path b) <> Gt) l.
Proof.
  intros Hu Hp Hf Hid Ht.
  exists (merge_sort by_path
            (filter (fun g => in_subtree (Folder.path f) (Folder.tenantId f) g
                              /\ Folder.id g <> Folder.id f) (folders db))).
  split; [by apply listDescendants_run|]. split.
  - apply merge_sort_Permutation.
  - apply (Sorted_merge_sort by_path).
Qed.

Lemma listDescendants_exact_witness :
  let req := Scenario.request "alice" Scenario.acme Scenario.acme_root Scenario.no_body in
  let root := Folder.mk Scenario.acme_root "root" None Scenario.acme Scenario.acme_root_path in
  (FolderWithPath.id <$> rows (listDescendants req Scenario.store).1
   = [Scenario.reports; Scenario.q3; Scenario.archive]
   /\ FolderWithPath.depth <$> rows (listDescendants req Scenario.store).1 = [1; 2; 1]%Z)
  /\ exists l,
       listDescendants req Scenario.store
       = (mkResponse 200 None None
            (Folders ((fun g => FolderWithPath.mk (Folder.id g) (Folder.name g)
                                  (Ltree.ltree_out (Folder.path g))
                                  (Z.of_nat (Ltree.nlevel (Folder.path g))
                                   - Z.of_nat (Ltree.nlevel (Folder.path root)))) <$> l)),
          Scenario.store)
       /\ l ≡ₚ filter (fun g => (Ltree.labels (Folder.path root)
                                   `prefix_of` Ltree.labels (Folder.path g)
                                 /\ Folder.tenantId g = Folder.tenantId root)
                                /\ Folder.id g <> Folder.id root) (folders Scenario.store)
       /\ Sorted (fun a b => Ltree.compare (Folder.path a) (Folder.path b) <> Gt) l.
Proof.
  intros req root. split; [split; vm_compute; reflexivity|].
  apply (listDescendants_exact req Scenario.store root).
  - apply (bool_decide_unpack _). vm_compute. exact I.
  - eexists. vm_compute. reflexivity.
  - apply (bool_decide_unpack _). vm_compute. exact I.
  - reflexivity.
  - reflexivity.
Defined.

Lemma NoDup_fmap_filter {A B} (key : A -> B) (P : A -> Prop) `{forall x, Decision (P x)}
  (l : list A) :
  NoDup (key <$> l) -> NoDup (key <$> filter P l).
Proof.
  induction l as [|a l IH]; [done|].
  rewrite fmap_cons, NoDup_cons. intros [Ha Hl].
  rewrite filter_cons. destruct (decide (P a)); [|by apply IH].
  rewrite fmap_cons, NoDup_cons. split; [|by apply IH].
  intros Hin. apply Ha. apply list_elem_of_fmap in Hin as (x & -> & Hx).
  apply list_elem_of_filter in Hx as [_ Hx]. by apply list_elem_of_fmap_2.
Qed.

Lemma findFirst_fmap_unique {A B} (key : A -> string) (row : A -> B) (rkey : B -> string)
  (l : list A) (x : A) :
  (forall g, rkey (row g) = key g) ->
  NoDup (key <$> l) -> x ∈ l ->
  findFirst (fun r => rkey r = key x) (row <$> l) = Some (row x).
Proof.
  intros Hkey. induction l as [|a l IH]; [by intros _ ?%not_elem_of_nil|].
  intros Hnd Hx. unfold findFirst. rewrite fmap_cons, filter_cons.
  destruct (decide (rkey (row a) = key x)) as [Heq|Hne].
  - rewrite Hkey in Heq. simpl. f_equal. f_equal.
    apply (NoDup_fmap_elem key (a :: l)); auto. left.
  - apply elem_of_cons in Hx as [->|Hx]; [by rewrite Hkey in Hne|].
    apply IH; [|done]. rewrite fmap_cons in Hnd. by apply NoDup_cons in Hnd as [_ ?].
Qed.

(** Which folders a listing names, in a database with unique identifiers. *)
Lemma listed_fmap_sorted (R : relation Folder.t) `{forall x y, Decision (R x y)}
  (P : Folder.t -> Prop) `{forall x, Decision (P x)}
  (row : Folder.t -> FolderWithPath.t) (db : Db) (x : Folder.t) (resp : Response) :
  (forall g, FolderWithPath.id (row g) = Folder.id g) ->
  folder_ids_unique db -> x ∈ folders db ->
  data resp = Folders (row <$> merge_sort R (filter P (folders db))) ->
  (listed (Folder.id x) resp <-> P x)
  /\ (P x -> depth_of (Folder.id x) resp = Some (FolderWithPath.depth (row x))).
Proof.
  intros Hrow Hu Hx Hdata. unfold listed, depth_of, rows. rewrite Hdata.
  assert (forall g, g ∈ merge_sort R (filter P (folders db)) <-> P g /\ g ∈ folders db)
    as Hmem.
  { intros g. rewrite (merge_sort_Permutation R). apply list_elem_of_filter. }
  split; [split|].
  - intros Hin. apply list_elem_of_fmap in Hin as (r & Hr & Hin).
    apply list_elem_of_fmap in Hin as (g & -> & Hg).
    rewrite Hrow in Hr. apply Hmem in Hg as [HP Hg].
    by rewrite (NoDup_fmap_elem Folder.id (folders db) x g Hu Hx Hg Hr).
  - intros HP. apply list_elem_of_fmap. exists (row x). split; [by rewrite Hrow|].
    apply list_elem_of_fmap_2. by apply Hmem.
  - intros HP.
    rewrite (findFirst_fmap_unique Folder.id row FolderWithPath.id _ x Hrow); [done| |].
    + rewrite (merge_sort_Permutation R). by apply NoDup_fmap_filter.
    + by apply Hmem.
Qed.

(** C7, as the code has it. For two different folders A and B of one
    tenant, B is named in the descendants of A exactly when A is named in
    the ancestors of B; the depth given for B is then the number of labels
    of B's path minus that of A's, and the depth given for A is the number
    of labels of A's own path. A folder is named among its own ancestors
    and never among its own descendants. *)
Theorem descendants_ancestors_duality
  (reqA reqB : Request) (db : Db) (a b : Folder.t) :
  folder_ids_unique db ->
  passes None reqA db -> passes None reqB db ->
  a ∈ folders db -> b ∈ folders db ->
  Folder.id a = Params.folderId (params reqA) ->
  Folder.id b = Params.folderId (params reqB) ->
  Folder.tenantId a = Params.tenantId (params reqA) ->
  Folder.tenantId b = Params.tenantId (params reqB) ->
  Folder.tenantId a = Folder.tenantId b ->
  let down := (listDescendants reqA db).1 in
  let up := (listAncestors reqB db).1 in
  (Folder.id a <> Folder.id b ->
     (listed (Folder.id b) down <-> listed (Folder.id a) up)
     /\ (listed (Folder.id b) down ->
           depth_of (Folder.id b) down
           = Some (Z.of_nat (Ltree.nlevel (Folder.path b))
                   - Z.of_nat (Ltree.nlevel (Folder.path a)))%Z
           /\ depth_of (Folder.id a) up = Some (Z.of_nat (Ltree.nlevel (Folder.path a)))))
  /\ (Folder.id a = Folder.id b ->
        listed (Folder.id a) up /\ ~ listed (Folder.id b) down).
Proof.
  intros Hu HpA HpB Ha Hb HidA HidB HtA HtB Hsame. simpl.
  rewrite (listDescendants_run reqA db a), (listAncestors_run reqB db b) by done. simpl.
  set (down := mkResponse 200 None None (Folders (descendant_row (Folder.path a) <$> _))).
  set (up := mkResponse 200 None None (Folders (ancestor_row <$> _))).
  destruct (listed_fmap_sorted by_path
              (fun g => in_subtree (Folder.path a) (Folder.tenantId a) g
                        /\ Folder.id g <> Folder.id a)
              (descendant_row (Folder.path a)) db b down) as [Hdown Hdepth]; try done.
  destruct (listed_fmap_sorted by_nlevel
              (fun g => Folder.path g @> Folder.path b
                        /\ Folder.tenantId g = Folder.tenantId b)
              ancestor_row db a up) as [Hup Hheight]; try done.
  unfold in_subtree, Ltree.risparent in *.
  split.
  - intros Hne. split; [|intros Hlisted; split].
    + rewrite Hdown, Hup. intuition congruence.
    + apply Hdepth. by apply Hdown.
    + apply Hheight. apply Hup. apply Hdown in Hlisted. intuition congruence.
  - intros Heq.
    assert (a = b) as -> by (by apply (NoDup_fmap_elem Folder.id (folders db))).
    split.
    + apply Hup. split; [|done]. unfold Ltree.isparent. done.
    + rewrite Hdown. tauto.
Qed.

Lemma descendants_ancestors_duality_witness :
  let reqA := Scenario.request "alice" Scenario.acme Scenario.acme_root Scenario.no_body in
  let reqB := Scenario.request "carol" Scenario.acme Scenario.q3 Scenario.no_body in
  let down := (listDescendants reqA Scenario.store).1 in
  let up := (listAncestors reqB Scenario.store).1 in
  listed Scenario.q3 down
  /\ listed Scenario.acme_root up
  /\ depth_of Scenario.q3 down = Some 2%Z
  /\ depth_of Scenario.acme_root up = Some 1%Z.
Proof.
  intros reqA reqB down up.
  destruct (descendants_ancestors_duality reqA reqB Scenario.store
              (Folder.mk Scenario.acme_root "root" None Scenario.acme Scenario.acme_root_path)
              (Folder.mk Scenario.q3 "Q3" (Some Scenario.reports) Scenario.acme
                 Scenario.q3_path))
    as [Hdistinct _].
  - apply (bool_decide_unpack _). vm_compute. exact I.
  - eexists. vm_compute. reflexivity.
  - eexists. vm_compute. reflexivity.
  - apply (bool_decide_unpack _). vm_compute. exact I.
  - apply (bool_decide_unpack _). vm_compute. exact I.
  - reflexivity.
  - reflexivity.
  - reflexivity.
  - reflexivity.
  - reflexivity.
  - destruct Hdistinct as [Hiff Hdepth]; [discriminate|].
    assert (listed Scenario.q3 down) as Hq3
      by (apply (bool_decide_unpack _); vm_compute; exact I).
    destruct (Hdepth Hq3) as [Hd Hu].
    split; [exact Hq3|]. split; [by apply Hiff|]. split; [exact Hd|exact Hu].
Defined.

(** C7 as the specification has it fails twice. A folder is named among
    its own ancestors but not among its own descendants; and for the root
    and a folder two levels below it the two depths are 2 and 1, neither
    equal nor opposite. *)
Lemma descendants_ancestors_counterexample :
  let own := Scenario.request "alice" Scenario.acme Scenario.reports Scenario.no_body in
  let top := Scenario.request "alice" Scenario.acme Scenario.acme_root Scenario.no_body in
  let leaf := Scenario.request "alice" Scenario.acme Scenario.q3 Scenario.no_body in
  ~ (listed Scenario.reports (listDescendants own Scenario.store).1
     <-> listed Scenario.reports (listAncestors own Scenario.store).1)
  /\ depth_of Scenario.q3 (listDescendants top Scenario.store).1 = Some 2%Z
  /\ depth_of Scenario.acme_root (listAncestors leaf Scenario.store).1 = Some 1%Z.
Proof.
  intros own top leaf. split; [|split; vm_compute; reflexivity].
  intros [_ Hback].
  assert (listed Scenario.reports (listAncestors own Scenario.store).1) as Hup
    by (apply (bool_decide_unpack _); vm_compute; exact I).
  apply Hback in Hup. revert Hup.
  apply (bool_decide_unpack _). vm_compute. exact I.
Qed.

(** ** Provisioning a tenant *)

Lemma filter_nil_elem {A} (P : A -> Prop) `{forall x, Decision (P x)} (l : list A) :
  (forall x, x ∈ l -> ~ P x) -> filter P l = [].
Proof.
  intros Hall. destruct (filter P l) as [|x r] eqn:E; [done|].
  assert (x ∈ filter P l) as [HP Hx]%list_elem_of_filter by (rewrite E; left).
  by destruct (Hall x).
Qed.

(** C9. Creating a tenant is all or nothing. With a 201 the database holds
    exactly one folder without parent for the new tenant, the tenant row
    points at it, and the caller is a member; with any other answer the
    database is what it was before the call, so that no row of a failed
    attempt stays behind. The writes sit in one [$transaction]: no state in
    between is ever the result of the route. *)
Theorem createTenant_all_or_nothing
  (newTenantId newRootId : string) (req : Request) (db : Db) :
  folders_reference_tenants db ->
  let resp := (createTenant newTenantId newRootId req db).1 in
  let db' := (createTenant newTenantId newRootId req db).2 in
  (status resp = 201 ->
     exists root tenant u,
       filter (fun g => Folder.parentId g = None /\ Folder.tenantId g = newTenantId)
              (folders db') = [root]
       /\ Folder.id root = newRootId
       /\ filter (fun t => Tenant.id t = newTenantId) (tenants db') = [tenant]
       /\ Tenant.rootFolderId tenant = Some (Folder.id root)
       /\ user req = Some u
       /\ TenantMember.mk (User.id u) newTenantId TENANT_ADMIN ∈ tenantMembers db')
  /\ (status resp <> 201 -> db' = db).
Proof.
  intros Hfk.
  destruct (createTenant newTenantId newRootId req db) as [resp db'] eqn:E. simpl.
  apply createTenant_inv in E as [[Hne ->]|(Hst & u & n & result & Hu & _ & H)]; [by split|].
  split; [intros _|done].
  apply provision_inr in H as (path & _ & Hfresh & _ & ->). simpl.
  exists (Folder.mk newRootId "root" None newTenantId path),
         (Tenant.mk newTenantId n (Some newRootId)), u.
  repeat split; auto.
  - rewrite filter_app, filter_nil_elem.
    + rewrite filter_cons, filter_nil. by case_decide as Hd; [|destruct Hd].
    + intros g Hg [_ Ht]. unfold folders_reference_tenants in Hfk.
      rewrite Forall_forall in Hfk. apply Hfk in Hg.
      apply Exists_exists in Hg as (t & Hin & Hid).
      apply (Hfresh t Hin). congruence.
  - rewrite fmap_app, filter_app, filter_nil_elem.
    + simpl. case_decide; [|done]. rewrite filter_cons, filter_nil. by case_decide.
    + intros t' Ht' Hid. apply list_elem_of_fmap in Ht' as (t & -> & Ht).
      case_decide; simpl in Hid; by apply (Hfresh t Ht).
  - apply elem_of_app. right. left.
Qed.

Lemma createTenant_all_or_nothing_witness :
  let req := Scenario.request "alice" "" "" (Body.mk None (Some "Gamma") None) in
  let resp := (createTenant Scenario.gamma Scenario.gamma_root req Scenario.store).1 in
  let db' := (createTenant Scenario.gamma Scenario.gamma_root req Scenario.store).2 in
  status resp = 201
  /\ exists root tenant u,
       filter (fun g => Folder.parentId g = None /\ Folder.tenantId g = Scenario.gamma)
              (folders db') = [root]
       /\ Folder.id root = Scenario.gamma_root
       /\ filter (fun t => Tenant.id t = Scenario.gamma) (tenants db') = [tenant]
       /\ Tenant.rootFolderId tenant = Some (Folder.id root)
       /\ user req = Some u
       /\ TenantMember.mk (User.id u) Scenario.gamma TENANT_ADMIN ∈ tenantMembers db'.
Proof.
  intros req resp db'.
  assert (status resp = 201) as Hst by (vm_compute; reflexivity).
  split; [exact Hst|].
  refine (proj1 (createTenant_all_or_nothing Scenario.gamma Scenario.gamma_root req
                   Scenario.store _) Hst).
  apply (bool_decide_unpack _). vm_compute. exact I.
Defined.

(** A step inside the transaction that throws undoes the steps before it:
    the root folder's identifier collides with a stored folder after the
    tenant row was written, and the database is back as it was. *)
Example createTenant_rolls_back :
  createTenant Scenario.gamma Scenario.reports
    (Scenario.request "alice" "" "" (Body.mk None (Some "Gamma") None)) Scenario.store
  = (mkResponse 500 (Some "Failed to create tenant.") None
       (ErrorMessage (UniqueConstraint "Folder_pkey")),
     Scenario.store).
Proof. vm_compute. reflexivity. Qed.

(** ** The path of a new child *)

Lemma hex_digit_label_char c : hex_digit c = true -> Ltree.label_char c = true.
Proof.
  unfold hex_digit, Ltree.label_char. generalize (char_code c). intros n H.
  apply orb_prop in H as [H|H]; apply andb_prop in H as [H1 H2].
  - by rewrite H1, H2.
  - apply Nat.leb_le in H1. apply Nat.leb_le in H2.
    assert ((97 <=? n)%nat = true) as -> by (apply Nat.leb_le; lia).
    assert ((n <=? 122)%nat = true) as -> by (apply Nat.leb_le; lia).
    by rewrite !orb_true_r.
Qed.

Lemma hex_digit_not_hyphen c : hex_digit c = true -> c <> hyphen.
Proof. intros H ->. vm_compute in H. discriminate. Qed.

Lemma uuid_from_word i s : uuid_from i s = true -> Ltree.word (replace_hyphens s) = true.
Proof.
  revert i. induction s as [|c s IH]; [done|]. intros i. simpl.
  intros [Hc Hs]%andb_prop. rewrite (IH _ Hs), andb_true_r.
  destruct (hyphen_position i).
  - apply bool_decide_eq_true in Hc as ->. reflexivity.
  - pose proof (hex_digit_not_hyphen c Hc). case_decide; [done|].
    by apply hex_digit_label_char.
Qed.

(** The sanitised UUID is one well-formed label. *)
Lemma uuid_label_ok s : is_uuid s = true -> Ltree.label_ok (replace_hyphens s) = true.
Proof.
  intros H. pose proof (uuid_from_word 0 s H) as Hw.
  destruct s as [|c s]; [discriminate|]. exact Hw.
Qed.

Lemma append_assoc (a b c : string) : (a ++ b) ++ c = a ++ (b ++ c).
Proof.
  induction a as [|x a IH]; [done|].
  change (String x ((a ++ b) ++ c) = String x (a ++ (b ++ c))). by rewrite IH.
Qed.

Lemma split_join_app ls s :
  ls <> [] -> Forall (fun l => dotless l = true) ls ->
  Ltree.split_dot (Ltree.join_dot ls ++ String dot s) = (ls ++ Ltree.split_dot s)%list.
Proof.
  induction ls as [|l ls IH]; [congruence|].
  intros _ Hall. apply Forall_cons in Hall as [Hl Hls].
  destruct ls as [|l' ls].
  - simpl. by apply split_app_dot.
  - rewrite join_dot_cons by discriminate.
    rewrite append_assoc.
    change (String dot (Ltree.join_dot (l' :: ls)) ++ String dot s)
      with (String dot (Ltree.join_dot (l' :: ls) ++ String dot s)).
    rewrite split_app_dot by assumption.
    rewrite IH by done. reflexivity.
Qed.

Lemma forallb_app_true {A} (f : A -> bool) (l k : list A) :
  forallb f l = true -> forallb f k = true -> forallb f (l ++ k) = true.
Proof. intros Hl Hk. rewrite forallb_app. by rewrite Hl, Hk. Qed.

(** The text the create handler builds for a child is accepted by
    [::ltree] as the parent's labels followed by the new label. *)
Lemma ltree_in_child (p : Ltree.t) (seg : string) :
  Ltree.labels p <> [] -> Ltree.label_ok seg = true ->
  exists q,
    Ltree.ltree_in (Ltree.ltree_out p ++ "." ++ seg) = Some q
    /\ Ltree.labels q = (Ltree.labels p ++ [seg])%list.
Proof.
  intros Hne Hseg.
  assert (Is_true (forallb Ltree.label_ok (Ltree.labels p ++ [seg]))) as Hwf.
  { apply Is_true_true, forallb_app_true.
    - apply Is_true_true, (Ltree.wf p).
    - simpl. by rewrite Hseg. }
  exists (Ltree.mk _ Hwf). split; [|done].
  unfold Ltree.ltree_in, Ltree.ltree_out.
  assert (Ltree.split_dot (Ltree.join_dot (Ltree.labels p) ++ "." ++ seg)
          = (Ltree.labels p ++ [seg])%list) as Hsplit.
  { change ("." ++ seg) with (String dot seg).
    rewrite split_join_app; [|done|apply labels_dotless].
    by rewrite (split_dotless seg) by (by apply label_ok_dotless). }
  destruct (Ltree.join_dot (Ltree.labels p) ++ "." ++ seg) as [|c s] eqn:E.
  - simpl in Hsplit. destruct (Ltree.labels p) as [|l [|l' ls]]; [done|discriminate..].
  - rewrite Hsplit. unfold Ltree.of_labels.
    destruct (decide _) as [H|H]; [|by destruct H].
    f_equal. by apply ltree_ext.
Qed.

(** ** When creating and renaming go through *)

Lemma insert_folder_ok f db :
  (forall g, g ∈ folders db -> Folder.id g <> Folder.id f) ->
  (forall g, g ∈ folders db -> ~ same_slot f g) ->
  (forall p, Folder.parentId f = Some p -> exists g, g ∈ folders db /\ Folder.id g = p) ->
  (exists t, t ∈ tenants db /\ Tenant.id t = Folder.tenantId f) ->
  insert_folder f db = (set_folders (folders db ++ [f]) db, inr tt).
Proof.
  intros Hid Hslot Hparent Htenant. unfold insert_folder.
  assert (any (fun g => Folder.id g = Folder.id f) (folders db) = false) as ->
    by (by apply any_false).
  assert (any (same_slot f) (folders db) = false) as -> by (by apply any_false).
  assert (parent_missing f db = false) as ->.
  { unfold parent_missing. destruct (Folder.parentId f) as [p|]; [|done].
    apply negb_false_iff, any_true. by apply Hparent. }
  assert (any (fun t => Tenant.id t = Folder.tenantId f) (tenants db) = true) as ->
    by (by apply any_true).
  reflexivity.
Qed.

Lemma createSubfolder_check_ok req db parent tenantId trimmedName :
  folder_ids_unique db ->
  Body.tenantId (body req) = Some tenantId ->
  Body.parentId (body req) = Some (Folder.id parent) ->
  Folder.id parent <> "" ->
  valid_name (Body.name (body req)) = Some trimmedName ->
  parent ∈ folders db ->
  Folder.tenantId parent = tenantId ->
  (forall g, g ∈ folders db ->
     ~ (Folder.name g = trimmedName
        /\ Folder.parentId g = Some (Folder.id parent)
        /\ Folder.tenantId g = tenantId)) ->
  createSubfolder_check req db
  = (db, inr (inr (mkChecked (Some tenantId) (Folder.id parent) trimmedName parent))).
Proof.
  intros Hu Ht Hpid Hne Hn Hparent Hpt Hfree. unfold createSubfolder_check.
  rewrite Hn, Hpid. case_decide; [done|].
  unfold mbind at 1, Prisma_bind at 1, query at 1. rewrite Ht.
  destruct (filter _ _) as [|g rest] eqn:Hfil.
  { assert (parent ∈ filter (fun f => Folder.id f = Folder.id parent
              /\ Some (Folder.tenantId f) = Some tenantId) (folders db)) as Hin
      by (apply list_elem_of_filter; rewrite Hpt; done).
    rewrite Hfil in Hin. by apply not_elem_of_nil in Hin. }
  assert (g = parent) as ->.
  { assert (g ∈ filter (fun f => Folder.id f = Folder.id parent
              /\ Some (Folder.tenantId f) = Some tenantId) (folders db))
      as [[Hg _] Hin]%list_elem_of_filter by (rewrite Hfil; left).
    by apply (NoDup_fmap_elem Folder.id (folders db)). }
  unfold mbind, Prisma_bind, query.
  assert (findFirst (fun f => Folder.name f = trimmedName
                              /\ Folder.parentId f = Some (Folder.id parent)
                              /\ Some (Folder.tenantId f) = Some tenantId) (folders db)
          = None) as ->.
  { apply findFirst_None. intros x Hx (H1 & H2 & [= H3]). by apply (Hfree x Hx). }
  reflexivity.
Qed.

Lemma createSubfolder_write_ok newFolderId db parent tenantId trimmedName :
  parent ∈ folders db ->
  Ltree.labels (Folder.path parent) <> [] ->
  (forall g, g ∈ folders db ->
     ~ (Folder.name g = trimmedName
        /\ Folder.parentId g = Some (Folder.id parent)
        /\ Folder.tenantId g = tenantId)) ->
  is_uuid newFolderId = true ->
  (forall g, g ∈ folders db -> Folder.id g <> newFolderId) ->
  (exists t, t ∈ tenants db /\ Tenant.id t = tenantId) ->
  exists path,
    Ltree.labels path = (Ltree.labels (Folder.path parent) ++ [replace_hyphens newFolderId])%list
    /\ createSubfolder_write newFolderId
         (mkChecked (Some tenantId) (Folder.id parent) trimmedName parent) db
       = (set_folders
            (folders db ++ [Folder.mk newFolderId trimmedName (Some (Folder.id parent))
                              tenantId path]) db,
          inr (mkResponse 201 (Some "Folder created successfully.") None
                 (FolderRecord (Some (FolderSelect.mk newFolderId trimmedName
                                        (Some (Folder.id parent)) tenantId))))).
Proof.
  intros Hparent Hlevel Hfree Huuid Hfresh Htenant.
  destruct (ltree_in_child (Folder.path parent) (replace_hyphens newFolderId) Hlevel
              (uuid_label_ok _ Huuid)) as (path & Hin & Hlabels).
  exists path. split; [done|].
  unfold createSubfolder_write. cbn [checked_parent checked_tenantId checked_name
                                      checked_parentId].
  unfold cast_ltree. rewrite Hin.
  set (row := Folder.mk newFolderId trimmedName (Some (Folder.id parent)) tenantId path).
  assert (insert_folder row db = (set_folders (folders db ++ [row]) db, inr tt)) as Hins.
  { apply insert_folder_ok; try done.
    - intros g Hg (_ & H1 & H2 & H3). by apply (Hfree g Hg).
    - intros p [= <-]. by exists parent. }
  unfold mbind, Prisma_bind, mret, Prisma_ret, query.
  unfold row in Hins. rewrite Hins. simpl.
  unfold findFirst. rewrite filter_app, filter_nil_elem by done.
  rewrite filter_cons, filter_nil. case_decide; done.
Qed.

(** A create request that meets no obstacle is answered 201, and the row
    is stored one level below the parent. *)
Lemma createSubfolder_succeeds newFolderId req db parent tenantId trimmedName :
  folder_ids_unique db ->
  passes None req db ->
  Body.tenantId (body req) = Some tenantId ->
  Body.parentId (body req) = Some (Folder.id parent) ->
  Folder.id parent <> "" ->
  valid_name (Body.name (body req)) = Some trimmedName ->
  parent ∈ folders db ->
  Folder.tenantId parent = tenantId ->
  Ltree.labels (Folder.path parent) <> [] ->
  (forall g, g ∈ folders db ->
     ~ (Folder.name g = trimmedName
        /\ Folder.parentId g = Some (Folder.id parent)
        /\ Folder.tenantId g = tenantId)) ->
  is_uuid newFolderId = true ->
  (forall g, g ∈ folders db -> Folder.id g <> newFolderId) ->
  (exists t, t ∈ tenants db /\ Tenant.id t = tenantId) ->
  exists path,
    Ltree.labels path = (Ltree.labels (Folder.path parent) ++ [replace_hyphens newFolderId])%list
    /\ createSubfolder newFolderId req db
       = (mkResponse 201 (Some "Folder created successfully.") None
            (FolderRecord (Some (FolderSelect.mk newFolderId trimmedName
                                   (Some (Folder.id parent)) tenantId))),
          set_folders
            (folders db ++ [Folder.mk newFolderId trimmedName (Some (Folder.id parent))
                              tenantId path]) db).
Proof.
  intros Hu Hp Ht Hpid Hne Hn Hparent Hpt Hlevel Hfree Huuid Hfresh Htenant.
  apply passes_next in Hp as (req' & Hmw & _ & Hb).
  destruct (createSubfolder_write_ok newFolderId db parent tenantId trimmedName)
    as (path & Hlabels & Hwrite); try done.
  exists path. split; [done|].
  unfold createSubfolder, route. rewrite Hmw.
  unfold try_catch, createSubfolder_body.
  rewrite (bind_run _ _ _ _ _
             (createSubfolder_check_ok req' db parent tenantId trimmedName Hu
                ltac:(by rewrite Hb) ltac:(by rewrite Hb) Hne ltac:(by rewrite Hb)
                Hparent Hpt Hfree)).
  by rewrite Hwrite.
Qed.

Lemma findFirst_unique {A} (key : A -> string) (P : A -> Prop) `{forall x, Decision (P x)}
  (l : list A) (x : A) :
  NoDup (key <$> l) -> x ∈ l -> P x -> (forall y, P y -> key y = key x) ->
  findFirst P l = Some x.
Proof.
  intros Hnd Hx HP Hkey. unfold findFirst.
  destruct (filter P l) as [|g rest] eqn:Hfil.
  - assert (x ∈ filter P l) as Hin by (by apply list_elem_of_filter).
    rewrite Hfil in Hin. by apply not_elem_of_nil in Hin.
  - assert (g ∈ filter P l) as [Hg Hin]%list_elem_of_filter by (rewrite Hfil; left).
    simpl. f_equal. apply (NoDup_fmap_elem key l); auto.
Qed.

(** A rename request that meets no obstacle is answered 200 and changes
    the name of the one row. *)
Lemma renameFolder_succeeds req db f trimmedName :
  folder_ids_unique db ->
  passes None req db ->
  valid_name (Body.name (body req)) = Some trimmedName ->
  f ∈ folders db ->
  Folder.id f = Params.folderId (params req) ->
  Folder.tenantId f = Params.tenantId (params req) ->
  (forall g, g ∈ folders db -> Folder.id g <> Folder.id f ->
     ~ (is_Some (Folder.parentId f)
        /\ Folder.name g = trimmedName
        /\ Folder.parentId g = Folder.parentId f
        /\ Folder.tenantId g = Folder.tenantId f)) ->
  renameFolder req db
  = (mkResponse 200 (Some "Folder renamed successfully.") None
       (FolderRecord (Some (select_folder (set_name trimmedName f)))),
     set_folders
       ((fun g => if decide (Folder.id g = Folder.id f) then set_name trimmedName g else g)
          <$> folders db) db).
Proof.
  intros Hu Hp Hn Hf Hid Ht Hfree.
  apply passes_next in Hp as (req' & Hmw & Hpar & Hb).
  unfold renameFolder, route. rewrite Hmw.
  unfold try_catch, renameFolder_body. rewrite Hb, Hn, Hpar.
  unfold mbind at 1, Prisma_bind at 1, query at 1.
  rewrite (findFirst_unique Folder.id _ (folders db) f Hu Hf) by (intuition congruence).
  unfold mbind at 1, Prisma_bind at 1.
  assert (match truthy (Folder.parentId f) with
          | Some parentId =>
              query (fun db0 =>
                findFirst (fun g => Folder.name g = trimmedName
                                    /\ Folder.parentId g = Some parentId
                                    /\ Folder.tenantId g = Params.tenantId (params req)
                                    /\ Folder.id g <> Params.folderId (params req))
                          (folders db0))
          | None => mret None
          end db = (db, inr None)) as ->.
  { unfold truthy. destruct (Folder.parentId f) as [p|] eqn:Hpf; [|done].
    case_decide; [done|]. unfold query. f_equal. f_equal.
    apply findFirst_None. intros g Hg (H1 & H2 & H3 & H4).
    apply (Hfree g Hg); [congruence|]. repeat split; eauto; congruence. }
  unfold mbind, Prisma_bind, folder_update_name.
  rewrite (findFirst_unique Folder.id _ (folders db) f Hu Hf) by (intuition congruence).
  assert (any (fun g => Folder.id g <> Params.folderId (params req)
                        /\ same_slot (set_name trimmedName f) g) (folders db) = false) as ->.
  { apply any_false. intros g Hg [Hne (H1 & H2 & H3 & H4)]. simpl in *.
    apply (Hfree g Hg); [congruence|]. done. }
  unfold mret, Prisma_ret. by rewrite Hid.
Qed.

(** C10. The duplicate checks of the create and rename routes compare
    names byte for byte. Let a parent have a child whose name differs from
    the requested name only in the case of letters, and no child with the
    requested name itself: then creating a child with that name is
    answered 201, renaming a child to it is answered 200, and neither gets
    the 409 for a duplicate name. *)
Theorem sibling_check_is_case_sensitive
  (db : Db) (parent sibling other : Folder.t) (newName newFolderId : string)
  (create rename : Request) :
  folder_ids_unique db ->
  parent ∈ folders db ->
  Folder.id parent <> "" ->
  Ltree.labels (Folder.path parent) <> [] ->
  (exists t, t ∈ tenants db /\ Tenant.id t = Folder.tenantId parent) ->
  sibling ∈ folders db ->
  Folder.parentId sibling = Some (Folder.id parent) ->
  Folder.tenantId sibling = Folder.tenantId parent ->
  same_ignoring_case newName (Folder.name sibling) ->
  newName <> Folder.name sibling ->
  (forall g, g ∈ folders db ->
     Folder.parentId g = Some (Folder.id parent) ->
     Folder.tenantId g = Folder.tenantId parent ->
     Folder.name g <> newName) ->
  passes None create db ->
  Body.tenantId (body create) = Some (Folder.tenantId parent) ->
  Body.parentId (body create) = Some (Folder.id parent) ->
  valid_name (Body.name (body create)) = Some newName ->
  is_uuid newFolderId = true ->
  (forall g, g ∈ folders db -> Folder.id g <> newFolderId) ->
  passes None rename db ->
  other ∈ folders db ->
  Folder.parentId other = Some (Folder.id parent) ->
  Folder.tenantId other = Folder.tenantId parent ->
  Folder.id other = Params.folderId (params rename) ->
  Folder.tenantId other = Params.tenantId (params rename) ->
  valid_name (Body.name (body rename)) = Some newName ->
  (status (createSubfolder newFolderId create db).1 = 201
   /\ (createSubfolder newFolderId create db).1 <> duplicate_name newName
   /\ exists row,
        folders (createSubfolder newFolderId create db).2 = (folders db ++ [row])%list
        /\ Folder.name row = newName
        /\ Folder.parentId row = Folder.parentId sibling
        /\ Folder.tenantId row = Folder.tenantId sibling)
  /\ (status (renameFolder rename db).1 = 200
      /\ (renameFolder rename db).1 <> duplicate_name newName
      /\ folders (renameFolder rename db).2
         = (fun g => if decide (Folder.id g = Folder.id other)
                     then set_name newName g else g) <$> folders db).
Proof.
  intros Hu Hparent Hpid Hlevel Htenant Hsib Hsibp Hsibt _ _ Hfree
    Hpc Hct Hcp Hcn Huuid Hfresh Hpr Hother Hop Hot Hoid Hotn Hrn.
  split.
  - destruct (createSubfolder_succeeds newFolderId create db parent
                (Folder.tenantId parent) newName) as (path & _ & ->); try done.
    { intros g Hg (H1 & H2 & H3). by apply (Hfree g Hg). }
    simpl. repeat split; [discriminate|].
    eexists. split; [reflexivity|]. simpl. by rewrite Hsibp, Hsibt.
  - rewrite (renameFolder_succeeds rename db other newName); try done.
    intros g Hg Hne (_ & H1 & H2 & H3). apply (Hfree g Hg); congruence.
Qed.

Lemma forall_elem_decide {A} (P : A -> Prop) `{forall x, Decision (P x)} (l : list A) :
  bool_decide (Forall P l) = true -> forall x, x ∈ l -> P x.
Proof. intros Hd. apply bool_decide_eq_true in Hd. by apply Forall_forall. Qed.

Lemma sibling_check_is_case_sensitive_witness :
  (same_ignoring_case "reports" (Folder.name Case.sibling)
   /\ "reports" <> Folder.name Case.sibling)
  /\ (status (createSubfolder Scenario.fresh Case.create Scenario.store).1 = 201
      /\ (createSubfolder Scenario.fresh Case.create Scenario.store).1
         <> duplicate_name "reports"
      /\ exists row,
           folders (createSubfolder Scenario.fresh Case.create Scenario.store).2
           = (folders Scenario.store ++ [row])%list
           /\ Folder.name row = "reports"
           /\ Folder.parentId row = Folder.parentId Case.sibling
           /\ Folder.tenantId row = Folder.tenantId Case.sibling)
  /\ (status (renameFolder Case.rename Scenario.store).1 = 200
      /\ (renameFolder Case.rename Scenario.store).1 <> duplicate_name "reports"
      /\ folders (renameFolder Case.rename Scenario.store).2
         = (fun g => if decide (Folder.id g = Folder.id Case.other)
                     then set_name "reports" g else g) <$> folders Scenario.store).
Proof.
  split; [split; [vm_compute; reflexivity|discriminate]|].
  apply (sibling_check_is_case_sensitive Scenario.store Case.parent Case.sibling Case.other
           "reports" Scenario.fresh Case.create Case.rename).
  - apply (bool_decide_unpack _). vm_compute. exact I.
  - apply (bool_decide_unpack _). vm_compute. exact I.
  - discriminate.
  - discriminate.
  - apply Exists_exists. apply (bool_decide_unpack _). vm_compute. exact I.
  - apply (bool_decide_unpack _). vm_compute. exact I.
  - reflexivity.
  - reflexivity.
  - vm_compute. reflexivity.
  - discriminate.
  - apply (forall_elem_decide
             (fun g => Folder.parentId g = Some (Folder.id Case.parent) ->
                       Folder.tenantId g = Folder.tenantId Case.parent ->
                       Folder.name g <> "reports") (folders Scenario.store)).
    vm_compute. reflexivity.
  - eexists. vm_compute. reflexivity.
  - reflexivity.
  - reflexivity.
  - vm_compute. reflexivity.
  - vm_compute. reflexivity.
  - apply (forall_elem_decide (fun g => Folder.id g <> Scenario.fresh)
             (folders Scenario.store)).
    vm_compute. reflexivity.
  - eexists. vm_compute. reflexivity.
  - apply (bool_decide_unpack _). vm_compute. exact I.
  - reflexivity.
  - reflexivity.
  - reflexivity.
  - reflexivity.
  - vm_compute. reflexivity.
Defined.

(** ** The invariants the routes keep *)

Lemma uuid_from_replace_inj i a b :
  uuid_from i a = true -> uuid_from i b = true ->
  replace_hyphens a = replace_hyphens b -> a = b.
Proof.
  revert i b. induction a as [|x a IH]; intros i [|y b]; simpl; try done.
  intros [Hx Ha]%andb_prop [Hy Hb]%andb_prop [= Hxy Hab].
  f_equal; [|by eapply IH].
  destruct (hyphen_position i).
  - apply bool_decide_eq_true in Hx, Hy. congruence.
  - pose proof (hex_digit_not_hyphen x Hx). pose proof (hex_digit_not_hyphen y Hy).
    repeat case_decide; congruence.
Qed.

(** Distinct UUIDs give distinct labels. *)
Lemma replace_hyphens_inj a b :
  is_uuid a = true -> is_uuid b = true -> replace_hyphens a = replace_hyphens b -> a = b.
Proof. apply uuid_from_replace_inj. Qed.

Lemma consistent_tenant_uuid db g :
  consistent db -> g ∈ folders db -> is_uuid (Folder.tenantId g) = true.
Proof.
  intros [_ Hfk Huuid _] Hg. unfold folders_reference_tenants in Hfk.
  rewrite Forall_forall in Hfk. rewrite Forall_forall in Huuid.
  apply Hfk in Hg. apply Exists_exists in Hg as (t & Ht & <-). by apply Huuid.
Qed.

(** In a consistent database containment of paths stays inside a tenant. *)
Lemma consistent_paths_within_tenant db : consistent db -> paths_within_tenant db.
Proof.
  intros Hc. unfold paths_within_tenant.
  apply Forall_forall. intros g Hg. apply Forall_forall. intros h Hh Hsub.
  pose proof (consistent_roots db Hc) as Hroots. rewrite Forall_forall in Hroots.
  pose proof (Hroots g Hg) as Hrg. pose proof (Hroots h Hh) as Hrh.
  destruct Hsub as [k Hk]. rewrite Hk in Hrg.
  destruct (Ltree.labels (Folder.path h)) as [|x r]; [discriminate|].
  simpl in Hrg, Hrh.
  apply replace_hyphens_inj; [by eapply consistent_tenant_uuid..|congruence].
Qed.

Lemma ltree_in_child_inv (p q : Ltree.t) (s : string) :
  Ltree.ltree_in (Ltree.ltree_out p ++ "." ++ s) = Some q ->
  Ltree.labels p <> []
  /\ Ltree.labels q = (Ltree.labels p ++ Ltree.split_dot s)%list.
Proof.
  unfold Ltree.ltree_in, Ltree.ltree_out. change ("." ++ s) with (String dot s).
  destruct (Ltree.labels p) as [|l ls] eqn:Hp.
  - simpl. destruct (decide (dot = dot)); [|done].
    intros Hq%of_labels_Some. pose proof (labels_ok q) as Hok.
    rewrite Hq in Hok. apply Forall_cons in Hok as [Hbad _]. discriminate.
  - intros Hq. split; [done|].
    assert (Ltree.split_dot (Ltree.join_dot (l :: ls) ++ String dot s)
            = ((l :: ls) ++ Ltree.split_dot s)%list) as Hsplit.
    { apply split_join_app; [done|]. rewrite <- Hp. apply labels_dotless. }
    destruct (Ltree.join_dot (l :: ls) ++ String dot s) as [|c r] eqn:E.
    + simpl in Hsplit. injection Hsplit as _ Hnil. symmetry in Hnil.
      apply app_eq_nil in Hnil as [_ Hnil]. by apply split_dot_nonempty in Hnil.
    + apply of_labels_Some in Hq. by rewrite Hq.
Qed.

Lemma consistent_createSubfolder newFolderId req db :
  consistent db -> consistent (createSubfolder newFolderId req db).2.
Proof.
  intros Hc. destruct (createSubfolder newFolderId req db) as [resp db'] eqn:E. simpl.
  apply createSubfolder_inv in E as [[_ ->]|(_ & _ & H)]; [done|].
  destruct H as (t & pid & n & parent & rest & path & Ht & Hpid & Hn & Hf & Hpath & Hins).
  apply insert_folder_inr in Hins as (-> & Hfresh & _ & Htenant). simpl in *.
  assert (parent ∈ filter (fun f => Folder.id f = pid
            /\ Some (Folder.tenantId f) = Body.tenantId (body req)) (folders db))
    as [[_ Hpt] Hparent]%list_elem_of_filter by (rewrite Hf; left).
  rewrite Ht in Hpt. injection Hpt as Hpt.
  destruct Hc as [Hids Hfk Huuid Hroots]. split; simpl; try done.
  - unfold folder_ids_unique in *. simpl. rewrite fmap_app. apply NoDup_app.
    split; [done|]. split; [|apply NoDup_singleton].
    intros x Hx Hin. apply list_elem_of_fmap in Hx as (g & -> & Hg).
    apply list_elem_of_singleton in Hin. by apply (Hfresh g Hg).
  - unfold folders_reference_tenants in *. simpl. apply Forall_app. split; [done|].
    apply Forall_singleton. simpl. by apply Exists_exists.
  - apply Forall_app. split; [done|]. apply Forall_singleton. simpl.
    apply ltree_in_child_inv in Hpath as [Hne ->].
    rewrite Forall_forall in Hroots. pose proof (Hroots parent Hparent) as Hr.
    destruct (Ltree.labels (Folder.path parent)); [done|]. simpl in *. congruence.
Qed.

Lemma consistent_renameFolder req db :
  consistent db -> consistent (renameFolder req db).2.
Proof.
  intros Hc. destruct (renameFolder_effect req db) as [->|[name ->]]; [done|].
  destruct Hc as [Hids Hfk Huuid Hroots]. split; simpl; try done.
  - unfold folder_ids_unique in *. simpl. rewrite <- list_fmap_compose.
    erewrite list_fmap_ext; [exact Hids|]. intros i g _. simpl. by case_decide.
  - unfold folders_reference_tenants in *. simpl. apply Forall_fmap.
    eapply Forall_impl; [exact Hfk|]. intros g Hg. simpl. by case_decide.
  - apply Forall_fmap. eapply Forall_impl; [exact Hroots|].
    intros g Hg. simpl. by case_decide.
Qed.

Lemma consistent_deleteSubtree req db :
  consistent db -> consistent (deleteSubtree req db).2.
Proof.
  intros Hc. destruct (deleteSubtree req db) as [resp db'] eqn:E. simpl.
  apply deleteSubtree_inv in E as [[_ ->]|(_ & _ & H)]; [done|].
  destruct H as (f & rest & parentId & k & db1 & n & _ & _ & Hfiles & Hfolders & _).
  apply delete_files_under_inr in Hfiles as ->.
  apply delete_folders_under_inr in Hfolders as (_ & Hfolders & _ & Htenants).
  simpl in *. destruct Hc as [Hids Hfk Huuid Hroots].
  split.
  - unfold folder_ids_unique in *. rewrite Hfolders, <- list_fmap_compose.
    by apply (NoDup_fmap_filter Folder.id).
  - unfold folders_reference_tenants in *. rewrite Hfolders, Htenants.
    apply Forall_fmap, Forall_forall. intros g [_ Hg]%list_elem_of_filter.
    rewrite Forall_forall in Hfk. apply Hfk in Hg.
    apply Exists_exists in Hg as (t & Ht & Hid).
    apply Exists_exists. eexists. split; [by apply list_elem_of_fmap_2|]. done.
  - rewrite Htenants. apply Forall_fmap. eapply Forall_impl; [exact Huuid|]. done.
  - rewrite Hfolders. apply Forall_fmap, Forall_forall.
    intros g [_ Hg]%list_elem_of_filter.
    rewrite Forall_forall in Hroots. unfold compose. simpl. by apply Hroots.
Qed.

Lemma consistent_createTenant newTenantId newRootId req db :
  is_uuid newTenantId = true ->
  consistent db -> consistent (createTenant newTenantId newRootId req db).2.
Proof.
  intros Hnew Hc.
  destruct (createTenant newTenantId newRootId req db) as [resp db'] eqn:E. simpl.
  apply createTenant_inv in E as [[_ ->]|(_ & u & n & result & _ & _ & H)]; [done|].
  apply provision_inr in H as (path & Hpath & _ & Hfresh & ->).
  destruct Hc as [Hids Hfk Huuid Hroots].
  assert (forall t, t ∈ (tenants db ++ [Tenant.mk newTenantId n None])%list ->
            exists t',
              t' ∈ (fun x => if decide (Tenant.id x = newTenantId)
                             then Tenant.mk (Tenant.id x) (Tenant.name x) (Some newRootId)
                             else x) <$> (tenants db ++ [Tenant.mk newTenantId n None])%list
              /\ Tenant.id t' = Tenant.id t) as Hkept.
  { intros t Ht. eexists. split; [by apply list_elem_of_fmap_2|]. by case_decide. }
  split; simpl.
  - unfold folder_ids_unique in *. simpl. rewrite fmap_app. apply NoDup_app.
    split; [done|]. split; [|apply NoDup_singleton].
    intros x Hx Hin. apply list_elem_of_fmap in Hx as (g & -> & Hg).
    apply list_elem_of_singleton in Hin. by apply (Hfresh g Hg).
  - unfold folders_reference_tenants in *. simpl. apply Forall_app. split.
    + eapply Forall_impl; [exact Hfk|]. intros g Hg.
      apply Exists_exists in Hg as (t & Ht & Hid).
      destruct (Hkept t) as (t' & Ht' & Hid'); [apply elem_of_app; by left|].
      apply Exists_exists. exists t'. split; [done|]. congruence.
    + apply Forall_singleton. simpl.
      destruct (Hkept (Tenant.mk newTenantId n None)) as (t' & Ht' & Hid');
        [apply elem_of_app; right; left|].
      apply Exists_exists. by exists t'.
  - apply Forall_fmap, Forall_app. split.
    + eapply Forall_impl; [exact Huuid|]. intros t Ht. simpl. by case_decide.
    + apply Forall_singleton. simpl. by case_decide.
  - apply Forall_app. split; [done|]. apply Forall_singleton. simpl.
    pose proof (uuid_label_ok _ Hnew) as Hok.
    unfold Ltree.ltree_in in Hpath.
    destruct (replace_hyphens newTenantId) as [|c s] eqn:Hs; [discriminate|].
    apply of_labels_Some in Hpath. rewrite Hpath, <- Hs.
    rewrite split_dotless; [done|]. rewrite Hs. by apply label_ok_dotless.
Qed.

Lemma consistent_empty : consistent (mkDb [] [] [] [] []).
Proof. split; simpl; try by constructor. Qed.

(** The folder routes and the provisioning of a tenant whose identifier is
    a UUID keep the database consistent; the two listing routes do not
    write. *)
Theorem routes_keep_consistency (db : Db) :
  consistent db ->
  (forall newFolderId req, consistent (createSubfolder newFolderId req db).2)
  /\ (forall req, consistent (renameFolder req db).2)
  /\ (forall req, consistent (deleteSubtree req db).2)
  /\ (forall newTenantId newRootId req,
        is_uuid newTenantId = true ->
        consistent (createTenant newTenantId newRootId req db).2)
  /\ (forall req, (listDescendants req db).2 = db /\ (listAncestors req db).2 = db).
Proof.
  intros Hc. split; [|split; [|split; [|split; [|intros req; split]]]].
  - intros. by apply consistent_createSubfolder.
  - intros. by apply consistent_renameFolder.
  - intros. by apply consistent_deleteSubtree.
  - intros. by apply consistent_createTenant.
  - unfold listDescendants, route.
    destruct (requireTenantAccess None req db) as [db1 r] eqn:E.
    apply requireTenantAccess_inv in E as (-> & _).
    destruct r as [e|[denied|req']]; try done.
    unfold try_catch, listDescendants_body, folder_of_tenant.
    unfold mbind at 1, Prisma_bind at 1, query at 1.
    destruct (filter _ _) as [|f rest]; [done|].
    rewrite (bind_run _ _ _ _ _ (cast_ltree_out (Folder.path f) db)). done.
  - unfold listAncestors, route.
    destruct (requireTenantAccess None req db) as [db1 r] eqn:E.
    apply requireTenantAccess_inv in E as (-> & _).
    destruct r as [e|[denied|req']]; try done.
    unfold try_catch, listAncestors_body, folder_of_tenant.
    unfold mbind at 1, Prisma_bind at 1, query at 1.
    destruct (filter _ _) as [|f rest]; [done|].
    rewrite (bind_run _ _ _ _ _ (cast_ltree_out (Folder.path f) db)). done.
Qed.

(** The database of the examples is a consistent one. *)
Example scenario_store_consistent : consistent Scenario.store.
Proof. split; apply (bool_decide_unpack _); vm_compute; exact I. Qed.

(** * Further properties of the routes *)

(** ** The label made from a UUID *)

Lemma ltree_in_label (l : string) :
  Ltree.label_ok l = true ->
  exists p, Ltree.ltree_in l = Some p /\ Ltree.labels p = [l].
Proof.
  intros Hok. pose proof (label_ok_dotless l Hok) as Hdot.
  destruct l as [|c s]; [discriminate|].
  unfold Ltree.ltree_in. rewrite (split_dotless _ Hdot).
  unfold Ltree.of_labels. destruct (decide _) as [H|H].
  - by eexists.
  - destruct H. apply Is_true_true. cbn [forallb]. by rewrite Hok.
Qed.

(** X1. [id.replace(/-/g, "_")] of a UUID is one well-formed label: the cast to
    [ltree] accepts it as a path of one level, and two different UUIDs give
    two different labels. *)
Theorem sanitised_uuid_is_one_label (a b : string) :
  is_uuid a = true -> is_uuid b = true ->
  (exists p, Ltree.ltree_in (replace_hyphens a) = Some p
             /\ Ltree.labels p = [replace_hyphens a])
  /\ (replace_hyphens a = replace_hyphens b -> a = b).
Proof.
  intros Ha Hb. split; [|by apply replace_hyphens_inj].
  apply ltree_in_label. by apply uuid_label_ok.
Qed.

Lemma sanitised_uuid_is_one_label_witness :
  (exists p, Ltree.ltree_in (replace_hyphens Scenario.acme) = Some p
             /\ Ltree.labels p = [replace_hyphens Scenario.acme])
  /\ (replace_hyphens Scenario.acme = replace_hyphens Scenario.beta
      -> Scenario.acme = Scenario.beta).
Proof.
  apply (sanitised_uuid_is_one_label Scenario.acme Scenario.beta).
  - vm_compute. reflexivity.
  - vm_compute. reflexivity.
Defined.

(** ** Who gets through the middleware *)

Lemma NoDup_fmap_elem_key {A K} (key : A -> K) (l : list A) x y :
  NoDup (key <$> l) -> x ∈ l -> y ∈ l -> key x = key y -> x = y.
Proof.
  induction l as [|a l IH]; [by intros _ ?%not_elem_of_nil|].
  rewrite fmap_cons, NoDup_cons. intros [Ha Hl] Hx Hy Hxy.
  apply elem_of_cons in Hx as [->|Hx]; apply elem_of_cons in Hy as [->|Hy]; auto.
  - destruct Ha. rewrite Hxy. by apply list_elem_of_fmap_2.
  - destruct Ha. rewrite <- Hxy. by apply list_elem_of_fmap_2.
Qed.

Lemma membership_found db m u t :
  memberships_unique db -> m ∈ tenantMembers db ->
  TenantMember.userId m = u -> TenantMember.tenantId m = t ->
  findFirst (fun x => TenantMember.userId x = u /\ TenantMember.tenantId x = t)
            (tenantMembers db) = Some m.
Proof.
  intros Hu Hm Hmu Hmt. unfold findFirst.
  destruct (filter _ _) as [|x rest] eqn:Hfil.
  - assert (m ∈ filter (fun x => TenantMember.userId x = u /\ TenantMember.tenantId x = t)
                       (tenantMembers db)) as Hin by (by apply list_elem_of_filter).
    rewrite Hfil in Hin. by apply not_elem_of_nil in Hin.
  - assert (x ∈ filter (fun x => TenantMember.userId x = u /\ TenantMember.tenantId x = t)
                       (tenantMembers db))
      as [[Hxu Hxt] Hin]%list_elem_of_filter by (rewrite Hfil; left).
    simpl. f_equal.
    apply (NoDup_fmap_elem_key
             (fun m => (TenantMember.userId m, TenantMember.tenantId m))
             (tenantMembers db)); auto.
    simpl. congruence.
Qed.

Lemma requireTenantAccess_non_member requiredRole req db u :
  user req = Some u ->
  Params.tenantId (params req) <> "" ->
  (forall m, m ∈ tenantMembers db ->
     ~ (TenantMember.userId m = User.id u
        /\ TenantMember.tenantId m = Params.tenantId (params req))) ->
  requireTenantAccess requiredRole req db = (db, inr (inl access_denied)).
Proof.
  intros Hu Ht Hno. unfold requireTenantAccess. rewrite Hu.
  case_decide; [done|]. unfold mbind, Prisma_bind, query.
  assert (findFirst (fun m => TenantMember.userId m = User.id u
                              /\ TenantMember.tenantId m = Params.tenantId (params req))
                    (tenantMembers db) = None) as -> by (by apply findFirst_None).
  reflexivity.
Qed.



(** X3. A member whose role is USER, the one that ranks below TENANT_ADMIN,
    cannot delete: the delete route answers 403 "Insufficient permissions"
    and nothing is written. *)
Theorem deleteSubtree_needs_admin (req : Request) (db : Db) (u : User.t)
  (m : TenantMember.t) :
  memberships_unique db ->
  user req = Some u ->
  Params.tenantId (params req) <> "" ->
  m ∈ tenantMembers db ->
  TenantMember.userId m = User.id u ->
  TenantMember.tenantId m = Params.tenantId (params req) ->
  TenantMember.role m = USER ->
  deleteSubtree req db = (insufficient_permissions, db).
Proof.
  intros Huniq Hu Ht Hm Hmu Hmt Hrole.
  unfold deleteSubtree, route, requireTenantAccess. rewrite Hu.
  case_decide; [done|]. unfold mbind, Prisma_bind, query.
  rewrite (membership_found db m _ _ Huniq Hm Hmu Hmt), Hrole. reflexivity.
Qed.

Lemma deleteSubtree_needs_admin_witness :
  deleteSubtree (Scenario.request "alice" Scenario.acme Scenario.reports Scenario.no_body)
    Scenario.store
  = (insufficient_permissions, Scenario.store).
Proof.
  apply (deleteSubtree_needs_admin _ Scenario.store (User.mk "alice" None None)
           (TenantMember.mk "alice" Scenario.acme USER)).
  - apply (bool_decide_unpack _). vm_compute. exact I.
  - reflexivity.
  - discriminate.
  - apply (bool_decide_unpack _). vm_compute. exact I.
  - reflexivity.
  - reflexivity.
  - reflexivity.
Defined.

(** ** A folder of another tenant *)

Lemma ascii_blank_trim n : ascii_blank n = true -> trim n = "".
Proof.
  unfold trim. induction n as [|c n IH]; [done|]. cbn [ascii_blank trim_start].
  intros [Hc Hn]%andb_prop. rewrite Hc. by apply IH.
Qed.

Lemma passes_weaken requiredRole req db : passes requiredRole req db -> passes None req db.
Proof.
  unfold passes, requireTenantAccess. intros [req' H].
  destruct (user req) as [u|]; [|discriminate].
  case_decide; [discriminate|].
  unfold mbind, Prisma_bind, query in *.
  destruct (findFirst _ _) as [m|]; [|discriminate].
  destruct (insufficient requiredRole _); [discriminate|].
  simpl. by eexists.
Qed.

Lemma folder_of_tenant_absent db folderId tenantId :
  (forall g, g ∈ folders db -> Folder.id g = folderId -> Folder.tenantId g <> tenantId) ->
  filter (fun f => Folder.id f = folderId /\ Folder.tenantId f = tenantId) (folders db) = [].
Proof. intros Habs. apply filter_nil_elem. intros g Hg [Hid Ht]. by apply (Habs g Hg). Qed.

(** X4. To an administrator of the tenant of the URL, a folder that exists
    only in another tenant looks exactly like a folder that does not exist:
    for an identifier of plain characters the descendants, ancestors and
    delete routes answer 404 "Folder not found." and write nothing, and so
    does the rename route when the request carries a name of plain
    characters that is not blank (a blank one is answered 400 before the
    folder is looked up). *)
Theorem foreign_folder_looks_absent (req : Request) (db : Db) :
  passes (Some TENANT_ADMIN) req db ->
  plain_text (Params.folderId (params req)) = true ->
  (forall g, g ∈ folders db -> Folder.id g = Params.folderId (params req) ->
             Folder.tenantId g <> Params.tenantId (params req)) ->
  listDescendants req db = (not_found, db)
  /\ listAncestors req db = (not_found, db)
  /\ deleteSubtree req db = (not_found, db)
  /\ (forall n trimmedName,
        Body.name (body req) = Some n -> plain_text n = true ->
        valid_name (Some n) = Some trimmedName ->
        renameFolder req db = (not_found, db))
  /\ (forall n,
        Body.name (body req) = Some n -> ascii_blank n = true ->
        renameFolder req db = (name_required, db)).
Proof.
  intros Hadmin _ Habs.
  pose proof (folder_of_tenant_absent db _ _ Habs) as Hnil.
  pose proof (passes_weaken _ _ _ Hadmin) as Hany.
  apply passes_next in Hadmin as (reqA & HmwA & HpA & HbA).
  apply passes_next in Hany as (reqN & HmwN & HpN & HbN).
  unfold listDescendants, listAncestors, renameFolder, deleteSubtree, route.
  rewrite HmwA, HmwN. unfold try_catch.
  rewrite deleteSubtree_body_run, HpA, Hnil.
  unfold listDescendants_body, listAncestors_body, renameFolder_body, folder_of_tenant.
  rewrite HbN, HpN.
  split; [|split; [|split; [|split]]].
  - unfold mbind, Prisma_bind, query. by rewrite Hnil.
  - unfold mbind, Prisma_bind, query. by rewrite Hnil.
  - done.
  - intros n trimmedName -> _ ->.
    unfold mbind, Prisma_bind, query, findFirst. by rewrite Hnil.
  - intros n -> Hblank.
    assert (valid_name (Some n) = None) as ->; [|done].
    unfold valid_name. case_decide; [done|].
    rewrite (ascii_blank_trim n Hblank). by case_decide.
Qed.

Lemma foreign_folder_looks_absent_witness :
  let req := Scenario.request "carol" Scenario.acme Scenario.beta_root
               (Body.mk None (Some "Ours") None) in
  listDescendants req Scenario.store = (not_found, Scenario.store)
  /\ listAncestors req Scenario.store = (not_found, Scenario.store)
  /\ deleteSubtree req Scenario.store = (not_found, Scenario.store)
  /\ (forall n trimmedName,
        Body.name (body req) = Some n -> plain_text n = true ->
        valid_name (Some n) = Some trimmedName ->
        renameFolder req Scenario.store = (not_found, Scenario.store))
  /\ (forall n,
        Body.name (body req) = Some n -> ascii_blank n = true ->
        renameFolder req Scenario.store = (name_required, Scenario.store)).
Proof.
  intros req. apply (foreign_folder_looks_absent req Scenario.store).
  - eexists. vm_compute. reflexivity.
  - vm_compute. reflexivity.
  - apply (forall_elem_decide
             (fun g => Folder.id g = Scenario.beta_root -> Folder.tenantId g <> Scenario.acme)
             (folders Scenario.store)).
    vm_compute. reflexivity.
Defined.

(** ** The breadcrumb *)

Lemma prefix_of_common {A} (l1 l2 l : list A) :
  l1 `prefix_of` l -> l2 `prefix_of` l -> length l1 <= length l2 -> l1 `prefix_of` l2.
Proof.
  intros H1 H2 Hlen. destruct (prefix_weak_total l1 l2 l H1 H2) as [H|H]; [done|].
  pose proof (prefix_length _ _ H) as Hlen'.
  assert (l2 = l1) as -> by (apply prefix_length_eq; [done|lia]). done.
Qed.

Lemma StronglySorted_refine {A} (R R' : relation A) (P : A -> Prop) (l : list A) :
  (forall x y, P x -> P y -> R x y -> R' x y) ->
  Forall P l -> StronglySorted R l -> StronglySorted R' l.
Proof.
  intros Href HP Hs. induction Hs as [|x l Hs IH Hx]; [constructor|].
  apply Forall_cons in HP as [Px Pl]. constructor; [by apply IH|].
  rewrite Forall_forall in Hx, Pl |- *. intros y Hy. apply Href; auto.
Qed.

#[local] Instance by_nlevel_trans : Transitive by_nlevel.
Proof. intros x y z. unfold by_nlevel. lia. Qed.

(** X5. For a folder that exists in the tenant of the URL, the ancestors route
    answers 200 with one row per folder of that tenant whose path is a
    prefix of the folder's path, the folder itself included; the depth of a
    row is the number of labels of its own path; the rows come root first:
    every row's path is a prefix of the path of every later row. *)
Theorem listAncestors_exact (req : Request) (db : Db) (f : Folder.t) :
  folder_ids_unique db ->
  passes None req db ->
  f ∈ folders db ->
  Folder.id f = Params.folderId (params req) ->
  Folder.tenantId f = Params.tenantId (params req) ->
  exists l,
    listAncestors req db
    = (mkResponse 200 None None
         (Folders ((fun g => FolderWithPath.mk (Folder.id g) (Folder.name g)
                               (Ltree.ltree_out (Folder.path g))
                               (Z.of_nat (Ltree.nlevel (Folder.path g)))) <$> l)),
       db)
    /\ l ≡ₚ filter (fun g => Ltree.labels (Folder.path g) `prefix_of` Ltree.labels (Folder.path f)
                             /\ Folder.tenantId g = Folder.tenantId f) (folders db)
    /\ f ∈ l
    /\ StronglySorted
         (fun a b => Ltree.labels (Folder.path a) `prefix_of` Ltree.labels (Folder.path b)) l.
Proof.
  intros Hu Hp Hf Hid Ht.
  set (keep := fun g => Folder.path g @> Folder.path f
                        /\ Folder.tenantId g = Folder.tenantId f).
  exists (merge_sort by_nlevel (filter keep (folders db))).
  split; [by apply listAncestors_run|].
  split; [apply merge_sort_Permutation|]. split.
  - rewrite (merge_sort_Permutation by_nlevel). apply list_elem_of_filter.
    split; [|done]. split; [|done]. unfold Ltree.isparent. done.
  - apply (StronglySorted_refine by_nlevel _ keep).
    + intros x y [Hx _] [Hy _] Hxy. unfold by_nlevel, Ltree.nlevel in Hxy.
      by apply (prefix_of_common _ _ (Ltree.labels (Folder.path f))).
    + rewrite (merge_sort_Permutation by_nlevel). apply Forall_forall.
      by intros g [Hg _]%list_elem_of_filter.
    + apply (StronglySorted_merge_sort by_nlevel).
Qed.

Lemma listAncestors_exact_witness :
  let req := Scenario.request "alice" Scenario.acme Scenario.q3 Scenario.no_body in
  let leaf := Folder.mk Scenario.q3 "Q3" (Some Scenario.reports) Scenario.acme
                Scenario.q3_path in
  FolderWithPath.id <$> rows (listAncestors req Scenario.store).1
  = [Scenario.acme_root; Scenario.reports; Scenario.q3]
  /\ exists l,
       listAncestors req Scenario.store
       = (mkResponse 200 None None
            (Folders ((fun g => FolderWithPath.mk (Folder.id g) (Folder.name g)
                                  (Ltree.ltree_out (Folder.path g))
                                  (Z.of_nat (Ltree.nlevel (Folder.path g)))) <$> l)),
          Scenario.store)
       /\ l ≡ₚ filter (fun g => Ltree.labels (Folder.path g)
                                  `prefix_of` Ltree.labels (Folder.path leaf)
                                /\ Folder.tenantId g = Folder.tenantId leaf)
                      (folders Scenario.store)
       /\ leaf ∈ l
       /\ StronglySorted
            (fun a b => Ltree.labels (Folder.path a) `prefix_of` Ltree.labels (Folder.path b))
            l.
Proof.
  intros req leaf. split; [vm_compute; reflexivity|].
  apply (listAncestors_exact req Scenario.store leaf).
  - apply (bool_decide_unpack _). vm_compute. exact I.
  - eexists. vm_compute. reflexivity.
  - apply (bool_decide_unpack _). vm_compute. exact I.
  - reflexivity.
  - reflexivity.
Defined.

(** ** Files that have versions *)

(** X6. A file with a version anywhere in the subtree stops the delete route:
    the first statement of the transaction violates
    [FileVersion_fileId_fkey], the route answers 500 and nothing is
    written. *)
Theorem deleteSubtree_blocked_by_versions
  (req : Request) (db : Db) (f g : Folder.t) (fl : File.t) (v : FileVersion.t) :
  folder_ids_unique db ->
  passes (Some TENANT_ADMIN) req db ->
  f ∈ folders db ->
  Folder.id f = Params.folderId (params req) ->
  Folder.tenantId f = Params.tenantId (params req) ->
  is_Some (Folder.parentId f) ->
  g ∈ folders db ->
  Folder.path g <@ Folder.path f ->
  Folder.tenantId g = Folder.tenantId f ->
  fl ∈ files db -> File.folderId fl = Folder.id g ->
  v ∈ fileVersions db -> FileVersion.fileId v = File.id fl ->
  deleteSubtree req db
  = (mkResponse 500 (Some "Failed to delete folder.") None
       (ErrorMessage (ForeignKeyConstraint "FileVersion_fileId_fkey")),
     db).
Proof.
  intros Hu Hp Hf Hid Ht [p Hpar] Hg Hsub Hgt Hfl Hflg Hv Hvf.
  apply passes_next in Hp as (req' & Hmw & Hpr & _).
  unfold deleteSubtree, route. rewrite Hmw.
  unfold try_catch. rewrite deleteSubtree_body_run, Hpr.
  destruct (filter _ _) as [|f0 rest] eqn:Hfil.
  { by destruct (folder_of_tenant_found db f _ _ Hf Hid Ht). }
  assert (f0 = f) as -> by (eapply folder_of_tenant_unique; eauto).
  rewrite Hpar.
  assert (delete_files_of_subtree (Ltree.ltree_out (Folder.path f))
            (Params.tenantId (params req)) db
          = (db, inl (ForeignKeyConstraint "FileVersion_fileId_fkey"))) as Hfiles.
  { unfold delete_files_of_subtree.
    rewrite (bind_run _ _ _ _ _ (cast_ltree_out (Folder.path f) db)).
    unfold delete_files_under.
    assert (any (fun v0 => FileVersion.fileId v0 ∈
                   File.id <$> filter (fun fl0 => File.folderId fl0 ∈
                     Folder.id <$> filter (in_subtree (Folder.path f)
                                             (Params.tenantId (params req))) (folders db))
                                      (files db)) (fileVersions db) = true) as Hany.
    { apply any_true. exists v. split; [done|]. rewrite Hvf.
      apply list_elem_of_fmap_2, list_elem_of_filter. split; [|done].
      rewrite Hflg. apply list_elem_of_fmap_2, list_elem_of_filter. split; [|done].
      split; [done|]. congruence. }
    by rewrite Hany. }
  unfold transaction, mbind, Prisma_bind. by rewrite Hfiles.
Qed.

Lemma deleteSubtree_blocked_by_versions_witness :
  deleteSubtree (Scenario.request "carol" Scenario.acme Scenario.archive Scenario.no_body)
    Scenario.store
  = (mkResponse 500 (Some "Failed to delete folder.") None
       (ErrorMessage (ForeignKeyConstraint "FileVersion_fileId_fkey")),
     Scenario.store).
Proof.
  apply (deleteSubtree_blocked_by_versions _ Scenario.store
           (Folder.mk Scenario.archive "Archive" (Some Scenario.acme_root) Scenario.acme
              Scenario.archive_path)
           (Folder.mk Scenario.archive "Archive" (Some Scenario.acme_root) Scenario.acme
              Scenario.archive_path)
           (File.mk "file-2" "old.pdf" Scenario.archive Scenario.acme)
           (FileVersion.mk "version-1" "file-2")).
  - apply (bool_decide_unpack _). vm_compute. exact I.
  - eexists. vm_compute. reflexivity.
  - apply (bool_decide_unpack _). vm_compute. exact I.
  - reflexivity.
  - reflexivity.
  - by eexists.
  - apply (bool_decide_unpack _). vm_compute. exact I.
  - apply (bool_decide_unpack _). vm_compute. exact I.
  - reflexivity.
  - apply (bool_decide_unpack _). vm_compute. exact I.
  - reflexivity.
  - apply (bool_decide_unpack _). vm_compute. exact I.
  - reflexivity.
Defined.

(** ** Creating, then asking again *)

Lemma passes_members requiredRole req db db' :
  tenantMembers db' = tenantMembers db -> passes requiredRole req db ->
  passes requiredRole req db'.
Proof.
  unfold passes, requireTenantAccess. intros Hm [req' H].
  destruct (user req) as [u|]; [|discriminate].
  case_decide; [discriminate|].
  unfold mbind, Prisma_bind, query in *. rewrite Hm.
  destruct (findFirst _ _) as [m|]; [|discriminate].
  destruct (insufficient requiredRole _); [discriminate|].
  simpl in *. injection H as <-. by eexists.
Qed.

(** What an answer 201 of the create route tells: the checks that were
    passed and the one row that was stored. *)
Lemma createSubfolder_created newFolderId req db :
  status (createSubfolder newFolderId req db).1 = 201 ->
  exists tenantId parentId trimmedName parent path,
    passes None req db
    /\ Body.tenantId (body req) = Some tenantId
    /\ Body.parentId (body req) = Some parentId
    /\ parentId <> ""
    /\ valid_name (Body.name (body req)) = Some trimmedName
    /\ parent ∈ folders db
    /\ Folder.id parent = parentId
    /\ Folder.tenantId parent = tenantId
    /\ Ltree.labels path
       = (Ltree.labels (Folder.path parent)
          ++ Ltree.split_dot (replace_hyphens newFolderId))%list
    /\ (forall g, g ∈ folders db -> Folder.id g <> newFolderId)
    /\ (createSubfolder newFolderId req db).2
       = set_folders
           (folders db ++ [Folder.mk newFolderId trimmedName (Some parentId) tenantId path])
           db.
Proof.
  intros Hs. destruct (createSubfolder newFolderId req db) as [resp db'] eqn:Hrun.
  simpl in Hs. pose proof Hrun as Hinv.
  apply createSubfolder_inv in Hinv
    as [[Hne _]|(_ & Hp & tenantId & parentId & trimmedName & parent & rest & path
                 & Ht & Hpid & Hn & Hfil & Hpath & Hins)]; [done|].
  exists tenantId, parentId, trimmedName, parent, path.
  assert (parent ∈ filter (fun f => Folder.id f = parentId
                                    /\ Some (Folder.tenantId f) = Body.tenantId (body req))
                          (folders db)) as [[Hid Hpt] Hin]%list_elem_of_filter
    by (rewrite Hfil; left).
  apply ltree_in_child_inv in Hpath as [_ Hlab].
  apply insert_folder_inr in Hins as (-> & Hfresh & _ & _).
  assert (parentId <> "") as Hnonempty.
  { intros ->. pose proof Hp as Hp2. apply passes_next in Hp2 as (req' & Hmw & Hpr & Hbd).
    unfold createSubfolder, route in Hrun. rewrite Hmw in Hrun.
    unfold try_catch, createSubfolder_body, createSubfolder_check in Hrun.
    rewrite Hbd, Hn, Hpid in Hrun. simpl in Hrun. injection Hrun as <- _. discriminate. }
  rewrite Ht in Hpt. injection Hpt as Hpt.
  repeat split; done.
Qed.

Lemma valid_name_trim n trimmedName : valid_name (Some n) = Some trimmedName -> trimmedName = trim n.
Proof.
  unfold valid_name. repeat case_match; try done. by intros [= <-].
Qed.

(** X7. A create request with a name of plain characters that was answered
    201, sent a second time, is answered 409 by the duplicate pre-check,
    with the trimmed name in the message, and writes nothing, whatever
    identifier the second run would have drawn. *)
Theorem createSubfolder_twice
  (newFolderId again : string) (req : Request) (db : Db) (n : string) :
  Body.name (body req) = Some n ->
  plain_text n = true ->
  status (createSubfolder newFolderId req db).1 = 201 ->
  let db' := (createSubfolder newFolderId req db).2 in
  createSubfolder again req db' = (duplicate_name (trim n), db').
Proof.
  intros Hname _ Hs.
  destruct (createSubfolder_created _ _ _ Hs)
    as (tenantId & parentId & trimmedName & parent & path & Hp & Ht & Hpid & Hne & Hn
        & Hpar & Hid & Hpt & _ & _ & Hdb).
  cbv zeta. rewrite Hdb.
  assert (trimmedName = trim n) as Htrim by (apply valid_name_trim; by rewrite <- Hname).
  set (new := Folder.mk newFolderId trimmedName (Some parentId) tenantId path).
  set (db' := set_folders (folders db ++ [new]) db).
  assert (passes None req db') as Hp' by (by apply (passes_members _ _ db)).
  apply passes_next in Hp' as (req' & Hmw & Hpr & Hbd).
  unfold createSubfolder, route. rewrite Hmw.
  unfold try_catch, createSubfolder_body, createSubfolder_check.
  rewrite Hbd, Hn, Hpid. case_decide; [done|].
  unfold mbind, Prisma_bind, query.
  change (folders db') with (folders db ++ [new])%list. rewrite filter_app.
  destruct (filter _ (folders db)) as [|p0 rest] eqn:Hfil.
  { assert (parent ∈ filter (fun f => Folder.id f = parentId
                                      /\ Some (Folder.tenantId f) = Body.tenantId (body req))
                             (folders db)) as Hin.
    { apply list_elem_of_filter. split; [|done]. split; [done|]. by rewrite Ht, Hpt. }
    rewrite Hfil in Hin. by apply not_elem_of_nil in Hin. }
  rewrite <- app_comm_cons. cbv beta iota.
  destruct (findFirst _ _) as [g|] eqn:Hdup; [by rewrite Htrim|].
  exfalso. rewrite findFirst_None in Hdup. apply (Hdup new).
  - apply elem_of_app. right. left.
  - simpl. by rewrite Ht.
Qed.

Lemma createSubfolder_twice_witness :
  let req := Scenario.request "alice" Scenario.acme ""
               (Body.mk (Some Scenario.acme) (Some " Minutes ") (Some Scenario.reports)) in
  let db' := (createSubfolder Scenario.fresh req Scenario.store).2 in
  createSubfolder Scenario.gamma req db' = (duplicate_name "Minutes", db').
Proof.
  intros req.
  apply (createSubfolder_twice Scenario.fresh Scenario.gamma req Scenario.store " Minutes ").
  - reflexivity.
  - vm_compute. reflexivity.
  - vm_compute. reflexivity.
Defined.

(** X8. When the create route answers 201 to a request with a name of plain
    characters, the folder it stored appears among the descendants of the
    parent named in the request, one level below it, and listing them leaves
    the database as the create route left it. *)
Theorem created_folder_is_listed
  (newFolderId : string) (req reqL : Request) (db : Db) (n parentId : string) :
  folder_ids_unique db ->
  is_uuid newFolderId = true ->
  Body.name (body req) = Some n ->
  plain_text n = true ->
  Body.parentId (body req) = Some parentId ->
  status (createSubfolder newFolderId req db).1 = 201 ->
  passes None reqL db ->
  Params.folderId (params reqL) = parentId ->
  Some (Params.tenantId (params reqL)) = Body.tenantId (body req) ->
  let db' := (createSubfolder newFolderId req db).2 in
  listed newFolderId (listDescendants reqL db').1
  /\ depth_of newFolderId (listDescendants reqL db').1 = Some 1%Z
  /\ (listDescendants reqL db').2 = db'.
Proof.
  intros Hu Huuid _ _ Hpid0 Hs HpL HidL HtL.
  destruct (createSubfolder_created _ _ _ Hs)
    as (tenantId & parentId' & trimmedName & parent & path & Hp & Ht & Hpid & Hne & Hn
        & Hpar & Hid & Hpt & Hpath & Hfresh & Hdb).
  assert (parentId' = parentId) as -> by congruence.
  rewrite (split_dotless (replace_hyphens newFolderId)) in Hpath
    by (apply label_ok_dotless; by apply uuid_label_ok).
  cbv zeta. rewrite Hdb.
  set (new := Folder.mk newFolderId trimmedName (Some parentId) tenantId path).
  set (db' := set_folders (folders db ++ [new]) db).
  assert (folder_ids_unique db') as Hu'.
  { unfold folder_ids_unique. simpl. rewrite fmap_app. apply NoDup_app.
    split; [done|]. split; [|apply NoDup_singleton].
    intros x Hx Hin. apply list_elem_of_fmap in Hx as (g & -> & Hg).
    apply list_elem_of_singleton in Hin. by apply (Hfresh g Hg). }
  assert (parent ∈ folders db') as Hpar' by (apply elem_of_app; by left).
  assert (new ∈ folders db') as Hnew by (apply elem_of_app; right; left).
  rewrite (listDescendants_run reqL db' parent); try done;
    [|by apply (passes_members _ _ db)|congruence|congruence].
  set (kept := merge_sort by_path _).
  assert (new ∈ kept) as Hkept.
  { unfold kept. rewrite (merge_sort_Permutation by_path).
    apply list_elem_of_filter. split; [|done]. split.
    - split; [|done]. unfold Ltree.risparent, Ltree.isparent. simpl. rewrite Hpath.
      by apply prefix_app_r.
    - simpl. intros Heq. by apply (Hfresh parent Hpar). }
  assert (NoDup (Folder.id <$> kept)) as Hnd.
  { unfold kept. rewrite (merge_sort_Permutation by_path).
    by apply (NoDup_fmap_filter Folder.id). }
  simpl. split; [|split; [|done]].
  - unfold listed, rows. simpl. rewrite <- list_fmap_compose.
    by apply (list_elem_of_fmap_2 (FolderWithPath.id ∘ descendant_row (Folder.path parent))
                kept new).
  - unfold depth_of, rows. simpl.
    assert (findFirst (fun r => FolderWithPath.id r = newFolderId)
              (descendant_row (Folder.path parent) <$> kept)
            = Some (descendant_row (Folder.path parent) new)) as ->.
    { by apply (findFirst_fmap_unique Folder.id (descendant_row (Folder.path parent))
                  FolderWithPath.id kept new). }
    simpl. f_equal. unfold Ltree.nlevel. rewrite Hpath, length_app. simpl. lia.
Qed.

Lemma created_folder_is_listed_witness :
  let req := Scenario.request "alice" Scenario.acme ""
               (Body.mk (Some Scenario.acme) (Some "Minutes") (Some Scenario.reports)) in
  let reqL := Scenario.request "carol" Scenario.acme Scenario.reports Scenario.no_body in
  let db' := (createSubfolder Scenario.fresh req Scenario.store).2 in
  listed Scenario.fresh (listDescendants reqL db').1
  /\ depth_of Scenario.fresh (listDescendants reqL db').1 = Some 1%Z
  /\ (listDescendants reqL db').2 = db'.
Proof.
  intros req reqL.
  apply (created_folder_is_listed Scenario.fresh req reqL Scenario.store
           "Minutes" Scenario.reports).
  - apply (bool_decide_unpack _). vm_compute. exact I.
  - vm_compute. reflexivity.
  - reflexivity.
  - vm_compute. reflexivity.
  - reflexivity.
  - vm_compute. reflexivity.
  - eexists. vm_compute. reflexivity.
  - reflexivity.
  - reflexivity.
Defined.

(** ** Names *)

(** X9. Renaming a folder to the name it already has is not a conflict with
    itself: under the unique index on (parent, name, tenant) the route
    answers 200 with the folder and the database is left as it was. *)
Theorem renameFolder_to_current_name (req : Request) (db : Db) (f : Folder.t) :
  folder_ids_unique db ->
  sibling_names_unique db ->
  passes None req db ->
  f ∈ folders db ->
  Folder.id f = Params.folderId (params req) ->
  Folder.tenantId f = Params.tenantId (params req) ->
  valid_name (Body.name (body req)) = Some (Folder.name f) ->
  renameFolder req db
  = (mkResponse 200 (Some "Folder renamed successfully.") None
       (FolderRecord (Some (select_folder f))),
     db).
Proof.
  intros Hu Hs Hp Hf Hid Ht Hn.
  rewrite (renameFolder_succeeds req db f (Folder.name f)); try done.
  - assert (set_name (Folder.name f) f = f) as Hsame by (by destruct f).
    rewrite Hsame. f_equal. destruct db as [fs fl fv ts ms]. unfold set_folders. simpl.
    f_equal. rewrite <- (list_fmap_id fs) at 2. apply list_fmap_ext.
    intros i g Hg. case_decide as Heq; [|done].
    apply list_elem_of_lookup_2 in Hg.
    assert (g = f) as -> by (by apply (NoDup_fmap_elem Folder.id fs)). done.
  - intros g Hg Hne (Hpar & Hname & Hgp & Hgt). apply Hne. symmetry.
    apply (Hs f g Hf Hg). by split.
Qed.

Lemma renameFolder_to_current_name_witness :
  renameFolder
    (Scenario.request "alice" Scenario.acme Scenario.q3 (Body.mk None (Some " Q3 ") None))
    Scenario.store
  = (mkResponse 200 (Some "Folder renamed successfully.") None
       (FolderRecord (Some (FolderSelect.mk Scenario.q3 "Q3" (Some Scenario.reports)
                              Scenario.acme))),
     Scenario.store).
Proof.
  apply (renameFolder_to_current_name _ Scenario.store
           (Folder.mk Scenario.q3 "Q3" (Some Scenario.reports) Scenario.acme
              Scenario.q3_path)).
  - apply (bool_decide_unpack _). vm_compute. exact I.
  - intros g h Hg Hh. revert h Hh.
    apply (forall_elem_decide (fun h => same_slot g h -> Folder.id g = Folder.id h)
             (folders Scenario.store)).
    revert g Hg.
    apply (forall_elem_decide
             (fun g => bool_decide
                         (Forall (fun h => same_slot g h -> Folder.id g = Folder.id h)
                                 (folders Scenario.store)) = true)
             (folders Scenario.store)).
    vm_compute. reflexivity.
  - eexists. vm_compute. reflexivity.
  - apply (bool_decide_unpack _). vm_compute. exact I.
  - reflexivity.
  - reflexivity.
  - vm_compute. reflexivity.
Defined.

(** X10. A request whose name is absent, not a string, empty, or made only of
    the ASCII white space characters TAB, LF, VT, FF, CR and SPACE is
    answered 400 by the create route and by the rename route, before either
    looks at a folder; nothing is written. *)
Theorem blank_name_is_refused (newFolderId : string) (req : Request) (db : Db) :
  passes None req db ->
  (forall n, Body.name (body req) = Some n -> ascii_blank n = true) ->
  createSubfolder newFolderId req db = (name_required, db)
  /\ renameFolder req db = (name_required, db).
Proof.
  intros Hp Hblank. apply passes_next in Hp as (req' & Hmw & Hpr & Hbd).
  assert (valid_name (Body.name (body req')) = None) as Hn.
  { rewrite Hbd. unfold valid_name. destruct (Body.name (body req)) as [n|]; [|done].
    case_decide; [done|]. rewrite (ascii_blank_trim n (Hblank n eq_refl)). by case_decide. }
  split.
  - unfold createSubfolder, route. rewrite Hmw.
    unfold try_catch, createSubfolder_body, createSubfolder_check. by rewrite Hn.
  - unfold renameFolder, route. rewrite Hmw.
    unfold try_catch, renameFolder_body. by rewrite Hn.
Qed.

Lemma blank_name_is_refused_witness :
  let req := Scenario.request "alice" Scenario.acme Scenario.q3
               (Body.mk (Some Scenario.acme) (Some "   ") (Some Scenario.reports)) in
  createSubfolder Scenario.fresh req Scenario.store = (name_required, Scenario.store)
  /\ renameFolder req Scenario.store = (name_required, Scenario.store).
Proof.
  intros req. apply (blank_name_is_refused Scenario.fresh req Scenario.store).
  - eexists. vm_compute. reflexivity.
  - intros n [= <-]. vm_compute. reflexivity.
Defined.

Lemma trim_end_idem s : trim_end (trim_end s) = trim_end s.
Proof.
  induction s as [|c s IH]; [done|]. cbn [trim_end].
  destruct (trim_end s) as [|d r] eqn:E.
  - destruct (is_space c) eqn:Hc; [done|]. cbn [trim_end]. by rewrite Hc.
  - cbn [trim_end] in *. by rewrite IH.
Qed.

Lemma trim_start_head s :
  trim_start s = "" \/ exists c s', trim_start s = String c s' /\ is_space c = false.
Proof.
  induction s as [|c s IH]; [by left|]. cbn [trim_start].
  destruct (is_space c) eqn:Hc; [done|]. right. by exists c, s.
Qed.

Lemma trim_end_head c s :
  is_space c = false -> exists r, trim_end (String c s) = String c r.
Proof.
  intros Hc. cbn [trim_end]. destruct (trim_end s); rewrite ?Hc; by eexists.
Qed.

Lemma trim_idem s : trim (trim s) = trim s.
Proof.
  unfold trim. destruct (trim_start_head s) as [->|(c & s' & -> & Hc)]; [done|].
  destruct (trim_end_head c s' Hc) as [r Hr]. rewrite Hr.
  cbn [trim_start]. rewrite Hc, <- Hr. apply trim_end_idem.
Qed.

Lemma valid_name_trimmed name n : valid_name name = Some n -> n <> "" /\ trim n = n.
Proof.
  unfold valid_name. destruct name as [x|]; [|done].
  case_decide; [done|]. case_decide; [done|]. intros [= <-]. split; [done|apply trim_idem].
Qed.

Lemma folder_update_name_inr folderId name db db' g :
  folder_update_name folderId name db = (db', inr g) ->
  exists f,
    findFirst (fun x => Folder.id x = folderId) (folders db) = Some f
    /\ (forall h, h ∈ folders db -> Folder.id h <> folderId -> ~ same_slot (set_name name f) h)
    /\ db' = set_folders
               ((fun x => if decide (Folder.id x = folderId) then set_name name x else x)
                  <$> folders db) db.
Proof.
  unfold folder_update_name. destruct (findFirst _ _) as [f|]; [|discriminate].
  destruct (any _ _) eqn:E; [discriminate|]. intros [= <- _].
  exists f. split; [done|]. split; [|done].
  rewrite any_false in E. intros h Hh Hne Hslot. by apply (E h Hh).
Qed.

Lemma renameFolder_body_inv req db db' r :
  renameFolder_body req db = (db', r) ->
  db' = db
  \/ exists name f,
       valid_name (Body.name (body req)) = Some name
       /\ findFirst (fun x => Folder.id x = Params.folderId (params req)) (folders db) = Some f
       /\ (forall h, h ∈ folders db -> Folder.id h <> Params.folderId (params req) ->
             ~ same_slot (set_name name f) h)
       /\ db' = set_folders
                  ((fun x => if decide (Folder.id x = Params.folderId (params req))
                             then set_name name x else x) <$> folders db) db.
Proof.
  unfold renameFolder_body.
  destruct (valid_name _) as [trimmedName|] eqn:Hn; [|intros [= <- _]; by left].
  unfold mbind at 1, Prisma_bind at 1, query at 1.
  destruct (findFirst _ _) as [folder|]; [|intros [= <- _]; by left].
  unfold mbind at 1, Prisma_bind at 1.
  assert (exists duplicate,
            match truthy (Folder.parentId folder) with
            | Some parentId =>
                query (fun db0 =>
                  findFirst (fun f => Folder.name f = trimmedName
                                      /\ Folder.parentId f = Some parentId
                                      /\ Folder.tenantId f = Params.tenantId (params req)
                                      /\ Folder.id f <> Params.folderId (params req))
                            (folders db0))
            | None => mret None
            end db = (db, inr duplicate)) as [duplicate ->].
  { destruct (truthy _); by eexists. }
  destruct duplicate; [intros [= <- _]; by left|].
  unfold mbind, Prisma_bind.
  destruct (folder_update_name _ _ db) as [db1 [e|g]] eqn:Hw; intros [= <- _].
  - left. unfold folder_update_name in Hw. destruct (findFirst _ _); [|congruence].
    destruct (any _ _); [congruence|discriminate].
  - apply folder_update_name_inr in Hw as (f & Hf & Hfree & ->). right.
    by exists trimmedName, f.
Qed.

(** What the rename route can have written. *)
Lemma renameFolder_inv req db :
  (renameFolder req db).2 = db
  \/ exists name f,
       valid_name (Body.name (body req)) = Some name
       /\ findFirst (fun x => Folder.id x = Params.folderId (params req)) (folders db) = Some f
       /\ (forall h, h ∈ folders db -> Folder.id h <> Params.folderId (params req) ->
             ~ same_slot (set_name name f) h)
       /\ (renameFolder req db).2
          = set_folders
              ((fun x => if decide (Folder.id x = Params.folderId (params req))
                         then set_name name x else x) <$> folders db) db.
Proof.
  unfold renameFolder, route.
  destruct (requireTenantAccess None req db) as [db1 r] eqn:E.
  apply requireTenantAccess_inv in E as H.
  destruct H as (-> & [(d & -> & Hd)|(req' & u & m & -> & Hp & Hb & _)]); [by left|].
  unfold try_catch.
  destruct (renameFolder_body req' db) as [db1 [e|resp]] eqn:Hr;
    apply renameFolder_body_inv in Hr; rewrite Hp, Hb in Hr; simpl; done.
Qed.

(** X11. The folder routes and the provisioning of a tenant never store an empty
    folder name or one with white space at either end. *)
Theorem routes_keep_names_trimmed (db : Db) :
  names_trimmed db ->
  (forall newFolderId req, names_trimmed (createSubfolder newFolderId req db).2)
  /\ (forall req, names_trimmed (renameFolder req db).2)
  /\ (forall req, names_trimmed (deleteSubtree req db).2)
  /\ (forall newTenantId newRootId req,
        names_trimmed (createTenant newTenantId newRootId req db).2).
Proof.
  intros Hc. split; [|split; [|split]].
  - intros newFolderId req.
    destruct (createSubfolder newFolderId req db) as [resp db'] eqn:E. simpl.
    apply createSubfolder_inv in E as [[_ ->]|(_ & _ & H)]; [done|].
    destruct H as (t & pid & n & parent & rest & path & _ & _ & Hn & _ & _ & Hins).
    apply insert_folder_inr in Hins as (-> & _). unfold names_trimmed. simpl.
    apply Forall_app. split; [done|]. apply Forall_singleton. simpl.
    by apply (valid_name_trimmed (Body.name (body req))).
  - intros req. destruct (renameFolder_inv req db) as [->|(n & f & Hn & _ & _ & ->)]; [done|].
    unfold names_trimmed. simpl. apply Forall_fmap.
    eapply Forall_impl; [exact Hc|]. intros g Hg. simpl.
    case_decide; [|done]. simpl. by apply (valid_name_trimmed (Body.name (body req))).
  - intros req. destruct (deleteSubtree req db) as [resp db'] eqn:E. simpl.
    apply deleteSubtree_inv in E as [[_ ->]|(_ & _ & H)]; [done|].
    destruct H as (f & rest & parentId & k & db1 & n & _ & _ & Hfiles & Hfolders & _).
    apply delete_files_under_inr in Hfiles as ->.
    apply delete_folders_under_inr in Hfolders as (_ & Hfolders & _).
    unfold names_trimmed in *. rewrite Hfolders. simpl.
    apply Forall_fmap, Forall_forall. intros g [_ Hg]%list_elem_of_filter.
    rewrite Forall_forall in Hc. unfold compose. simpl. by apply Hc.
  - intros newTenantId newRootId req.
    destruct (createTenant newTenantId newRootId req db) as [resp db'] eqn:E. simpl.
    apply createTenant_inv in E as [[_ ->]|(_ & u & n & result & _ & _ & H)]; [done|].
    apply provision_inr in H as (path & _ & _ & _ & ->).
    unfold names_trimmed. simpl. apply Forall_app. split; [done|].
    apply Forall_singleton. simpl. split; [done|]. vm_compute. reflexivity.
Qed.

Lemma routes_keep_names_trimmed_witness :
  (forall newFolderId req, names_trimmed (createSubfolder newFolderId req Scenario.store).2)
  /\ (forall req, names_trimmed (renameFolder req Scenario.store).2)
  /\ (forall req, names_trimmed (deleteSubtree req Scenario.store).2)
  /\ (forall newTenantId newRootId req,
        names_trimmed (createTenant newTenantId newRootId req Scenario.store).2).
Proof.
  apply (routes_keep_names_trimmed Scenario.store).
  apply (bool_decide_unpack _). vm_compute. exact I.
Defined.

Lemma same_slot_sym f g : same_slot f g -> same_slot g f.
Proof.
  unfold same_slot. intros (Hsome & Hp & Hn & Ht). rewrite Hp. by repeat split.
Qed.

Lemma null_if_deleted_Some ids ref p : null_if_deleted ids ref = Some p -> ref = Some p.
Proof.
  unfold null_if_deleted. destruct ref as [r|]; [|done]. by case_decide.
Qed.

Lemma same_slot_orphan ids g h : same_slot (orphan ids g) (orphan ids h) -> same_slot g h.
Proof.
  unfold same_slot, orphan. simpl. intros ([p Hp] & Hh & Hn & Ht).
  rewrite Hp in Hh. apply null_if_deleted_Some in Hp, Hh.
  rewrite Hp, Hh. by repeat split.
Qed.

Lemma sibling_names_unique_app db f :
  sibling_names_unique db ->
  (forall g, g ∈ folders db -> ~ same_slot f g) ->
  sibling_names_unique (set_folders (folders db ++ [f]) db).
Proof.
  intros Hs Hfree g h Hg Hh Hslot. simpl in Hg, Hh.
  apply elem_of_app in Hg as [Hg|Hg%list_elem_of_singleton];
    apply elem_of_app in Hh as [Hh|Hh%list_elem_of_singleton]; subst.
  - by apply Hs.
  - destruct (Hfree g Hg). by apply same_slot_sym.
  - by destruct (Hfree h Hh).
  - done.
Qed.

(** X12. The unique index on (parent, name, tenant) holds after every folder
    route and after the provisioning of a tenant: no request leaves two
    folders of one tenant with the same parent and the same name. *)
Theorem routes_keep_sibling_names_unique (db : Db) :
  folder_ids_unique db ->
  sibling_names_unique db ->
  (forall newFolderId req, sibling_names_unique (createSubfolder newFolderId req db).2)
  /\ (forall req, sibling_names_unique (renameFolder req db).2)
  /\ (forall req, sibling_names_unique (deleteSubtree req db).2)
  /\ (forall newTenantId newRootId req,
        sibling_names_unique (createTenant newTenantId newRootId req db).2).
Proof.
  intros Hu Hs. split; [|split; [|split]].
  - intros newFolderId req.
    destruct (createSubfolder newFolderId req db) as [resp db'] eqn:E. simpl.
    apply createSubfolder_inv in E as [[_ ->]|(_ & _ & H)]; [done|].
    destruct H as (t & pid & n & parent & rest & path & _ & _ & _ & _ & _ & Hins).
    apply insert_folder_inr in Hins as (-> & _ & Hfree & _).
    by apply sibling_names_unique_app.
  - intros req.
    destruct (renameFolder_inv req db) as [->|(n & f & _ & Hf & Hfree & ->)]; [done|].
    apply findFirst_Some in Hf as [Hf Hid].
    assert (forall g, g ∈ folders db -> Folder.id g = Params.folderId (params req) -> g = f)
      as Hthe.
    { intros g Hg Hgid. apply (NoDup_fmap_elem Folder.id (folders db)); try done.
      congruence. }
    intros g' h' Hg' Hh' Hslot. simpl in Hg', Hh'.
    apply list_elem_of_fmap in Hg' as (g & -> & Hg).
    apply list_elem_of_fmap in Hh' as (h & -> & Hh).
    destruct (decide (Folder.id g = _)) as [Hgid|Hgid];
      destruct (decide (Folder.id h = _)) as [Hhid|Hhid]; simpl.
    + congruence.
    + rewrite (Hthe g Hg Hgid) in Hslot. by destruct (Hfree h Hh Hhid).
    + rewrite (Hthe h Hh Hhid) in Hslot. destruct (Hfree g Hg Hgid).
      by apply same_slot_sym.
    + by apply Hs.
  - intros req. destruct (deleteSubtree req db) as [resp db'] eqn:E. simpl.
    apply deleteSubtree_inv in E as [[_ ->]|(_ & _ & H)]; [done|].
    destruct H as (f & rest & parentId & k & db1 & n & _ & _ & Hfiles & Hfolders & _).
    apply delete_files_under_inr in Hfiles as ->.
    apply delete_folders_under_inr in Hfolders as (_ & Hfolders & _).
    intros g' h' Hg' Hh' Hslot. rewrite Hfolders in Hg', Hh'. simpl in Hg', Hh'.
    apply list_elem_of_fmap in Hg' as (g & -> & [_ Hg]%list_elem_of_filter).
    apply list_elem_of_fmap in Hh' as (h & -> & [_ Hh]%list_elem_of_filter).
    apply same_slot_orphan in Hslot. rewrite !orphan_id. by apply Hs.
  - intros newTenantId newRootId req.
    destruct (createTenant newTenantId newRootId req db) as [resp db'] eqn:E. simpl.
    apply createTenant_inv in E as [[_ ->]|(_ & u & n & result & _ & _ & H)]; [done|].
    apply provision_inr in H as (path & _ & _ & _ & ->).
    apply (sibling_names_unique_app db (Folder.mk newRootId "root" None newTenantId path) Hs).
    intros g _ ([p Hp] & _). discriminate.
Qed.

Lemma routes_keep_sibling_names_unique_witness :
  (forall newFolderId req,
     sibling_names_unique (createSubfolder newFolderId req Scenario.store).2)
  /\ (forall req, sibling_names_unique (renameFolder req Scenario.store).2)
  /\ (forall req, sibling_names_unique (deleteSubtree req Scenario.store).2)
  /\ (forall newTenantId newRootId req,
        sibling_names_unique (createTenant newTenantId newRootId req Scenario.store).2).
Proof.
  apply (routes_keep_sibling_names_unique Scenario.store).
  - apply (bool_decide_unpack _). vm_compute. exact I.
  - intros g h Hg Hh. revert h Hh.
    apply (forall_elem_decide (fun h => same_slot g h -> Folder.id g = Folder.id h)
             (folders Scenario.store)).
    revert g Hg.
    apply (forall_elem_decide
             (fun g => bool_decide
                         (Forall (fun h => same_slot g h -> Folder.id g = Folder.id h)
                                 (folders Scenario.store)) = true)
             (folders Scenario.store)).
    vm_compute. reflexivity.
Defined.

(** ** Joining a tenant *)

Lemma tenantMember_create_ok userId tenantId role db :
  (forall m, m ∈ tenantMembers db -> ~ is_membership userId tenantId m) ->
  (exists t, t ∈ tenants db /\ Tenant.id t = tenantId) ->
  tenantMember_create userId tenantId role db
  = (set_tenantMembers (tenantMembers db ++ [TenantMember.mk userId tenantId role]) db,
     inr tt).
Proof.
  intros Hno Ht. unfold tenantMember_create.
  assert (any (fun m => TenantMember.userId m = userId /\ TenantMember.tenantId m = tenantId)
              (tenantMembers db) = false) as -> by (by apply any_false).
  assert (any (fun t => Tenant.id t = tenantId) (tenants db) = true) as ->
    by (by apply any_true).
  reflexivity.
Qed.

Lemma joinTenant_run req db u t :
  user req = Some u ->
  t ∈ tenants db -> Tenant.id t = Params.tenantId (params req) ->
  (forall m, m ∈ tenantMembers db ->
     ~ is_membership (User.id u) (Params.tenantId (params req)) m) ->
  exists t0,
    joinTenant req db
    = (mkReply 201
         (Some ("Successfully joined tenant " ++ dquote ++ Tenant.name t0 ++ dquote ++ "."))
         None
         (MembershipWithTenant
            (TenantMember.mk (User.id u) (Params.tenantId (params req)) USER) (Some t0)),
       set_tenantMembers
         (tenantMembers db
          ++ [TenantMember.mk (User.id u) (Params.tenantId (params req)) USER]) db).
Proof.
  intros Hu Ht Hid Hno.
  unfold joinTenant, reply_try_catch, joinTenant_body. rewrite Hu.
  unfold mbind, Prisma_bind, tenant_findUnique, tenantMember_findUnique, query.
  destruct (findFirst _ (tenants db)) as [t0|] eqn:Hfound.
  2:{ rewrite findFirst_None in Hfound. by destruct (Hfound t Ht). }
  assert (findFirst (is_membership (User.id u) (Params.tenantId (params req)))
                    (tenantMembers db) = None) as -> by (by apply findFirst_None).
  rewrite tenantMember_create_ok; [|done|by exists t].
  simpl. rewrite Hfound. by exists t0.
Qed.

Lemma findFirst_snoc {A} (P : A -> Prop) `{forall x, Decision (P x)} (l : list A) (x : A) :
  (forall y, y ∈ l -> ~ P y) -> P x -> findFirst P (l ++ [x]) = Some x.
Proof.
  intros Hno Hx. unfold findFirst. rewrite filter_app, (filter_nil_elem P l Hno).
  simpl. rewrite filter_cons. by destruct (decide (P x)).
Qed.

Lemma requireTenantAccess_joined requiredRole req db u :
  user req = Some u ->
  Params.tenantId (params req) <> "" ->
  (forall m, m ∈ tenantMembers db ->
     ~ is_membership (User.id u) (Params.tenantId (params req)) m) ->
  let db' := set_tenantMembers
               (tenantMembers db
                ++ [TenantMember.mk (User.id u) (Params.tenantId (params req)) USER]) db in
  requireTenantAccess requiredRole req db'
  = (db', inr (if insufficient requiredRole USER
               then inl insufficient_permissions
               else inr (mkRequest
                           (Some (User.mk (User.id u) (Some USER)
                                    (Some (Params.tenantId (params req)))))
                           (params req) (body req)))).
Proof.
  intros Hu Ht Hno db'. unfold requireTenantAccess. rewrite Hu.
  case_decide; [done|]. unfold mbind, Prisma_bind, query.
  assert (findFirst (fun m => TenantMember.userId m = User.id u
                              /\ TenantMember.tenantId m = Params.tenantId (params req))
                    (tenantMembers db')
          = Some (TenantMember.mk (User.id u) (Params.tenantId (params req)) USER)) as ->.
  { unfold db'. simpl. by apply findFirst_snoc. }
  simpl. by destruct (insufficient requiredRole USER).
Qed.

(** X13. Joining needs no approval.  A signed-in user who is not a member of an
    existing tenant is answered 403 by its descendants route; one POST to the
    join route adds a membership with role USER and nothing else, after
    which the same user passes [requireTenantAccess()] on that tenant; the
    administrator-only delete route still answers 403. *)
Theorem joinTenant_opens_the_tenant (req : Request) (db : Db) (u : User.t) (t : Tenant.t) :
  user req = Some u ->
  Params.tenantId (params req) <> "" ->
  t ∈ tenants db -> Tenant.id t = Params.tenantId (params req) ->
  (forall m, m ∈ tenantMembers db ->
     ~ is_membership (User.id u) (Params.tenantId (params req)) m) ->
  let db' := (joinTenant req db).2 in
  listDescendants req db = (access_denied, db)
  /\ reply_status (joinTenant req db).1 = 201
  /\ db' = set_tenantMembers
             (tenantMembers db
              ++ [TenantMember.mk (User.id u) (Params.tenantId (params req)) USER]) db
  /\ passes None req db'
  /\ deleteSubtree req db' = (insufficient_permissions, db').
Proof.
  intros Hu Htid Ht Hid Hno.
  destruct (joinTenant_run req db u t Hu Ht Hid Hno) as [t0 Hrun].
  rewrite Hrun. simpl. split; [|split; [done|split; [done|split]]].
  - unfold listDescendants, route.
    by rewrite (requireTenantAccess_non_member None req db u).
  - eexists. by rewrite (requireTenantAccess_joined None req db u).
  - unfold deleteSubtree, route.
    by rewrite (requireTenantAccess_joined (Some TENANT_ADMIN) req db u).
Qed.

Lemma joinTenant_opens_the_tenant_witness :
  let req := Scenario.request "bob" Scenario.acme Scenario.reports Scenario.no_body in
  let db' := (joinTenant req Scenario.store).2 in
  listDescendants req Scenario.store = (access_denied, Scenario.store)
  /\ reply_status (joinTenant req Scenario.store).1 = 201
  /\ db' = set_tenantMembers
             (tenantMembers Scenario.store ++ [TenantMember.mk "bob" Scenario.acme USER])
             Scenario.store
  /\ passes None req db'
  /\ deleteSubtree req db' = (insufficient_permissions, db').
Proof.
  intros req.
  apply (joinTenant_opens_the_tenant req Scenario.store (User.mk "bob" None None)
           (Tenant.mk Scenario.acme "Acme" (Some Scenario.acme_root))).
  - reflexivity.
  - discriminate.
  - apply (bool_decide_unpack _). vm_compute. exact I.
  - reflexivity.
  - apply (forall_elem_decide (fun m => ~ is_membership "bob" Scenario.acme m)
             (tenantMembers Scenario.store)).
    vm_compute. reflexivity.
Defined.

(** X14. A second join by the same user is answered 409 with the role of the
    existing membership, and writes nothing. *)
Theorem joinTenant_twice (req : Request) (db : Db) (u : User.t) (t : Tenant.t) :
  user req = Some u ->
  t ∈ tenants db -> Tenant.id t = Params.tenantId (params req) ->
  (forall m, m ∈ tenantMembers db ->
     ~ is_membership (User.id u) (Params.tenantId (params req)) m) ->
  let db' := (joinTenant req db).2 in
  joinTenant req db'
  = (mkReply 409 (Some "You are already a member of this tenant.") None
       (ExistingMembership USER),
     db').
Proof.
  intros Hu Ht Hid Hno.
  destruct (joinTenant_run req db u t Hu Ht Hid Hno) as [t0 Hrun].
  rewrite Hrun. simpl.
  unfold joinTenant, reply_try_catch, joinTenant_body. rewrite Hu.
  unfold mbind, Prisma_bind, tenant_findUnique, tenantMember_findUnique, query. simpl.
  destruct (findFirst _ (tenants db)) as [t1|] eqn:Hfound.
  2:{ rewrite findFirst_None in Hfound. by destruct (Hfound t Ht). }
  rewrite (findFirst_snoc _ (tenantMembers db)
             (TenantMember.mk (User.id u) (Params.tenantId (params req)) USER)); done.
Qed.

Lemma joinTenant_twice_witness :
  let req := Scenario.request "bob" Scenario.acme "" Scenario.no_body in
  let db' := (joinTenant req Scenario.store).2 in
  joinTenant req db'
  = (mkReply 409 (Some "You are already a member of this tenant.") None
       (ExistingMembership USER),
     db').
Proof.
  intros req.
  apply (joinTenant_twice req Scenario.store (User.mk "bob" None None)
           (Tenant.mk Scenario.acme "Acme" (Some Scenario.acme_root))).
  - reflexivity.
  - apply (bool_decide_unpack _). vm_compute. exact I.
  - reflexivity.
  - apply (forall_elem_decide (fun m => ~ is_membership "bob" Scenario.acme m)
             (tenantMembers Scenario.store)).
    vm_compute. reflexivity.
Defined.

(** ** The last administrator *)

Lemma filter_all {A} (P : A -> Prop) `{forall x, Decision (P x)} (l : list A) :
  (forall x, x ∈ l -> P x) -> filter P l = l.
Proof.
  induction l as [|a l IH]; [done|]. intros Hall. rewrite filter_cons.
  destruct (decide (P a)) as [|Hn]; [|destruct Hn; apply Hall; left].
  f_equal. apply IH. intros x Hx. apply Hall. by right.
Qed.

Lemma filter_split_key {A K} `{EqDecision K} (key : A -> K) (P : A -> Prop)
  `{forall x, Decision (P x)} (l : list A) (x : A) :
  NoDup (key <$> l) -> x ∈ l ->
  length (filter P l)
  = (if decide (P x) then 1 else 0)
    + length (filter P (filter (fun y => key y <> key x) l)).
Proof.
  induction l as [|a l IH]; [by intros _ ?%not_elem_of_nil|].
  rewrite fmap_cons, NoDup_cons. intros [Ha Hl] Hx.
  destruct (decide (key a = key x)) as [Heq|Hne].
  - assert (a = x) as ->.
    { apply elem_of_cons in Hx as [->|Hx]; [done|].
      destruct Ha. rewrite Heq. by apply list_elem_of_fmap_2. }
    rewrite (filter_cons (fun y => key y <> key x)).
    destruct (decide (key x <> key x)) as [Hxx|_]; [done|].
    rewrite (filter_all (fun y => key y <> key x) l).
    + rewrite filter_cons. by destruct (decide (P x)).
    + intros y Hy Hk. apply Ha. rewrite <- Hk. by apply list_elem_of_fmap_2.
  - apply elem_of_cons in Hx as [->|Hx]; [done|].
    rewrite (filter_cons (fun y => key y <> key x)).
    destruct (decide (key a <> key x)) as [_|Hxx]; [|done].
    rewrite !filter_cons. destruct (decide (P a)); simpl; rewrite (IH Hl Hx); lia.
Qed.

Lemma filter_fmap_key {A K} `{EqDecision K} (key : A -> K) (P : A -> Prop)
  `{forall x, Decision (P x)} (g : A -> A) (l : list A) (x : A) :
  NoDup (key <$> l) -> x ∈ l ->
  length (filter P ((fun y => if decide (key y = key x) then g y else y) <$> l))
  = (if decide (P (g x)) then 1 else 0)
    + length (filter P (filter (fun y => key y <> key x) l)).
Proof.
  induction l as [|a l IH]; [by intros _ ?%not_elem_of_nil|].
  rewrite !fmap_cons, NoDup_cons. intros [Ha Hl] Hx.
  destruct (decide (key a = key x)) as [Heq|Hne].
  - assert (a = x) as ->.
    { apply elem_of_cons in Hx as [->|Hx]; [done|].
      destruct Ha. rewrite Heq. by apply list_elem_of_fmap_2. }
    rewrite (filter_cons (fun y => key y <> key x)).
    destruct (decide (key x <> key x)) as [Hxx|_]; [done|].
    assert ((fun y => if decide (key y = key x) then g y else y) <$> l = l) as ->.
    { rewrite <- (list_fmap_id l) at 2. apply list_fmap_ext. intros i y Hy.
      apply list_elem_of_lookup_2 in Hy.
      destruct (decide (key y = key x)) as [Hk|]; [|done].
      destruct Ha. rewrite <- Hk. by apply list_elem_of_fmap_2. }
    rewrite (filter_all (fun y => key y <> key x) l).
    + rewrite filter_cons. by destruct (decide (P (g x))).
    + intros y Hy Hk. apply Ha. rewrite <- Hk. by apply list_elem_of_fmap_2.
  - apply elem_of_cons in Hx as [->|Hx]; [done|].
    rewrite (filter_cons (fun y => key y <> key x)).
    destruct (decide (key a <> key x)) as [_|Hxx]; [|done].
    rewrite !filter_cons. destruct (decide (P a)); simpl; rewrite (IH Hl Hx); lia.
Qed.

Lemma is_membership_key userId tenantId m x :
  is_membership userId tenantId m ->
  (is_membership userId tenantId x <-> member_key x = member_key m).
Proof.
  unfold is_membership, member_key. intros [<- <-]. split.
  - by intros [-> ->].
  - by intros [= -> ->].
Qed.

Lemma last_admin_run tenantId m db :
  last_admin tenantId m db
  = (db, inr (bool_decide (TenantMember.role m = TENANT_ADMIN /\ admins tenantId db = 1))).
Proof.
  unfold last_admin. case_decide as Hr.
  - unfold mbind, Prisma_bind, tenantMember_count_admins, query, mret, Prisma_ret.
    do 2 f_equal. apply bool_decide_ext. tauto.
  - unfold mret, Prisma_ret. do 2 f_equal. symmetry. apply bool_decide_eq_false. tauto.
Qed.

Lemma tenantMember_delete_effect userId tenantId db db' r :
  tenantMember_delete userId tenantId db = (db', r) ->
  match r with
  | inl _ => db' = db
  | inr _ =>
      db' = set_tenantMembers
              (filter (fun m => ~ is_membership userId tenantId m) (tenantMembers db)) db
  end.
Proof. unfold tenantMember_delete. destruct (any _ _); by intros [= <- <-]. Qed.

(** What a removal of the membership (userId, tenantId) leaves behind:
    uniqueness of memberships, and an administrator in every tenant that
    had one, as long as the row removed is not that tenant's only
    administrator. *)
Lemma removal_keeps_an_admin userId tenantId db m t :
  memberships_unique db ->
  m ∈ tenantMembers db -> is_membership userId tenantId m ->
  ~ (TenantMember.role m = TENANT_ADMIN /\ admins tenantId db = 1) ->
  0 < admins t db ->
  let db' := set_tenantMembers
               (filter (fun x => ~ is_membership userId tenantId x) (tenantMembers db)) db in
  memberships_unique db' /\ 0 < admins t db'.
Proof.
  intros Hu Hm Hkey Hlast Hpos db'. split.
  - unfold memberships_unique, db'. simpl. by apply NoDup_fmap_filter.
  - unfold admins, db' in *. simpl.
    rewrite (filter_ext_elem (fun x => ~ is_membership userId tenantId x)
               (fun x => member_key x <> member_key m)).
    2:{ intros x _. by rewrite (is_membership_key userId tenantId m x Hkey). }
    pose proof (filter_split_key member_key (is_admin_of t) (tenantMembers db) m Hu Hm) as Hsplit.
    pose proof (filter_split_key member_key (is_admin_of tenantId) (tenantMembers db) m Hu Hm)
      as Hown.
    destruct (decide (is_admin_of t m)) as [[Ht Hrole]|Hn]; [|lia].
    destruct Hkey as [_ Hmt]. assert (t = tenantId) as -> by congruence.
    destruct (decide (is_admin_of tenantId m)) as [_|Hn]; [|by destruct Hn].
    assert (admins tenantId db <> 1) as Hne by tauto. unfold admins in Hne. lia.
Qed.

Lemma role_change_keeps_an_admin userId tenantId role db m t :
  memberships_unique db ->
  m ∈ tenantMembers db -> is_membership userId tenantId m ->
  ~ (demotes m role = true /\ admins tenantId db = 1) ->
  0 < admins t db ->
  let db' := set_tenantMembers
               ((fun x => if decide (is_membership userId tenantId x)
                          then set_role role x else x) <$> tenantMembers db) db in
  memberships_unique db' /\ 0 < admins t db'.
Proof.
  intros Hu Hm Hkey Hlast Hpos db'. split.
  - unfold memberships_unique, db' in *. simpl. rewrite <- list_fmap_compose.
    erewrite list_fmap_ext; [exact Hu|]. intros i x _. simpl.
    case_decide; [|done]. by destruct role.
  - unfold admins, db' in *. simpl.
    assert ((fun x => if decide (is_membership userId tenantId x) then set_role role x else x)
              <$> tenantMembers db
            = (fun x => if decide (member_key x = member_key m) then set_role role x else x)
                <$> tenantMembers db) as ->.
    { apply list_fmap_ext. intros i x _.
      pose proof (is_membership_key userId tenantId m x Hkey) as Hiff.
      destruct (decide (is_membership userId tenantId x));
        destruct (decide (member_key x = member_key m)); tauto. }
    rewrite (filter_fmap_key member_key (is_admin_of t) (set_role role) _ m Hu Hm).
    pose proof (filter_split_key member_key (is_admin_of t) (tenantMembers db) m Hu Hm) as Hsplit.
    pose proof (filter_split_key member_key (is_admin_of tenantId) (tenantMembers db) m Hu Hm)
      as Hown.
    destruct (decide (is_admin_of t (set_role role m))) as [|Hafter]; [lia|].
    destruct (decide (is_admin_of t m)) as [[Ht Hrole]|Hn]; [|lia].
    destruct Hkey as [_ Hmt]. assert (t = tenantId) as -> by congruence.
    destruct (decide (is_admin_of tenantId m)) as [_|Hn]; [|by destruct Hn].
    assert (demotes m role = true) as Hd.
    { destruct role as [r|]; [|by destruct Hafter].
      simpl. apply bool_decide_eq_true. split; [done|]. intros ->. by destruct Hafter. }
    assert (admins tenantId db <> 1) as Hne by tauto. unfold admins in Hne. lia.
Qed.

Lemma leaveTenant_body_effect req db db' r :
  leaveTenant_body req db = (db', r) ->
  db' = db
  \/ exists userId m,
       m ∈ tenantMembers db
       /\ is_membership userId (Params.tenantId (params req)) m
       /\ ~ (TenantMember.role m = TENANT_ADMIN /\ admins (Params.tenantId (params req)) db = 1)
       /\ db' = set_tenantMembers
                  (filter (fun x => ~ is_membership userId (Params.tenantId (params req)) x)
                          (tenantMembers db)) db.
Proof.
  unfold leaveTenant_body. destruct (user req) as [u|]; [|intros [= <- _]; by left].
  unfold mbind at 1, Prisma_bind at 1, tenantMember_findUnique at 1, query at 1.
  destruct (findFirst _ _) as [m|] eqn:Hm; [|intros [= <- _]; by left].
  unfold mbind at 1, Prisma_bind at 1. rewrite last_admin_run.
  destruct (bool_decide _) eqn:Hlast; [intros [= <- _]; by left|].
  unfold mbind, Prisma_bind.
  destruct (tenantMember_delete _ _ db) as [db2 [e|[]]] eqn:Hdel;
    apply tenantMember_delete_effect in Hdel as ->; intros [= <- _]; [by left|].
  right. apply findFirst_Some in Hm as [Hm Hkey]. apply bool_decide_eq_false in Hlast.
  by exists (User.id u), m.
Qed.

Lemma removeMember_body_effect userId req db db' r :
  removeMember_body userId req db = (db', r) ->
  db' = db
  \/ exists m,
       m ∈ tenantMembers db
       /\ is_membership userId (Params.tenantId (params req)) m
       /\ ~ (TenantMember.role m = TENANT_ADMIN /\ admins (Params.tenantId (params req)) db = 1)
       /\ db' = set_tenantMembers
                  (filter (fun x => ~ is_membership userId (Params.tenantId (params req)) x)
                          (tenantMembers db)) db.
Proof.
  unfold removeMember_body.
  unfold mbind at 1, Prisma_bind at 1, tenantMember_findUnique at 1, query at 1.
  destruct (findFirst _ _) as [m|] eqn:Hm; [|intros [= <- _]; by left].
  unfold mbind at 1, Prisma_bind at 1. rewrite last_admin_run.
  destruct (bool_decide _) eqn:Hlast; [intros [= <- _]; by left|].
  unfold mbind, Prisma_bind.
  destruct (tenantMember_delete _ _ db) as [db2 [e|[]]] eqn:Hdel;
    apply tenantMember_delete_effect in Hdel as ->; intros [= <- _]; [by left|].
  right. apply findFirst_Some in Hm as [Hm Hkey]. apply bool_decide_eq_false in Hlast.
  by exists m.
Qed.

Lemma updateMember_checked_effect userId tenantId role db db' r :
  updateMember_checked userId tenantId role db = (db', r) ->
  db' = db
  \/ exists m,
       m ∈ tenantMembers db
       /\ is_membership userId tenantId m
       /\ ~ (demotes m role = true /\ admins tenantId db = 1)
       /\ db' = set_tenantMembers
                  ((fun x => if decide (is_membership userId tenantId x)
                             then set_role role x else x) <$> tenantMembers db) db.
Proof.
  unfold updateMember_checked.
  unfold mbind at 1, Prisma_bind at 1, tenantMember_findUnique at 1, query at 1.
  destruct (findFirst _ _) as [m|] eqn:Hm; [|intros [= <- _]; by left].
  unfold mbind at 1, Prisma_bind at 1.
  assert ((if demotes m role
           then adminCount ← tenantMember_count_admins tenantId;
                mret (bool_decide (adminCount = 1))
           else mret false) db
          = (db, inr (bool_decide (demotes m role = true /\ admins tenantId db = 1)))) as ->.
  { destruct (demotes m role).
    - unfold mbind, Prisma_bind, tenantMember_count_admins, query, mret, Prisma_ret.
      do 2 f_equal. apply bool_decide_ext. tauto.
    - reflexivity. }
  destruct (bool_decide _) eqn:Hlast; [intros [= <- _]; by left|].
  unfold mbind, Prisma_bind, tenantMember_update. rewrite Hm. intros [= <- _].
  right. apply findFirst_Some in Hm as [Hm Hkey]. apply bool_decide_eq_false in Hlast.
  by exists m.
Qed.

Lemma updateMember_body_effect userId role req db db' r :
  updateMember_body userId role req db = (db', r) ->
  db' = db
  \/ exists m newRole,
       m ∈ tenantMembers db
       /\ is_membership userId (Params.tenantId (params req)) m
       /\ ~ (demotes m newRole = true /\ admins (Params.tenantId (params req)) db = 1)
       /\ db' = set_tenantMembers
                  ((fun x => if decide (is_membership userId (Params.tenantId (params req)) x)
                             then set_role newRole x else x) <$> tenantMembers db) db.
Proof.
  unfold updateMember_body. destruct (truthy role) as [s|].
  - destruct (parse_role s) as [newRole|]; [|intros [= <- _]; by left].
    intros [->|(m & H)]%updateMember_checked_effect; [by left|right; by exists m, (Some newRole)].
  - intros [->|(m & H)]%updateMember_checked_effect; [by left|right; by exists m, None].
Qed.

Lemma joinTenant_body_effect req db db' r :
  joinTenant_body req db = (db', r) ->
  db' = db
  \/ exists u,
       (forall m, m ∈ tenantMembers db ->
          ~ is_membership (User.id u) (Params.tenantId (params req)) m)
       /\ db' = set_tenantMembers
                  (tenantMembers db
                   ++ [TenantMember.mk (User.id u) (Params.tenantId (params req)) USER]) db.
Proof.
  unfold joinTenant_body.
  destruct (user req) as [u|]; [|intros [= <- _]; by left].
  unfold mbind at 1, Prisma_bind at 1, tenant_findUnique at 1, query at 1.
  destruct (findFirst _ (tenants db)) as [t0|]; [|intros [= <- _]; by left].
  unfold mbind at 1, Prisma_bind at 1, tenantMember_findUnique at 1, query at 1.
  destruct (findFirst _ (tenantMembers db)) as [m|] eqn:Hm; [intros [= <- _]; by left|].
  rewrite findFirst_None in Hm.
  unfold mbind at 1, Prisma_bind at 1.
  destruct (tenantMember_create _ _ _ db) as [db1 [e|[]]] eqn:Hc.
  - intros [= <- _]. left. unfold tenantMember_create in Hc.
    destruct (any _ (tenantMembers db)); [by injection Hc as <- _|].
    destruct (negb _); [by injection Hc as <- _|discriminate].
  - apply tenantMember_create_inr in Hc as ->.
    unfold mbind, Prisma_bind, tenant_findUnique, query. intros [= <- _].
    right. by exists u.
Qed.

Lemma joinTenant_effect req db :
  (joinTenant req db).2 = db
  \/ exists u,
       (forall m, m ∈ tenantMembers db ->
          ~ is_membership (User.id u) (Params.tenantId (params req)) m)
       /\ (joinTenant req db).2
          = set_tenantMembers
              (tenantMembers db
               ++ [TenantMember.mk (User.id u) (Params.tenantId (params req)) USER]) db.
Proof.
  unfold joinTenant, reply_try_catch.
  destruct (joinTenant_body req db) as [db1 [e|resp]] eqn:Hr;
    apply joinTenant_body_effect in Hr; simpl; done.
Qed.

(** X15. Handled one at a time, the join, leave, remove-member and update-member
    routes keep memberships unique per user and tenant, and never take the
    last TENANT_ADMIN away from a tenant that has one, whoever sends the
    request and whichever tenant it names. *)
Theorem membership_routes_keep_an_admin (db : Db) (t : string) :
  memberships_unique db ->
  0 < admins t db ->
  (forall req,
     memberships_unique (joinTenant req db).2 /\ 0 < admins t (joinTenant req db).2)
  /\ (forall req,
        memberships_unique (leaveTenant req db).2 /\ 0 < admins t (leaveTenant req db).2)
  /\ (forall userId req,
        memberships_unique (removeMember userId req db).2
        /\ 0 < admins t (removeMember userId req db).2)
  /\ (forall userId role req,
        memberships_unique (updateMember userId role req db).2
        /\ 0 < admins t (updateMember userId role req db).2).
Proof.
  intros Hu Hpos. split; [|split; [|split]].
  - intros req. destruct (joinTenant_effect req db) as [->|(u & Hno & ->)]; [done|].
    split.
    + unfold memberships_unique in *. simpl. rewrite fmap_app. apply NoDup_app.
      split; [done|]. split; [|apply NoDup_singleton].
      intros k Hk Hin. apply list_elem_of_fmap in Hk as (m & -> & Hm).
      apply list_elem_of_singleton in Hin. injection Hin as Hmu Hmt.
      by apply (Hno m Hm).
    + unfold admins in *. simpl. rewrite filter_app, length_app. lia.
  - intros req. unfold leaveTenant, reply_route.
    destruct (requireTenantAccess None req db) as [db1 r] eqn:E.
    apply requireTenantAccess_inv in E as (-> & [(d & -> & _)|(req' & u & m & -> & Hp & _)]);
      [done|].
    unfold reply_try_catch.
    destruct (leaveTenant_body req' db) as [db1 [e|resp]] eqn:Hr;
      apply leaveTenant_body_effect in Hr as [->|(userId & x & Hx & Hkey & Hlast & ->)];
      simpl; try done; by apply (removal_keeps_an_admin userId _ db x).
  - intros userId req. unfold removeMember, reply_route.
    destruct (requireTenantAccess _ req db) as [db1 r] eqn:E.
    apply requireTenantAccess_inv in E as (-> & [(d & -> & _)|(req' & u & m & -> & Hp & _)]);
      [done|].
    unfold reply_try_catch.
    destruct (removeMember_body userId req' db) as [db1 [e|resp]] eqn:Hr;
      apply removeMember_body_effect in Hr as [->|(x & Hx & Hkey & Hlast & ->)];
      simpl; try done; by apply (removal_keeps_an_admin userId _ db x).
  - intros userId role req. unfold updateMember, reply_route.
    destruct (requireTenantAccess _ req db) as [db1 r] eqn:E.
    apply requireTenantAccess_inv in E as (-> & [(d & -> & _)|(req' & u & m & -> & Hp & _)]);
      [done|].
    unfold reply_try_catch.
    destruct (updateMember_body userId role req' db) as [db1 [e|resp]] eqn:Hr;
      apply updateMember_body_effect in Hr as [->|(x & newRole & Hx & Hkey & Hlast & ->)];
      simpl; try done; by apply (role_change_keeps_an_admin userId _ newRole db x).
Qed.

Lemma membership_routes_keep_an_admin_witness :
  (forall req,
     memberships_unique (joinTenant req Scenario.store).2
     /\ 0 < admins Scenario.acme (joinTenant req Scenario.store).2)
  /\ (forall req,
        memberships_unique (leaveTenant req Scenario.store).2
        /\ 0 < admins Scenario.acme (leaveTenant req Scenario.store).2)
  /\ (forall userId req,
        memberships_unique (removeMember userId req Scenario.store).2
        /\ 0 < admins Scenario.acme (removeMember userId req Scenario.store).2)
  /\ (forall userId role req,
        memberships_unique (updateMember userId role req Scenario.store).2
        /\ 0 < admins Scenario.acme (updateMember userId role req Scenario.store).2).
Proof.
  apply (membership_routes_keep_an_admin Scenario.store Scenario.acme).
  - apply (bool_decide_unpack _). vm_compute. exact I.
  - vm_compute. lia.
Defined.

(** ** Deleting a tenant *)

Lemma purge_inr tenantId db db' u :
  purge tenantId db = (db', inr u) ->
  let ids := Folder.id <$> filter (fun f => Folder.tenantId f = tenantId) (folders db) in
  db' = mkDb
          (orphan ids <$> filter (fun f => Folder.tenantId f <> tenantId) (folders db))
          (filter (fun fl => File.tenantId fl <> tenantId) (files db))
          (fileVersions db)
          (filter (fun t => Tenant.id t <> tenantId) (unroot ids <$> tenants db))
          (filter (fun m => TenantMember.tenantId m <> tenantId)
             (filter (fun m => TenantMember.tenantId m <> tenantId) (tenantMembers db))).
Proof.
  unfold purge. intros H.
  apply bind_inr in H as (n1 & db1 & H1 & H).
  apply bind_inr in H as (n2 & db2 & H2 & H).
  apply bind_inr in H as (n3 & db3 & H3 & H).
  unfold file_deleteMany in H1. destruct (any _ _); [discriminate|]. injection H1 as <- _.
  unfold folder_deleteMany in H2. destruct (any _ _); [discriminate|]. injection H2 as <- _.
  unfold tenantMember_deleteMany in H3. injection H3 as <- _.
  unfold tenant_delete in H. destruct (negb _); [discriminate|].
  destruct (any _ _); [discriminate|]. destruct (any _ _); [discriminate|].
  by injection H as <-.
Qed.

Lemma deleteTenant_body_inv req db db' resp :
  reply_try_catch (deleteTenant_body req) "Failed to delete tenant." db = (resp, db') ->
  (reply_status resp <> 200 /\ db' = db)
  \/ (reply_status resp = 200 /\ purge (Params.tenantId (params req)) db = (db', inr tt)).
Proof.
  unfold reply_try_catch, deleteTenant_body.
  unfold mbind at 1, Prisma_bind at 1, tenant_findUnique at 1, query at 1.
  destruct (findFirst _ _) as [t|]; [|intros [= <- <-]; by left].
  unfold mbind, Prisma_bind, transaction.
  destruct (purge _ db) as [db1 [e|[]]]; intros [= <- <-]; [by left|by right].
Qed.

Lemma deleteTenant_inv req db resp db' :
  deleteTenant req db = (resp, db') ->
  (reply_status resp <> 200 /\ db' = db)
  \/ (reply_status resp = 200 /\ purge (Params.tenantId (params req)) db = (db', inr tt)).
Proof.
  unfold deleteTenant, reply_route.
  destruct (requireTenantAccess _ req db) as [db1 r] eqn:E.
  apply requireTenantAccess_inv in E as (-> & [(d & -> & Hd)|(req' & u & m & -> & Hp & _)]).
  - intros [= <- <-]. left. split; [|done]. unfold refused. simpl. lia.
  - rewrite <- Hp. apply deleteTenant_body_inv.
Qed.

(** X16. Deleting a tenant is all or nothing.  When the route answers 200, no
    folder, file, membership or tenant row of that tenant is left, the files
    and memberships of the other tenants are exactly those there were, and
    no file version has gone; with any other answer the database is as it
    was. *)
Theorem deleteTenant_all_or_nothing (req : Request) (db : Db) :
  let tenantId := Params.tenantId (params req) in
  let resp := (deleteTenant req db).1 in
  let db' := (deleteTenant req db).2 in
  (reply_status resp = 200 ->
     (forall g, g ∈ folders db' -> Folder.tenantId g <> tenantId)
     /\ (forall t, t ∈ tenants db' -> Tenant.id t <> tenantId)
     /\ files db' = filter (fun fl => File.tenantId fl <> tenantId) (files db)
     /\ tenantMembers db'
        = filter (fun m => TenantMember.tenantId m <> tenantId) (tenantMembers db)
     /\ fileVersions db' = fileVersions db
     /\ (Folder.id <$> folders db')
        = (Folder.id <$> filter (fun f => Folder.tenantId f <> tenantId) (folders db))
     /\ (Tenant.id <$> tenants db')
        = (Tenant.id <$> filter (fun t => Tenant.id t <> tenantId) (tenants db)))
  /\ (reply_status resp <> 200 -> db' = db).
Proof.
  intros tenantId resp db'. subst resp db'.
  destruct (deleteTenant req db) as [resp db'] eqn:E. simpl.
  apply deleteTenant_inv in E as [[Hs ->]|[Hs Hp]]; [done|]. split; [|done]. intros _.
  apply purge_inr in Hp. simpl in Hp. subst db'. simpl. fold tenantId.
  split; [|split; [|split; [done|split; [|split; [done|split]]]]].
  - intros g (g0 & -> & [Hg _]%list_elem_of_filter)%list_elem_of_fmap. done.
  - by intros t [Ht _]%list_elem_of_filter.
  - apply filter_all. by intros m [Hm _]%list_elem_of_filter.
  - rewrite <- list_fmap_compose. done.
  - induction (tenants db) as [|t ts IH]; [done|].
    rewrite fmap_cons, !filter_cons. simpl.
    destruct (decide (Tenant.id t <> tenantId)); [|exact IH].
    rewrite !fmap_cons. f_equal. exact IH.
Qed.

Lemma deleteTenant_all_or_nothing_witness :
  let req := Scenario.request "bob" Scenario.beta "" Scenario.no_body in
  let db' := (deleteTenant req Scenario.store).2 in
  reply_status (deleteTenant req Scenario.store).1 = 200
  /\ (Folder.id <$> folders db') = [Scenario.acme_root; Scenario.reports; Scenario.q3;
                                     Scenario.archive]
  /\ ((reply_status (deleteTenant req Scenario.store).1 = 200 ->
        (forall g, g ∈ folders db' -> Folder.tenantId g <> Scenario.beta)
        /\ (forall t, t ∈ tenants db' -> Tenant.id t <> Scenario.beta)
        /\ files db' = filter (fun fl => File.tenantId fl <> Scenario.beta)
                              (files Scenario.store)
        /\ tenantMembers db'
           = filter (fun m => TenantMember.tenantId m <> Scenario.beta)
                    (tenantMembers Scenario.store)
        /\ fileVersions db' = fileVersions Scenario.store
        /\ (Folder.id <$> folders db')
           = (Folder.id <$> filter (fun f => Folder.tenantId f <> Scenario.beta)
                                   (folders Scenario.store))
        /\ (Tenant.id <$> tenants db')
           = (Tenant.id <$> filter (fun t => Tenant.id t <> Scenario.beta)
                                   (tenants Scenario.store)))
      /\ (reply_status (deleteTenant req Scenario.store).1 <> 200 -> db' = Scenario.store)).
Proof.
  intros req. split; [vm_compute; reflexivity|]. split; [vm_compute; reflexivity|].
  apply (deleteTenant_all_or_nothing req Scenario.store).
Defined.

(** X17. The route deletes the files of the tenant first and relies on a cascade
    to their versions; the foreign key of [FileVersion] is RESTRICT.  So a
    tenant that has a file with a version cannot be deleted: the route
    answers 500 and the transaction leaves everything in place. *)
Theorem deleteTenant_blocked_by_versions
  (req : Request) (db : Db) (t : Tenant.t) (fl : File.t) (v : FileVersion.t) :
  passes (Some TENANT_ADMIN) req db ->
  t ∈ tenants db -> Tenant.id t = Params.tenantId (params req) ->
  fl ∈ files db -> File.tenantId fl = Params.tenantId (params req) ->
  v ∈ fileVersions db -> FileVersion.fileId v = File.id fl ->
  deleteTenant req db
  = (mkReply 500 (Some "Failed to delete tenant.") None
       (Thrown (ForeignKeyConstraint "FileVersion_fileId_fkey")),
     db).
Proof.
  intros Hp Ht Hid Hfl Hflt Hv Hvf.
  apply passes_next in Hp as (req' & Hmw & Hpr & _).
  unfold deleteTenant, reply_route. rewrite Hmw.
  unfold reply_try_catch, deleteTenant_body. rewrite Hpr.
  unfold mbind at 1, Prisma_bind at 1, tenant_findUnique at 1, query at 1.
  destruct (findFirst _ _) as [t0|] eqn:Hfound.
  2:{ rewrite findFirst_None in Hfound. by destruct (Hfound t Ht). }
  assert (file_deleteMany (Params.tenantId (params req)) db
          = (db, inl (ForeignKeyConstraint "FileVersion_fileId_fkey"))) as Hfiles.
  { unfold file_deleteMany.
    assert (any (fun v0 => FileVersion.fileId v0 ∈
                   File.id <$> filter (fun fl0 => File.tenantId fl0
                                                  = Params.tenantId (params req)) (files db))
                (fileVersions db) = true) as ->; [|done].
    apply any_true. exists v. split; [done|]. rewrite Hvf.
    by apply list_elem_of_fmap_2, list_elem_of_filter. }
  unfold mbind, Prisma_bind, transaction, purge, mbind, Prisma_bind. by rewrite Hfiles.
Qed.

Lemma deleteTenant_blocked_by_versions_witness :
  deleteTenant (Scenario.request "carol" Scenario.acme "" Scenario.no_body) Scenario.store
  = (mkReply 500 (Some "Failed to delete tenant.") None
       (Thrown (ForeignKeyConstraint "FileVersion_fileId_fkey")),
     Scenario.store).
Proof.
  apply (deleteTenant_blocked_by_versions _ Scenario.store
           (Tenant.mk Scenario.acme "Acme" (Some Scenario.acme_root))
           (File.mk "file-2" "old.pdf" Scenario.archive Scenario.acme)
           (FileVersion.mk "version-1" "file-2")).
  - eexists. vm_compute. reflexivity.
  - apply (bool_decide_unpack _). vm_compute. exact I.
  - reflexivity.
  - apply (bool_decide_unpack _). vm_compute. exact I.
  - reflexivity.
  - apply (bool_decide_unpack _). vm_compute. exact I.
  - reflexivity.
Defined.

(** ** Renaming a tenant *)

Lemma tenant_update_name_inv tenantId name db db' r :
  tenant_update_name tenantId name db = (db', r) ->
  match r with
  | inl _ => db' = db
  | inr _ =>
      (forall t, t ∈ tenants db -> Tenant.id t <> tenantId -> Tenant.name t <> name)
      /\ db' = set_tenants
                 ((fun x => if decide (Tenant.id x = tenantId)
                            then Tenant.mk (Tenant.id x) name (Tenant.rootFolderId x)
                            else x) <$> tenants db) db
  end.
Proof.
  unfold tenant_update_name. destruct (findFirst _ _) as [t|]; [|by intros [= <- <-]].
  destruct (any _ _) eqn:E; intros [= <- <-]; [done|]. split; [|done].
  rewrite any_false in E. intros t' Ht' Hid Hname. by apply (E t' Ht').
Qed.

Lemma updateTenant_body_effect req db db' r :
  updateTenant_body req db = (db', r) ->
  db' = db
  \/ exists name,
       valid_name (Body.name (body req)) = Some name
       /\ (forall t, t ∈ tenants db -> Tenant.id t <> Params.tenantId (params req) ->
             Tenant.name t <> name)
       /\ db' = set_tenants
                  ((fun x => if decide (Tenant.id x = Params.tenantId (params req))
                             then Tenant.mk (Tenant.id x) name (Tenant.rootFolderId x)
                             else x) <$> tenants db) db.
Proof.
  unfold updateTenant_body.
  destruct (valid_name _) as [trimmedName|] eqn:Hn; [|intros [= <- _]; by left].
  unfold mbind at 1, Prisma_bind at 1, query at 1.
  destruct (other_tenant _ _); [intros [= <- _]; by left|].
  unfold mbind at 1, Prisma_bind at 1.
  destruct (tenant_update_name _ _ db) as [db1 [e|t]] eqn:Hw;
    apply tenant_update_name_inv in Hw.
  - subst db1. intros [= <- _]. by left.
  - destruct Hw as [Hfree ->]. unfold mbind, Prisma_bind, rootFolder_of, query.
    intros [= <- _]. right. by exists trimmedName.
Qed.

Lemma updateTenant_effect req db :
  (updateTenant req db).2 = db
  \/ exists name,
       valid_name (Body.name (body req)) = Some name
       /\ (forall t, t ∈ tenants db -> Tenant.id t <> Params.tenantId (params req) ->
             Tenant.name t <> name)
       /\ (updateTenant req db).2
          = set_tenants
              ((fun x => if decide (Tenant.id x = Params.tenantId (params req))
                         then Tenant.mk (Tenant.id x) name (Tenant.rootFolderId x)
                         else x) <$> tenants db) db.
Proof.
  unfold updateTenant, reply_route.
  destruct (requireTenantAccess _ req db) as [db1 r] eqn:E.
  apply requireTenantAccess_inv in E as (-> & [(d & -> & Hd)|(req' & u & m & -> & Hp & Hb & _)]);
    [by left|].
  unfold reply_try_catch.
  destruct (updateTenant_body req' db) as [db1 [e|resp]] eqn:Hr;
    apply updateTenant_body_effect in Hr; rewrite Hp, Hb in Hr; simpl; done.
Qed.

(** X18. Whatever the tenant rename route answers, every tenant keeps its
    identifier and its root folder, every tenant other than the one named
    in the URL is left exactly as it was, tenant names stay unique, and no
    other table changes. *)
Theorem updateTenant_keeps_tenants (req : Request) (db : Db) :
  tenant_ids_unique db ->
  tenant_names_unique db ->
  let db' := (updateTenant req db).2 in
  tenant_names_unique db'
  /\ Forall2 (fun t t' =>
                Tenant.id t' = Tenant.id t
                /\ Tenant.rootFolderId t' = Tenant.rootFolderId t
                /\ (Tenant.id t <> Params.tenantId (params req) -> t' = t))
             (tenants db) (tenants db')
  /\ folders db' = folders db /\ files db' = files db
  /\ fileVersions db' = fileVersions db /\ tenantMembers db' = tenantMembers db.
Proof.
  intros Hids Hnames db'. subst db'.
  destruct (updateTenant_effect req db) as [->|(n & _ & Hfree & ->)].
  { split; [done|]. split; [|done]. apply Forall2_same_length_lookup_2; [done|].
    intros i t t' Ht Ht'. rewrite Ht in Ht'. by injection Ht' as ->. }
  simpl. split; [|split; [|done]].
  - unfold tenant_names_unique, tenant_ids_unique in *. simpl.
    revert Hids Hnames Hfree. generalize (Params.tenantId (params req)). intros tid.
    induction (tenants db) as [|a ts IH]; [done|].
    rewrite !fmap_cons, !NoDup_cons. intros [Ha Hids] [Hn Hnames] Hfree. split.
    + intros Hin. rewrite <- list_fmap_compose in Hin.
      apply list_elem_of_fmap in Hin as (b & Hb & Hbin). simpl in Hb.
      destruct (decide (Tenant.id a = tid)) as [Hat|Hat];
        destruct (decide (Tenant.id b = tid)) as [Hbt|Hbt]; simpl in Hb.
      * apply Ha. rewrite Hat, <- Hbt. by apply list_elem_of_fmap_2.
      * apply (Hfree b); [by right|done|done].
      * apply (Hfree a); [by left|done|done].
      * apply Hn. rewrite Hb. by apply list_elem_of_fmap_2.
    + apply IH; try done. intros t Ht. apply Hfree. by right.
  - apply Forall2_fmap_r, Forall_Forall2_diag, Forall_forall. intros t _.
    unfold compose. by destruct (decide (Tenant.id t = Params.tenantId (params req))).
Qed.

Lemma updateTenant_keeps_tenants_witness :
  let req := Scenario.request "carol" Scenario.acme "" (Body.mk None (Some " Acme Ltd ") None) in
  let db' := (updateTenant req Scenario.store).2 in
  (Tenant.name <$> tenants db') = ["Acme Ltd"; "Beta"]
  /\ tenant_names_unique db'
  /\ Forall2 (fun t t' =>
                Tenant.id t' = Tenant.id t
                /\ Tenant.rootFolderId t' = Tenant.rootFolderId t
                /\ (Tenant.id t <> Scenario.acme -> t' = t))
             (tenants Scenario.store) (tenants db')
  /\ folders db' = folders Scenario.store /\ files db' = files Scenario.store
  /\ fileVersions db' = fileVersions Scenario.store
  /\ tenantMembers db' = tenantMembers Scenario.store.
Proof.
  intros req. split; [vm_compute; reflexivity|].
  apply (updateTenant_keeps_tenants req Scenario.store).
  - apply (bool_decide_unpack _). vm_compute. exact I.
  - apply (bool_decide_unpack _). vm_compute. exact I.
Defined.

(** X19. An administrator who renames a tenant to the name of another tenant is
    answered 409 and nothing is written; the comparison is on the trimmed
    name. *)
Theorem updateTenant_name_taken (req : Request) (db : Db) (e : Tenant.t) (name : string) :
  passes (Some TENANT_ADMIN) req db ->
  tenant_names_unique db ->
  valid_name (Body.name (body req)) = Some name ->
  e ∈ tenants db -> Tenant.name e = name ->
  Tenant.id e <> Params.tenantId (params req) ->
  updateTenant req db
  = (plain 409 ("Tenant with name " ++ dquote ++ name ++ dquote ++ " already exists."), db).
Proof.
  intros Hp Hnames Hn He Hname Hid.
  apply passes_next in Hp as (req' & Hmw & Hpr & Hbd).
  unfold updateTenant, reply_route. rewrite Hmw.
  unfold reply_try_catch, updateTenant_body. rewrite Hbd, Hn, Hpr.
  unfold mbind, Prisma_bind, query.
  rewrite (findFirst_unique Tenant.name _ (tenants db) e); try done; [|congruence].
  simpl. by rewrite bool_decide_eq_true_2.
Qed.

Lemma updateTenant_name_taken_witness :
  updateTenant (Scenario.request "carol" Scenario.acme "" (Body.mk None (Some " Beta ") None))
    Scenario.store
  = (plain 409 ("Tenant with name " ++ dquote ++ "Beta" ++ dquote ++ " already exists."),
     Scenario.store).
Proof.
  apply (updateTenant_name_taken _ Scenario.store
           (Tenant.mk Scenario.beta "Beta" (Some Scenario.beta_root)) "Beta").
  - eexists. vm_compute. reflexivity.
  - apply (bool_decide_unpack _). vm_compute. exact I.
  - vm_compute. reflexivity.
  - apply (bool_decide_unpack _). vm_compute. exact I.
  - reflexivity.
  - discriminate.
Defined.

(** ** Parent links and paths *)

Lemma tree_shaped_weaken (old new : list Folder.t) (g : Folder.t) :
  old ⊆ new ->
  (is_Some (Folder.parentId g) -> Exists (hangs_under g) old) ->
  is_Some (Folder.parentId g) -> Exists (hangs_under g) new.
Proof.
  intros Hsub Hg Hp. apply Exists_exists. apply Hg, Exists_exists in Hp as (h & Hh & Hhang).
  exists h. split; [by apply Hsub|done].
Qed.

Lemma tree_shaped_app db f :
  tree_shaped db ->
  (is_Some (Folder.parentId f) -> Exists (hangs_under f) (folders db)) ->
  tree_shaped (set_folders (folders db ++ [f]) db).
Proof.
  intros Hc Hf. unfold tree_shaped in *. simpl. apply Forall_app. split.
  - eapply Forall_impl; [exact Hc|]. intros g Hg.
    apply (tree_shaped_weaken (folders db)); [|done]. intros x Hx. apply elem_of_app. by left.
  - apply Forall_singleton.
    apply (tree_shaped_weaken (folders db)); [|done]. intros x Hx. apply elem_of_app. by left.
Qed.

(** Removing a set of folders and clearing the parent links that pointed
    into it, as ON DELETE SET NULL does, keeps the rest tree-shaped. *)
Lemma tree_shaped_orphan (P : Folder.t -> Prop) `{forall x, Decision (P x)}
  (fs : list Folder.t) :
  Forall (fun g => is_Some (Folder.parentId g) -> Exists (hangs_under g) fs) fs ->
  let ids := Folder.id <$> filter P fs in
  let kept := orphan ids <$> filter (fun f => ~ P f) fs in
  Forall (fun g => is_Some (Folder.parentId g) -> Exists (hangs_under g) kept) kept.
Proof.
  intros Hc ids kept. apply Forall_forall.
  intros g' (g & -> & [_ Hg]%list_elem_of_filter)%list_elem_of_fmap [p Hp].
  simpl in Hp. pose proof (null_if_deleted_Some _ _ _ Hp) as Hgp.
  rewrite Forall_forall in Hc.
  assert (Exists (hangs_under g) fs) as Hex by (apply (Hc g Hg); by eexists).
  apply Exists_exists in Hex as (h & Hh & Hpar & Hten & Hpath).
  assert (p = Folder.id h) as -> by congruence.
  assert (~ P h) as Hkeep.
  { intros HP. rewrite Hgp in Hp. simpl in Hp. case_decide as Hin; [done|].
    apply Hin. unfold ids. by apply list_elem_of_fmap_2, list_elem_of_filter. }
  apply Exists_exists. exists (orphan ids h). split.
  - by apply list_elem_of_fmap_2, list_elem_of_filter.
  - by repeat split.
Qed.

(** X20. The routes keep parent links and paths in agreement: after any of them
    every folder that has a parent still hangs under a stored folder of its
    own tenant whose path is the folder's path without the last label. *)
Theorem routes_keep_tree_shape (db : Db) :
  tree_shaped db ->
  (forall newFolderId req,
     is_uuid newFolderId = true -> tree_shaped (createSubfolder newFolderId req db).2)
  /\ (forall req, tree_shaped (renameFolder req db).2)
  /\ (forall req, tree_shaped (deleteSubtree req db).2)
  /\ (forall newTenantId newRootId req,
        tree_shaped (createTenant newTenantId newRootId req db).2)
  /\ (forall req, tree_shaped (deleteTenant req db).2).
Proof.
  intros Hc. split; [|split; [|split; [|split]]].
  - intros newFolderId req Huuid.
    destruct (createSubfolder newFolderId req db) as [resp db'] eqn:E. simpl.
    apply createSubfolder_inv in E as [[_ ->]|(_ & _ & H)]; [done|].
    destruct H as (t & pid & n & parent & rest & path & Ht & Hpid & Hn & Hf & Hpath & Hins).
    apply insert_folder_inr in Hins as (-> & _).
    assert (parent ∈ filter (fun f => Folder.id f = pid
              /\ Some (Folder.tenantId f) = Body.tenantId (body req)) (folders db))
      as [[Hparid Hpt] Hparent]%list_elem_of_filter by (rewrite Hf; left).
    rewrite Ht in Hpt. injection Hpt as Hpt.
    apply tree_shaped_app; [done|]. intros _. apply Exists_exists. exists parent.
    split; [done|]. split; [simpl; congruence|]. split; [done|]. simpl.
    apply ltree_in_child_inv in Hpath as [_ ->]. f_equal.
    apply split_dotless, label_ok_dotless, uuid_label_ok, Huuid.
  - intros req. destruct (renameFolder_inv req db) as [->|(n & f & _ & _ & _ & ->)]; [done|].
    unfold tree_shaped in *. simpl. apply Forall_fmap, Forall_forall. intros g Hg Hp.
    rewrite Forall_forall in Hc.
    assert (is_Some (Folder.parentId g)) as Hgp by (by destruct (decide _)).
    pose proof (Hc g Hg Hgp) as Hex.
    apply Exists_exists in Hex as (h & Hh & Hpar & Hten & Hpath).
    apply Exists_exists. eexists. split; [by apply (list_elem_of_fmap_2 _ _ h)|].
    by destruct (decide (Folder.id g = _)); destruct (decide (Folder.id h = _)).
  - intros req. destruct (deleteSubtree req db) as [resp db'] eqn:E. simpl.
    apply deleteSubtree_inv in E as [[_ ->]|(_ & _ & H)]; [done|].
    destruct H as (f & rest & parentId & k & db1 & n & _ & _ & Hfiles & Hfolders & _).
    apply delete_files_under_inr in Hfiles as ->.
    apply delete_folders_under_inr in Hfolders as (_ & Hfolders & _).
    unfold tree_shaped in *. rewrite Hfolders. simpl.
    by apply (tree_shaped_orphan (in_subtree (Folder.path f) (Params.tenantId (params req)))).
  - intros newTenantId newRootId req.
    destruct (createTenant newTenantId newRootId req db) as [resp db'] eqn:E. simpl.
    apply createTenant_inv in E as [[_ ->]|(_ & u & n & result & _ & _ & H)]; [done|].
    apply provision_inr in H as (path & _ & _ & _ & ->).
    apply (tree_shaped_app db (Folder.mk newRootId "root" None newTenantId path) Hc).
    by intros [p Hp].
  - intros req. destruct (deleteTenant req db) as [resp db'] eqn:E. simpl.
    apply deleteTenant_inv in E as [[_ ->]|[_ Hp]]; [done|].
    apply purge_inr in Hp. simpl in Hp. subst db'. unfold tree_shaped in *. simpl.
    pose proof (tree_shaped_orphan
                  (fun f => Folder.tenantId f = Params.tenantId (params req))
                  (folders db) Hc) as Hkept.
    exact Hkept.
Qed.

Lemma routes_keep_tree_shape_witness :
  (forall newFolderId req,
     is_uuid newFolderId = true ->
     tree_shaped (createSubfolder newFolderId req Scenario.store).2)
  /\ (forall req, tree_shaped (renameFolder req Scenario.store).2)
  /\ (forall req, tree_shaped (deleteSubtree req Scenario.store).2)
  /\ (forall newTenantId newRootId req,
        tree_shaped (createTenant newTenantId newRootId req Scenario.store).2)
  /\ (forall req, tree_shaped (deleteTenant req Scenario.store).2).
Proof.
  apply (routes_keep_tree_shape Scenario.store).
  apply (bool_decide_unpack _). vm_compute. exact I.
Defined.

(** ** Subfolders *)

Lemma listChildren_run (collate : string -> string -> Prop) `{!RelDecision collate}
  req db f :
  passes None req db ->
  f ∈ folders db ->
  Folder.id f = Params.folderId (params req) ->
  Folder.tenantId f = Params.tenantId (params req) ->
  listChildren collate req db
  = (mkReply 200 None None
       (Subfolders ((fun g => Subfolder.mk (Folder.id g) (Folder.name g))
                      <$> merge_sort (by_name collate)
                            (filter (fun g => Folder.parentId g = Some (Folder.id f)
                                              /\ Folder.tenantId g = Folder.tenantId f)
                                    (folders db)))),
     db).
Proof.
  intros Hp Hf Hid Ht. apply passes_next in Hp as (req' & Hmw & Hpr & _).
  unfold listChildren, reply_route. rewrite Hmw.
  unfold reply_try_catch, listChildren_body. rewrite Hpr, <- Hid, <- Ht.
  unfold mbind, Prisma_bind, query.
  destruct (findFirst _ _) as [f0|] eqn:Hfound; [done|].
  rewrite findFirst_None in Hfound. by destruct (Hfound f Hf).
Qed.

(** X21. For a folder that exists in the tenant of the URL, the children route
    answers 200 with one row per folder of that tenant whose parent is the
    folder, in the order of their names under the collation of the
    database. *)
Theorem listChildren_exact (collate : string -> string -> Prop) `{!RelDecision collate}
  (req : Request) (db : Db) (f : Folder.t) :
  (forall a b, collate a b \/ collate b a) ->
  passes None req db ->
  f ∈ folders db ->
  Folder.id f = Params.folderId (params req) ->
  Folder.tenantId f = Params.tenantId (params req) ->
  exists l,
    listChildren collate req db
    = (mkReply 200 None None
         (Subfolders ((fun g => Subfolder.mk (Folder.id g) (Folder.name g)) <$> l)),
       db)
    /\ l ≡ₚ filter (fun g => Folder.parentId g = Some (Folder.id f)
                             /\ Folder.tenantId g = Folder.tenantId f) (folders db)
    /\ Sorted (fun a b => collate (Folder.name a) (Folder.name b)) l.
Proof.
  intros Htotal Hp Hf Hid Ht. eexists. split; [by apply (listChildren_run collate)|].
  split; [apply merge_sort_Permutation|].
  assert (Total (by_name collate)) as Htot by (intros a b; apply Htotal).
  apply (Sorted_merge_sort (by_name collate)).
Qed.

Lemma byte_order_total a b : byte_order a b \/ byte_order b a.
Proof.
  unfold byte_order, String.leb. rewrite (String.compare_antisym a b).
  destruct (String.compare b a); simpl; auto.
Qed.

Lemma listChildren_exact_witness :
  let req := Scenario.request "alice" Scenario.acme Scenario.acme_root Scenario.no_body in
  let top := Folder.mk Scenario.acme_root "root" None Scenario.acme Scenario.acme_root_path in
  subfolders (listChildren byte_order req Scenario.store).1
  = [Subfolder.mk Scenario.archive "Archive"; Subfolder.mk Scenario.reports "Reports"]
  /\ exists l,
       listChildren byte_order req Scenario.store
       = (mkReply 200 None None
            (Subfolders ((fun g => Subfolder.mk (Folder.id g) (Folder.name g)) <$> l)),
          Scenario.store)
       /\ l ≡ₚ filter (fun g => Folder.parentId g = Some (Folder.id top)
                                /\ Folder.tenantId g = Folder.tenantId top)
                      (folders Scenario.store)
       /\ Sorted (fun a b => byte_order (Folder.name a) (Folder.name b)) l.
Proof.
  intros req top. split; [vm_compute; reflexivity|].
  apply (listChildren_exact byte_order req Scenario.store top).
  - apply byte_order_total.
  - eexists. vm_compute. reflexivity.
  - apply (bool_decide_unpack _). vm_compute. exact I.
  - reflexivity.
  - reflexivity.
Defined.

(** X22. In a tree-shaped database every row of the children route is also a row
    of the descendants route for the same folder, at depth 1: the parent
    links and the paths tell the same story. *)
Theorem children_are_descendants (collate : string -> string -> Prop)
  `{!RelDecision collate} (req : Request) (db : Db) (f : Folder.t) (row : Subfolder.t) :
  tree_shaped db ->
  folder_ids_unique db ->
  passes None req db ->
  f ∈ folders db ->
  Folder.id f = Params.folderId (params req) ->
  Folder.tenantId f = Params.tenantId (params req) ->
  row ∈ subfolders (listChildren collate req db).1 ->
  listed (Subfolder.id row) (listDescendants req db).1
  /\ depth_of (Subfolder.id row) (listDescendants req db).1 = Some 1%Z.
Proof.
  intros Hshape Hu Hp Hf Hid Ht.
  rewrite (listChildren_run collate req db f Hp Hf Hid Ht),
    (listDescendants_run req db f Hu Hp Hf Hid Ht).
  unfold subfolders. simpl.
  intros (g & -> & Hg)%list_elem_of_fmap. simpl.
  rewrite (merge_sort_Permutation (by_name collate)) in Hg.
  apply list_elem_of_filter in Hg as [[Hpar Hgt] Hg].
  unfold tree_shaped in Hshape. rewrite Forall_forall in Hshape.
  assert (Exists (hangs_under g) (folders db)) as Hex by (apply (Hshape g Hg); by eexists).
  apply Exists_exists in Hex as (h & Hh & Hhp & Hht & Hpath).
  assert (h = f) as ->.
  { apply (NoDup_fmap_elem Folder.id (folders db)); try done. congruence. }
  set (kept := merge_sort by_path _).
  assert (Folder.id g <> Folder.id f) as Hne.
  { intros Heq. assert (g = f) as -> by (by apply (NoDup_fmap_elem Folder.id (folders db))).
    apply (f_equal length) in Hpath. rewrite length_app in Hpath. simpl in Hpath. lia. }
  assert (g ∈ kept) as Hkept.
  { unfold kept. rewrite (merge_sort_Permutation by_path).
    apply list_elem_of_filter. split; [|done]. split; [|done].
    split; [|done]. unfold Ltree.risparent, Ltree.isparent. rewrite Hpath.
    by apply prefix_app_r. }
  assert (NoDup (Folder.id <$> kept)) as Hnd.
  { unfold kept. rewrite (merge_sort_Permutation by_path).
    by apply (NoDup_fmap_filter Folder.id). }
  split.
  - unfold listed, rows. simpl. rewrite <- list_fmap_compose.
    by apply (list_elem_of_fmap_2 (FolderWithPath.id ∘ descendant_row (Folder.path f))
                kept g).
  - unfold depth_of, rows. simpl.
    assert (findFirst (fun r => FolderWithPath.id r = Folder.id g)
              (descendant_row (Folder.path f) <$> kept)
            = Some (descendant_row (Folder.path f) g)) as ->.
    { by apply (findFirst_fmap_unique Folder.id (descendant_row (Folder.path f))
                  FolderWithPath.id kept g). }
    simpl. f_equal. unfold Ltree.nlevel. rewrite Hpath, length_app. simpl. lia.
Qed.

Lemma children_are_descendants_witness :
  let req := Scenario.request "alice" Scenario.acme Scenario.acme_root Scenario.no_body in
  listed Scenario.archive (listDescendants req Scenario.store).1
  /\ depth_of Scenario.archive (listDescendants req Scenario.store).1 = Some 1%Z.
Proof.
  intros req.
  apply (children_are_descendants byte_order req Scenario.store
           (Folder.mk Scenario.acme_root "root" None Scenario.acme Scenario.acme_root_path)
           (Subfolder.mk Scenario.archive "Archive")).
  - apply (bool_decide_unpack _). vm_compute. exact I.
  - apply (bool_decide_unpack _). vm_compute. exact I.
  - eexists. vm_compute. reflexivity.
  - apply (bool_decide_unpack _). vm_compute. exact I.
  - reflexivity.
  - reflexivity.
  - apply (bool_decide_unpack _). vm_compute. exact I.
Defined.

(** ** The rate limiter *)

Lemma rateLimit_opens m w c now (requests : Requests) :
  (requests !! identifier c = None
   \/ exists e, requests !! identifier c = Some e /\ (now > Window.resetTime e)%Z) ->
  rateLimit m w c now requests
  = (Next, <[identifier c := Window.mk 1 (now + w)]> requests).
Proof.
  unfold rateLimit. intros [->|(e & -> & Hlate)]; [done|]. by rewrite decide_True.
Qed.

Lemma rateLimit_counts m w c now (requests : Requests) e :
  requests !! identifier c = Some e ->
  (now <= Window.resetTime e)%Z -> (Window.count e < m)%Z ->
  rateLimit m w c now requests
  = (Next,
     <[identifier c := Window.mk (Window.count e + 1) (Window.resetTime e)]> requests).
Proof.
  unfold rateLimit. intros -> Hin Hroom.
  rewrite decide_False by lia. by rewrite decide_False by lia.
Qed.

Lemma rateLimit_refuses m w c now (requests : Requests) e :
  requests !! identifier c = Some e ->
  (now <= Window.resetTime e)%Z -> (Window.count e >= m)%Z ->
  rateLimit m w c now requests
  = (TooManyRequests (ceil_seconds (Window.resetTime e - now)), requests).
Proof.
  unfold rateLimit. intros -> Hin Hfull.
  rewrite decide_False by lia. by rewrite decide_True by lia.
Qed.

Lemma serve_cons m w c now rest requests :
  serve m w ((c, now) :: rest) requests
  = ((rateLimit m w c now requests).1
       :: (serve m w rest (rateLimit m w c now requests).2).1,
     (serve m w rest (rateLimit m w c now requests).2).2).
Proof.
  simpl. destruct (rateLimit m w c now requests) as [x requests']. simpl.
  by destruct (serve m w rest requests') as [xs requests''].
Qed.

Lemma serve_window m w c nows (requests : Requests) e :
  requests !! identifier c = Some e ->
  Forall (fun now => (now <= Window.resetTime e)%Z) nows ->
  passed <$> (serve m w ((fun now => (c, now)) <$> nows) requests).1
  = (replicate (length nows `min` Z.to_nat (m - Window.count e)) true
     ++ replicate (length nows - Z.to_nat (m - Window.count e)) false)%list.
Proof.
  intros He Hin. revert requests e He Hin.
  induction nows as [|now nows IH]; intros requests e He Hin; [done|].
  apply Forall_cons in Hin as [Hnow Hin]. rewrite fmap_cons, serve_cons.
  destruct (decide (Window.count e < m)%Z) as [Hroom|Hfull].
  - rewrite (rateLimit_counts m w c now requests e He Hnow Hroom).
    cbn [fst snd]. rewrite fmap_cons. cbn [passed].
    rewrite (IH _ (Window.mk (Window.count e + 1) (Window.resetTime e)));
      [|apply lookup_insert_eq|done].
    cbn [Window.count Window.resetTime length].
    replace (Z.to_nat (m - Window.count e))
      with (S (Z.to_nat (m - (Window.count e + 1)))) by lia.
    done.
  - rewrite (rateLimit_refuses m w c now requests e He Hnow) by lia.
    cbn [fst snd]. rewrite fmap_cons. cbn [passed].
    rewrite (IH _ e He Hin). cbn [length].
    replace (Z.to_nat (m - Window.count e)) with 0 by lia.
    rewrite !Nat.min_0_r, !Nat.sub_0_r. done.
Qed.

(** X23. Of the calls one client makes within a window, from the call that opens
    it up to and including the millisecond at which it ends, the first goes
    through whatever the limit is, then as many as the limit still allows,
    and every later one is refused. *)
Theorem rateLimit_window (maxRequests windowMs : Z) (c : Client.t) (t0 : Z)
  (nows : list Z) (requests : Requests) :
  (requests !! identifier c = None
   \/ exists e, requests !! identifier c = Some e /\ (t0 > Window.resetTime e)%Z) ->
  Forall (fun now => (now <= t0 + windowMs)%Z) nows ->
  passed <$> (serve maxRequests windowMs ((c, t0) :: ((fun now => (c, now)) <$> nows))
                requests).1
  = (true :: replicate (length nows `min` Z.to_nat (maxRequests - 1)) true
     ++ replicate (length nows - Z.to_nat (maxRequests - 1)) false)%list.
Proof.
  intros Hopen Hin. rewrite serve_cons, (rateLimit_opens _ _ _ _ _ Hopen).
  cbn [fst snd]. rewrite fmap_cons. cbn [passed]. f_equal.
  rewrite (serve_window maxRequests windowMs c nows _ (Window.mk 1 (t0 + windowMs)));
    [done|apply lookup_insert_eq|done].
Qed.

Lemma rateLimit_window_witness :
  let c := Client.mk None (Some "203.0.113.7") None None in
  passed <$> (serve 5%Z 900000%Z
                ((c, 1000%Z) :: ((fun now => (c, now))
                                   <$> [1001; 2000; 2000; 5000; 900999; 901000]%Z))
                ∅).1
  = [true; true; true; true; true; false; false].
Proof.
  intros c.
  apply (rateLimit_window 5%Z 900000%Z c 1000%Z
           [1001; 2000; 2000; 5000; 900999; 901000]%Z ∅).
  - left. reflexivity.
  - apply (bool_decide_unpack _). vm_compute. exact I.
Defined.

Lemma rateLimit_local m w c now (r1 r2 : Requests) :
  r1 !! identifier c = r2 !! identifier c ->
  (rateLimit m w c now r1).1 = (rateLimit m w c now r2).1
  /\ (rateLimit m w c now r1).2 !! identifier c = (rateLimit m w c now r2).2 !! identifier c.
Proof.
  unfold rateLimit. intros Heq. rewrite <- Heq.
  destruct (r1 !! identifier c) as [e|] eqn:He; [|simpl; by rewrite !lookup_insert_eq].
  repeat case_decide; simpl; rewrite ?lookup_insert_eq; try done. split; congruence.
Qed.

Lemma rateLimit_frame m w c now (requests : Requests) i :
  identifier c <> i -> (rateLimit m w c now requests).2 !! i = requests !! i.
Proof.
  unfold rateLimit. intros Hne.
  destruct (requests !! identifier c) as [e|]; repeat case_decide; simpl;
    by rewrite ?lookup_insert_ne.
Qed.

(** X24. One client's budget is its own: the answers a client gets in any
    interleaving with the calls of other identifiers are the answers it
    would get if those other calls had never been made. *)
Theorem rateLimit_isolated (maxRequests windowMs : Z) (i : string)
  (calls : list (Client.t * Z)) (requests : Requests) :
  answers_to i calls (serve maxRequests windowMs calls requests).1
  = (serve maxRequests windowMs (filter (fun call => identifier (fst call) = i) calls)
       requests).1.
Proof.
  assert (forall r1 r2 : Requests, r1 !! i = r2 !! i ->
            answers_to i calls (serve maxRequests windowMs calls r1).1
            = (serve maxRequests windowMs
                 (filter (fun call => identifier (fst call) = i) calls) r2).1) as H;
    [|by apply H].
  induction calls as [|[c now] calls IH]; intros r1 r2 Heq; [done|].
  rewrite serve_cons. cbn [fst]. unfold answers_to. cbn [zip zip_with].
  rewrite !filter_cons. cbn [fst].
  destruct (decide (identifier c = i)) as [<-|Hne].
  - rewrite serve_cons, fmap_cons. cbn [fst snd].
    destruct (rateLimit_local maxRequests windowMs c now r1 r2 Heq) as [Hx Hr].
    rewrite Hx. f_equal. by apply IH.
  - apply IH. by rewrite rateLimit_frame.
Qed.

(** X25. A refused client is told how many seconds remain of its window, rounded
    up, and the refusal changes nothing.  Any call later than that passes;
    a call made exactly that many seconds later is refused again, with a
    wait of zero seconds, when the remaining time was a whole number of
    seconds, because the window ends only after its last millisecond.
    The times are those a clock gives: the call is not before the epoch and
    the window ends no later than [max_safe_integer] milliseconds after it,
    the range in which the program's arithmetic on doubles is the
    arithmetic on integers of [rateLimit]. *)
Theorem rateLimit_retry_after (maxRequests windowMs : Z) (c : Client.t) (now : Z)
  (requests : Requests) (e : Window.t) :
  requests !! identifier c = Some e ->
  (0 <= now)%Z ->
  (Window.resetTime e <= max_safe_integer)%Z ->
  (now <= Window.resetTime e)%Z ->
  (Window.count e >= maxRequests)%Z ->
  exists r,
    rateLimit maxRequests windowMs c now requests = (TooManyRequests r, requests)
    /\ (Window.resetTime e - now <= 1000 * r < Window.resetTime e - now + 1000)%Z
    /\ (forall later, (later > now + 1000 * r)%Z ->
          (rateLimit maxRequests windowMs c later requests).1 = Next)
    /\ ((Window.resetTime e - now) mod 1000 = 0 ->
        (rateLimit maxRequests windowMs c (now + 1000 * r) requests).1
        = TooManyRequests 0)%Z.
Proof.
  intros He _ _ Hin Hfull. exists (ceil_seconds (Window.resetTime e - now)).
  split; [by apply rateLimit_refuses|].
  assert (Window.resetTime e - now
          <= 1000 * ceil_seconds (Window.resetTime e - now)
          < Window.resetTime e - now + 1000)%Z as Hceil.
  { unfold ceil_seconds.
    pose proof (Z.div_mod (- (Window.resetTime e - now)) 1000 ltac:(lia)) as Hdm.
    pose proof (Z.mod_pos_bound (- (Window.resetTime e - now)) 1000 ltac:(lia)) as Hb.
    lia. }
  split; [done|]. split.
  - intros later Hlater. rewrite rateLimit_opens; [done|]. right. exists e. split; [done|lia].
  - intros Hwhole.
    assert (1000 * ceil_seconds (Window.resetTime e - now) = Window.resetTime e - now)%Z
      as Hexact.
    { unfold ceil_seconds.
      pose proof (Z.div_mod (- (Window.resetTime e - now)) 1000 ltac:(lia)) as Hdm.
      assert ((- (Window.resetTime e - now)) mod 1000 = 0)%Z as Hneg.
      { apply Z.mod_divide in Hwhole; [|lia]. apply Z.mod_divide; [lia|].
        by apply Z.divide_opp_r. }
      lia. }
    rewrite Hexact. rewrite (rateLimit_refuses _ _ _ _ _ e He) by lia. simpl.
    f_equal. unfold ceil_seconds.
    replace (Window.resetTime e - (now + (Window.resetTime e - now)))%Z with 0%Z by lia.
    done.
Qed.

Lemma rateLimit_retry_after_witness :
  let c := Client.mk (Some "alice") None None None in
  let requests : Requests := {[ "alice" := Window.mk 5 901000 ]} in
  exists r,
    rateLimit 5 900000 c 898000 requests = (TooManyRequests r, requests)
    /\ (901000 - 898000 <= 1000 * r < 901000 - 898000 + 1000)%Z
    /\ (forall later, (later > 898000 + 1000 * r)%Z ->
          (rateLimit 5 900000 c later requests).1 = Next)
    /\ ((901000 - 898000) mod 1000 = 0 ->
        (rateLimit 5 900000 c (898000 + 1000 * r) requests).1 = TooManyRequests 0)%Z.
Proof.
  intros c requests.
  apply (rateLimit_retry_after 5 900000 c 898000 requests (Window.mk 5 901000)).
  - reflexivity.
  - lia.
  - vm_compute. discriminate.
  - simpl. lia.
  - simpl. lia.
Defined.

(** ** Roles *)

(** X26. Asking for a role in a second middleware is the same as asking for it
    in the first: [requireTenantAccess()] followed by [requireRole(role)]
    lets through and turns away exactly the requests that
    [requireTenantAccess(role)] does, with the same answers and the same
    request handed on. *)
Theorem requireRole_after_access (role : UserRole) (req : Request) (db : Db) :
  chain (requireTenantAccess None) (requireRole role) req db
  = requireTenantAccess (Some role) req db.
Proof.
  unfold chain, requireTenantAccess.
  destruct (user req) as [u|]; [|done].
  case_decide; [done|].
  unfold mbind, Prisma_bind, query.
  destruct (findFirst _ _) as [m|]; [|done].
  unfold insufficient, requireRole. simpl.
  by destruct (roleHierarchy (TenantMember.role m) <? roleHierarchy role)%nat.
Qed.

(** ** Sessions *)

Lemma session_with_user_Some sessionId db s user :
  session_with_user sessionId db = Some (s, user) ->
  s ∈ sessions db /\ Session.id s = sessionId
  /\ user = findFirst (fun a => Account.id a = Session.userId s) (accounts db).
Proof.
  unfold session_with_user. destruct (findFirst _ (sessions db)) as [s0|] eqn:Hs; [|done].
  simpl. intros [= <- <-]. apply findFirst_Some in Hs as [Hin Hid]. done.
Qed.

(** X27. A request gets past [authenticate] only with a bearer token that
    verifies, whose session is stored and has not expired, and whose account
    is active and not suspended.  The identity attached is the one of the
    session's account row, not the one written in the token, and the only
    write is the activity time of that session. *)
Theorem authenticate_guarantee (jwt_verify : string -> option JwtPayload.t)
  (authorization : option string) (now activity : Z) (db db' : AuthDb) (p : Principal) :
  authenticate jwt_verify authorization now activity db = (db', Attached p) ->
  exists token payload s a,
    bearer authorization = Some token
    /\ jwt_verify token = Some payload
    /\ s ∈ sessions db /\ Session.id s = JwtPayload.sessionId payload
    /\ (now <= Session.expiresAt s)%Z
    /\ a ∈ accounts db /\ Account.id a = Session.userId s
    /\ Account.isActive a = true /\ Account.isSuspended a = false
    /\ p = mkPrincipal (Account.id a) (Account.email a) (Session.id s)
    /\ db' = touch (Session.id s) activity db.
Proof.
  unfold authenticate, verifyAccessToken.
  destruct (bearer authorization) as [token|]; [|done].
  destruct (jwt_verify token) as [payload|] eqn:Hv; [|done].
  destruct (session_with_user _ db) as [[s user]|] eqn:Hs; [|done].
  apply session_with_user_Some in Hs as (Hs & Hid & ->).
  case_decide as Hexp; [done|].
  destruct (findFirst _ (accounts db)) as [a|] eqn:Ha; [|done].
  apply findFirst_Some in Ha as [Ha Haid].
  destruct (Account.isSuspended a) eqn:Hsus; [done|].
  destruct (Account.isActive a) eqn:Hact; [|done]. simpl.
  intros [= <- <-]. exists token, payload, s, a. repeat split; try done. lia.
Qed.

Lemma authenticate_guarantee_witness :
  exists token payload s a,
    bearer (Some "Bearer t1") = Some token
    /\ toy_verify token = Some payload
    /\ s ∈ sessions toy_sessions /\ Session.id s = JwtPayload.sessionId payload
    /\ (5000 <= Session.expiresAt s)%Z
    /\ a ∈ accounts toy_sessions /\ Account.id a = Session.userId s
    /\ Account.isActive a = true /\ Account.isSuspended a = false
    /\ mkPrincipal "u1" "ann@example.org" "s1"
       = mkPrincipal (Account.id a) (Account.email a) (Session.id s)
    /\ touch "s1" 5001 toy_sessions = touch (Session.id s) 5001 toy_sessions.
Proof.
  apply (authenticate_guarantee toy_verify (Some "Bearer t1") 5000 5001 toy_sessions
           (touch "s1" 5001 toy_sessions) (mkPrincipal "u1" "ann@example.org" "s1")).
  vm_compute. reflexivity.
Defined.

(** X28. [optionalAuth] and [authenticate] do not draw the same line.  A user
    that [optionalAuth] attaches is one that [authenticate] attaches too, or
    a suspended one, whom [authenticate] answers 403.  A user that
    [authenticate] attaches is attached by [optionalAuth] too, unless the
    session expires at this very millisecond: [authenticate] still takes
    it, [optionalAuth] no longer does. *)
Theorem optionalAuth_vs_authenticate (jwt_verify : string -> option JwtPayload.t)
  (authorization : option string) (now activity : Z) (db : AuthDb) (p : Principal) :
  (optionalAuth jwt_verify authorization now db = Some p ->
     (authenticate jwt_verify authorization now activity db).2 = Attached p
     \/ (authenticate jwt_verify authorization now activity db).2
        = Rejected 403 "Account suspended" "ACCOUNT_SUSPENDED")
  /\ ((authenticate jwt_verify authorization now activity db).2 = Attached p ->
        optionalAuth jwt_verify authorization now db = Some p
        \/ (optionalAuth jwt_verify authorization now db = None
            /\ exists s, s ∈ sessions db /\ Session.id s = p_sessionId p
                         /\ Session.expiresAt s = now)).
Proof.
  unfold optionalAuth, authenticate, verifyAccessToken.
  destruct (bearer authorization) as [token|]; [|done].
  destruct (jwt_verify token) as [payload|]; [|done].
  destruct (session_with_user _ db) as [[s user]|] eqn:Hs; [|done].
  apply session_with_user_Some in Hs as (Hs & Hid & ->).
  destruct (findFirst _ (accounts db)) as [a|];
    destruct (decide (Session.expiresAt s > now)%Z);
    destruct (decide (Session.expiresAt s < now)%Z); try lia; try done.
  - destruct (Account.isSuspended a), (Account.isActive a); simpl;
      split; intros H; try discriminate; try (injection H as <-); auto.
  - destruct (Account.isSuspended a), (Account.isActive a); simpl;
      split; intros H; try discriminate.
    injection H as <-. right. split; [done|]. exists s. simpl.
    split; [done|]. split; [done|]. lia.
Qed.

Lemma optionalAuth_vs_authenticate_witness :
  let p := mkPrincipal "u1" "ann@example.org" "s1" in
  (optionalAuth toy_verify (Some "Bearer t1") 4000 toy_suspended = Some p
   /\ (authenticate toy_verify (Some "Bearer t1") 4000 4001 toy_suspended).2
      = Rejected 403 "Account suspended" "ACCOUNT_SUSPENDED")
  /\ ((authenticate toy_verify (Some "Bearer t1") 5000 5001 toy_sessions).2 = Attached p
      /\ optionalAuth toy_verify (Some "Bearer t1") 5000 toy_sessions = None)
  /\ ((optionalAuth toy_verify (Some "Bearer t1") 4000 toy_sessions = Some p ->
         (authenticate toy_verify (Some "Bearer t1") 4000 4001 toy_sessions).2 = Attached p
         \/ (authenticate toy_verify (Some "Bearer t1") 4000 4001 toy_sessions).2
            = Rejected 403 "Account suspended" "ACCOUNT_SUSPENDED")
      /\ ((authenticate toy_verify (Some "Bearer t1") 4000 4001 toy_sessions).2 = Attached p ->
            optionalAuth toy_verify (Some "Bearer t1") 4000 toy_sessions = Some p
            \/ (optionalAuth toy_verify (Some "Bearer t1") 4000 toy_sessions = None
                /\ exists s, s ∈ sessions toy_sessions /\ Session.id s = p_sessionId p
                             /\ Session.expiresAt s = 4000%Z))).
Proof.
  intros p. split; [split; vm_compute; reflexivity|].
  split; [split; vm_compute; reflexivity|].
  apply (optionalAuth_vs_authenticate toy_verify (Some "Bearer t1") 4000 4001 toy_sessions p).
Defined.

(** ** The only administrator *)

(** X29. The only TENANT_ADMIN of a tenant cannot leave it, cannot remove
    itself and cannot demote itself: each of the three routes answers 400
    and writes nothing. *)
Theorem last_admin_stays (req : Request) (db : Db) (u : User.t) (m : TenantMember.t) :
  memberships_unique db ->
  user req = Some u ->
  Params.tenantId (params req) <> "" ->
  m ∈ tenantMembers db ->
  is_membership (User.id u) (Params.tenantId (params req)) m ->
  TenantMember.role m = TENANT_ADMIN ->
  admins (Params.tenantId (params req)) db = 1 ->
  leaveTenant req db
  = (plain 400 ("You cannot leave as you are the last admin. "
                ++ "Transfer admin rights or delete the tenant."), db)
  /\ removeMember (User.id u) req db
     = (plain 400 "Cannot remove the last admin. Delete the tenant instead.", db)
  /\ updateMember (User.id u) (Some "USER") req db
     = (plain 400 "Cannot demote the last admin. Promote another member first.", db).
Proof.
  intros Huniq Hu Htid Hm [Hmu Hmt] Hrole Hone.
  assert (findFirst (fun x => TenantMember.userId x = User.id u
                              /\ TenantMember.tenantId x = Params.tenantId (params req))
                    (tenantMembers db) = Some m) as Hfound
    by (by apply membership_found).
  assert (forall r,
            insufficient r TENANT_ADMIN = false ->
            requireTenantAccess r req db
            = (db, inr (inr (mkRequest
                               (Some (User.mk (User.id u) (Some TENANT_ADMIN)
                                        (Some (Params.tenantId (params req)))))
                               (params req) (body req))))) as Hmw.
  { intros r Hrank. unfold requireTenantAccess. rewrite Hu. case_decide; [done|].
    unfold mbind, Prisma_bind, query. by rewrite Hfound, Hrole, Hrank. }
  assert (forall db0, last_admin (Params.tenantId (params req)) m db0
                      = (db0, inr (bool_decide (admins (Params.tenantId (params req)) db0 = 1))))
    as Hlast.
  { intros db0. rewrite last_admin_run. do 2 f_equal. apply bool_decide_ext. tauto. }
  split; [|split].
  - unfold leaveTenant, reply_route. rewrite Hmw by done.
    unfold reply_try_catch, leaveTenant_body. simpl.
    unfold mbind, Prisma_bind, tenantMember_findUnique, query, is_membership.
    rewrite Hfound, Hlast, Hone. done.
  - unfold removeMember, reply_route. rewrite Hmw by done.
    unfold reply_try_catch, removeMember_body. simpl.
    unfold mbind, Prisma_bind, tenantMember_findUnique, query, is_membership.
    rewrite Hfound, Hlast, Hone. done.
  - unfold updateMember, reply_route. rewrite Hmw by done.
    unfold reply_try_catch, updateMember_body, updateMember_checked. simpl.
    unfold mbind, Prisma_bind, tenantMember_findUnique, tenantMember_count_admins, query,
      is_membership.
    rewrite Hfound. unfold demotes. rewrite Hrole. simpl. by rewrite Hone.
Qed.

Lemma last_admin_stays_witness :
  let req := Scenario.request "carol" Scenario.acme "" Scenario.no_body in
  leaveTenant req Scenario.store
  = (plain 400 ("You cannot leave as you are the last admin. "
                ++ "Transfer admin rights or delete the tenant."), Scenario.store)
  /\ removeMember "carol" req Scenario.store
     = (plain 400 "Cannot remove the last admin. Delete the tenant instead.", Scenario.store)
  /\ updateMember "carol" (Some "USER") req Scenario.store
     = (plain 400 "Cannot demote the last admin. Promote another member first.",
        Scenario.store).
Proof.
  intros req.
  apply (last_admin_stays req Scenario.store (User.mk "carol" None None)
           (TenantMember.mk "carol" Scenario.acme TENANT_ADMIN)).
  - apply (bool_decide_unpack _). vm_compute. exact I.
  - reflexivity.
  - discriminate.
  - apply (bool_decide_unpack _). vm_compute. exact I.
  - split; reflexivity.
  - reflexivity.
  - vm_compute. reflexivity.
Defined.

(** ** Consistency, for every route that writes *)

Lemma consistent_members db ms : consistent db -> consistent (set_tenantMembers ms db).
Proof. intros [Hids Hfk Huuid Hroots]. by split. Qed.

Lemma consistent_updateTenant req db : consistent db -> consistent (updateTenant req db).2.
Proof.
  intros Hc. destruct (updateTenant_effect req db) as [->|(n & _ & _ & ->)]; [done|].
  destruct Hc as [Hids Hfk Huuid Hroots]. split; simpl; try done.
  - unfold folders_reference_tenants in *. simpl.
    eapply Forall_impl; [exact Hfk|]. intros g Hg.
    apply Exists_exists in Hg as (t & Ht & Hid). apply Exists_exists.
    eexists. split; [by apply (list_elem_of_fmap_2 _ _ t)|].
    cbv beta. by destruct (decide (Tenant.id t = Params.tenantId (params req))).
  - apply Forall_fmap. eapply Forall_impl; [exact Huuid|]. intros t Ht. simpl.
    by destruct (decide (Tenant.id t = Params.tenantId (params req))).
Qed.

Lemma consistent_deleteTenant req db : consistent db -> consistent (deleteTenant req db).2.
Proof.
  intros Hc. destruct (deleteTenant req db) as [resp db'] eqn:E. simpl.
  apply deleteTenant_inv in E as [[_ ->]|[_ Hp]]; [done|].
  apply purge_inr in Hp. simpl in Hp. subst db'.
  destruct Hc as [Hids Hfk Huuid Hroots]. split; simpl.
  - unfold folder_ids_unique in *. simpl. rewrite <- list_fmap_compose.
    by apply (NoDup_fmap_filter Folder.id).
  - unfold folders_reference_tenants in *. simpl.
    apply Forall_fmap, Forall_forall. intros g [Hgt Hg]%list_elem_of_filter.
    rewrite Forall_forall in Hfk. apply Hfk in Hg.
    apply Exists_exists in Hg as (t & Ht & Hid).
    apply Exists_exists. eexists. split.
    + apply list_elem_of_filter. split; [|by apply (list_elem_of_fmap_2 _ _ t)].
      simpl. congruence.
    + done.
  - apply Forall_forall. intros t [_ (t0 & -> & Ht0)%list_elem_of_fmap]%list_elem_of_filter.
    rewrite Forall_forall in Huuid. simpl. by apply Huuid.
  - apply Forall_fmap, Forall_forall. intros g [_ Hg]%list_elem_of_filter.
    rewrite Forall_forall in Hroots. unfold compose. simpl. by apply Hroots.
Qed.

(** X30. Every route that writes keeps the database consistent: folder
    identifiers stay unique, every folder belongs to a stored tenant, tenant
    identifiers are UUIDs and every path starts with the label of its
    folder's tenant.  This holds for the folder routes, for creating,
    renaming and deleting a tenant, and for the four membership routes. *)
Theorem write_routes_keep_consistency (db : Db) :
  consistent db ->
  (forall newFolderId req, consistent (createSubfolder newFolderId req db).2)
  /\ (forall req, consistent (renameFolder req db).2)
  /\ (forall req, consistent (deleteSubtree req db).2)
  /\ (forall newTenantId newRootId req,
        is_uuid newTenantId = true ->
        consistent (createTenant newTenantId newRootId req db).2)
  /\ (forall req, consistent (updateTenant req db).2)
  /\ (forall req, consistent (deleteTenant req db).2)
  /\ (forall req, consistent (joinTenant req db).2)
  /\ (forall req, consistent (leaveTenant req db).2)
  /\ (forall userId req, consistent (removeMember userId req db).2)
  /\ (forall userId role req, consistent (updateMember userId role req db).2).
Proof.
  intros Hc.
  split; [|split; [|split; [|split; [|split; [|split; [|split; [|split; [|split]]]]]]]].
  - intros. by apply consistent_createSubfolder.
  - intros. by apply consistent_renameFolder.
  - intros. by apply consistent_deleteSubtree.
  - intros. by apply consistent_createTenant.
  - intros. by apply consistent_updateTenant.
  - intros. by apply consistent_deleteTenant.
  - intros req. destruct (joinTenant_effect req db) as [->|(u & _ & ->)]; [done|].
    by apply consistent_members.
  - intros req. unfold leaveTenant, reply_route.
    destruct (requireTenantAccess None req db) as [db1 r] eqn:E.
    apply requireTenantAccess_inv in E as (-> & [(d & -> & _)|(req' & u & m & -> & _)]);
      [done|].
    unfold reply_try_catch.
    destruct (leaveTenant_body req' db) as [db1 [e|resp]] eqn:Hr;
      apply leaveTenant_body_effect in Hr as [->|(userId & x & _ & _ & _ & ->)];
      simpl; try done; by apply consistent_members.
  - intros userId req. unfold removeMember, reply_route.
    destruct (requireTenantAccess _ req db) as [db1 r] eqn:E.
    apply requireTenantAccess_inv in E as (-> & [(d & -> & _)|(req' & u & m & -> & _)]);
      [done|].
    unfold reply_try_catch.
    destruct (removeMember_body userId req' db) as [db1 [e|resp]] eqn:Hr;
      apply removeMember_body_effect in Hr as [->|(x & _ & _ & _ & ->)];
      simpl; try done; by apply consistent_members.
  - intros userId role req. unfold updateMember, reply_route.
    destruct (requireTenantAccess _ req db) as [db1 r] eqn:E.
    apply requireTenantAccess_inv in E as (-> & [(d & -> & _)|(req' & u & m & -> & _)]);
      [done|].
    unfold reply_try_catch.
    destruct (updateMember_body userId role req' db) as [db1 [e|resp]] eqn:Hr;
      apply updateMember_body_effect in Hr as [->|(x & newRole & _ & _ & _ & ->)];
      simpl; try done; by apply consistent_members.
Qed.

Lemma write_routes_keep_consistency_witness :
  (forall newFolderId req, consistent (createSubfolder newFolderId req Scenario.store).2)
  /\ (forall req, consistent (renameFolder req Scenario.store).2)
  /\ (forall req, consistent (deleteSubtree req Scenario.store).2)
  /\ (forall newTenantId newRootId req,
        is_uuid newTenantId = true ->
        consistent (createTenant newTenantId newRootId req Scenario.store).2)
  /\ (forall req, consistent (updateTenant req Scenario.store).2)
  /\ (forall req, consistent (deleteTenant req Scenario.store).2)
  /\ (forall req, consistent (joinTenant req Scenario.store).2)
  /\ (forall req, consistent (leaveTenant req Scenario.store).2)
  /\ (forall userId req, consistent (removeMember userId req Scenario.store).2)
  /\ (forall userId role req, consistent (updateMember userId role req Scenario.store).2).
Proof.
  apply (write_routes_keep_consistency Scenario.store).
  split; apply (bool_decide_unpack _); vm_compute; exact I.
Defined.
